(** * Cross-tabulation engine: a shallow embedding of [core/crosstab_engine.py]

    The development follows the source file top to bottom:
    - [F64]: the arithmetic of numpy's float64 cells, read over the reals and
      extended by the IEEE results of a division by zero (infinities, NaN);
    - [Py]: exceptions as an error monad, and insertion-ordered dicts;
    - [Pandas]: the fragment of DataFrame / [pd.crosstab] the engine calls;
    - [Scipy]: the statistical tests the engine delegates to, as an interface;
    - the classes [CrosstabGenerator], [BannerTableGenerator], [CrosstabEngine];
    - the properties of the engine, stated on these definitions.

    Counts are integers ([Z]); every number the code derives from them by a
    division or a square root is an [f64].  Rounding is not modelled: a finite
    [f64] is the real number the float approximates.  Where numpy computes on
    the int64 counts themselves, the wrap-around is written out ([wrap64]). *)

From Stdlib Require Import Reals Lra Lia ZArith List String Ascii Bool Permutation Sorted.
Import ListNotations.

Local Open Scope string_scope.
Local Open Scope list_scope.

(* ------------------------------------------------------------------------- *)
(** ** float64 values *)

Module F64.

Inductive f64 : Type :=
| Fin (x : R)
| PInf
| NInf
| NaN.

Definition of_int (z : Z) : f64 := Fin (IZR z).

(** Sign of a real as IEEE uses it to pick the infinity of [x / 0]. *)
Definition inf_of_sign (x : R) : f64 :=
  match total_order_T x 0 with
  | inleft (left _) => NInf
  | inleft (right _) => NaN
  | inright _ => PInf
  end.

Definition fneg (a : f64) : f64 :=
  match a with
  | Fin x => Fin (- x)
  | PInf => NInf
  | NInf => PInf
  | NaN => NaN
  end.

Definition fadd (a b : f64) : f64 :=
  match a, b with
  | NaN, _ | _, NaN => NaN
  | Fin x, Fin y => Fin (x + y)
  | PInf, NInf | NInf, PInf => NaN
  | PInf, _ | _, PInf => PInf
  | NInf, _ | _, NInf => NInf
  end.

Definition fsub (a b : f64) : f64 := fadd a (fneg b).

Definition fmul (a b : f64) : f64 :=
  match a, b with
  | NaN, _ | _, NaN => NaN
  | Fin x, Fin y => Fin (x * y)
  | Fin x, PInf | PInf, Fin x => inf_of_sign x
  | Fin x, NInf | NInf, Fin x => fneg (inf_of_sign x)
  | PInf, PInf | NInf, NInf => PInf
  | PInf, NInf | NInf, PInf => NInf
  end.

(** [x / 0] is [inf], [-inf] or (for [0 / 0]) [nan]; numpy warns and goes on. *)
Definition fdiv (a b : f64) : f64 :=
  match a, b with
  | NaN, _ | _, NaN => NaN
  | Fin x, Fin y =>
      if Req_EM_T y 0 then inf_of_sign x else Fin (x / y)
  | Fin _, (PInf | NInf) => Fin 0
  | PInf, Fin y => if Rlt_dec y 0 then NInf else PInf
  | NInf, Fin y => if Rlt_dec y 0 then PInf else NInf
  | (PInf | NInf), (PInf | NInf) => NaN
  end.

(** [np.sqrt]: [nan] below zero. *)
Definition fsqrt (a : f64) : f64 :=
  match a with
  | Fin x => if Rlt_dec x 0 then NaN else Fin (sqrt x)
  | PInf => PInf
  | NInf | NaN => NaN
  end.

Definition fsum (l : list f64) : f64 := fold_left fadd l (Fin 0).

(** [a] lies within [tol] of [b]; false for a non-finite [a]. *)
Definition close_to (tol : R) (a : f64) (b : R) : Prop :=
  match a with
  | Fin x => (Rabs (x - b) <= tol)%R
  | _ => False
  end.

(** A sum of finite cells is the finite sum of their values. *)
Fixpoint rsum (l : list R) : R :=
  match l with
  | [] => 0
  | x :: t => x + rsum t
  end.


End F64.
Export F64.

(* ------------------------------------------------------------------------- *)
(** ** Python: exceptions and dicts *)

Module Py.

(** The exceptions that reach the engine's caller.  The engine raises the
    builtin [ValueError] for every validation failure; [KeyError] and
    [TypeError] come from pandas and numpy when a label is missing or a
    column is not numeric.  The wording of a [TypeError] is the library's and
    is not modelled. *)
Inductive exn : Type :=
| ValueError (msg : string)
| KeyError (key : string)
| TypeError.

Inductive result (A : Type) : Type :=
| Ok (a : A)
| Raise (e : exn).

Arguments Ok {A} a.
Arguments Raise {A} e.

Definition bind {A B : Type} (c : result A) (k : A -> result B) : result B :=
  match c with
  | Ok a => k a
  | Raise e => Raise e
  end.

Definition is_ok {A : Type} (c : result A) : bool :=
  match c with Ok _ => true | Raise _ => false end.

(** A dict keeps its keys in insertion order; assigning to a key that is
    already present replaces the value and leaves the key where it was. *)
Definition dict (A : Type) : Type := list (string * A).

Fixpoint dict_set {A : Type} (k : string) (v : A) (d : dict A) : dict A :=
  match d with
  | [] => [(k, v)]
  | (k', v') :: t =>
      if String.eqb k' k then (k', v) :: t else (k', v') :: dict_set k v t
  end.

Definition keys {A : Type} (d : dict A) : list string := map fst d.

(** A text between double quotes. *)
Definition quoted (s : string) : string :=
  String (Ascii.ascii_of_nat 34) (s ++ String (Ascii.ascii_of_nat 34) EmptyString).

(** [sub in s]: substring test, as Python's [in] on strings. *)
Fixpoint contains (sub s : string) : bool :=
  if String.prefix sub s then true
  else match s with
       | EmptyString => false
       | String _ t => contains sub t
       end.

End Py.
Export Py.

Notation "x <- c ;; k" := (bind c (fun x => k))
  (at level 61, c at next level, right associativity).

Definition zsum (l : list Z) : Z := fold_right Z.add 0%Z l.

Fixpoint countb {A : Type} (p : A -> bool) (l : list A) : Z :=
  match l with
  | [] => 0
  | x :: t => (if p x then 1 else 0) + countb p t
  end.

(* ------------------------------------------------------------------------- *)
(** ** pandas: cell values, frames and [pd.crosstab] *)

Module Pandas.

(** A cell of a dataset column: a number, a string, or the missing marker. *)
Inductive value : Type :=
| VInt (z : Z)
| VStr (s : string)
| VNaN.

Definition notna (v : value) : bool :=
  match v with VNaN => false | _ => true end.

Definition isna (v : value) : bool := negb (notna v).

(** Identity of values, as [unique] and the grouping of [crosstab] see it. *)
Definition value_eqb (a b : value) : bool :=
  match a, b with
  | VInt x, VInt y => Z.eqb x y
  | VStr s, VStr t => String.eqb s t
  | VNaN, VNaN => true
  | _, _ => false
  end.

(** Elementwise [==] of a Series against a scalar: [nan == nan] is False. *)
Definition py_eq (a b : value) : bool :=
  match a, b with
  | VNaN, _ | _, VNaN => false
  | _, _ => value_eqb a b
  end.

(** Category order: numbers ascending, strings lexicographic, numbers first. *)
Definition value_leb (a b : value) : bool :=
  match a, b with
  | VInt x, VInt y => Z.leb x y
  | VInt _, _ => true
  | VStr _, VInt _ => false
  | VStr s, VStr t => String.leb s t
  | VStr _, VNaN => true
  | VNaN, VNaN => true
  | VNaN, _ => false
  end.

Fixpoint insert (x : value) (l : list value) : list value :=
  match l with
  | [] => [x]
  | y :: t => if value_leb x y then x :: l else y :: insert x t
  end.

Definition sort (l : list value) : list value := fold_right insert [] l.

(** [Series.unique()]: distinct values in order of first appearance. *)
Fixpoint unique (l : list value) : list value :=
  match l with
  | [] => []
  | x :: t => x :: filter (fun y => negb (value_eqb x y)) (unique t)
  end.

(** A DataFrame of the dataset provider: named columns of equal length. *)
Definition DataFrame : Type := list (string * list value).

Definition columns_of (data : DataFrame) : list string := map fst data.

Definition has_column (data : DataFrame) (name : string) : bool :=
  existsb (String.eqb name) (columns_of data).

(** [data[name]]; a missing column is a [KeyError]. *)
Fixpoint get_column (data : DataFrame) (name : string) : result (list value) :=
  match data with
  | [] => Raise (KeyError name)
  | (n, col) :: t => if String.eqb n name then Ok col else get_column t name
  end.

Definition n_rows (data : DataFrame) : nat :=
  match data with
  | [] => 0
  | (_, col) :: _ => List.length col
  end.

(** [data.empty]: no columns or no rows. *)
Definition empty (data : DataFrame) : bool :=
  match data with
  | [] => true
  | _ => Nat.eqb (n_rows data) 0
  end.

(** A labelled two-dimensional table with cells of type [A]. *)
Record frame (A : Type) : Type := mkFrame {
  index : list value;
  columns : list value;
  values : list (list A)
}.

Arguments mkFrame {A} _ _ _.
Arguments index {A} _.
Arguments columns {A} _.
Arguments values {A} _.

Definition shape {A : Type} (t : frame A) : nat * nat :=
  (List.length (index t), List.length (columns t)).

(** The margin label. *)
Definition All : value := VStr "All".

Definition is_all (l : value) : bool := value_eqb l All.

(** [t.iloc[:-1, :-1]] *)
Definition iloc_drop_last {A : Type} (t : frame A) : frame A :=
  mkFrame (removelast (index t)) (removelast (columns t))
          (map (@removelast A) (removelast (values t))).

(** The rows of the two Series where neither value is missing. *)
Definition valid_pairs (r c : list value) : list (value * value) :=
  filter (fun p => notna (fst p) && notna (snd p)) (combine r c).

Definition cell_count (pairs : list (value * value)) (rc cc : value) : Z :=
  countb (fun p => value_eqb (fst p) rc && value_eqb (snd p) cc) pairs.

Definition row_size (pairs : list (value * value)) (rc : value) : Z :=
  countb (fun p => value_eqb (fst p) rc) pairs.

Definition col_size (pairs : list (value * value)) (cc : value) : Z :=
  countb (fun p => value_eqb (snd p) cc) pairs.

(** [pd.crosstab(r, c, margins=..., margins_name='All')].  Categories are the
    sorted distinct values among the valid pairs; a cell counts the pairs of
    its two categories.  With margins pandas adds the group sizes: the size of
    each row group as column 'All', the size of each column group as row
    'All', the number of valid pairs at their crossing; a category that is
    itself called 'All' is refused.  When no row holds both values there is
    nothing to count: the result is the empty frame, and no margin is added
    to it. *)
Definition crosstab (r c : list value) (margins : bool) : result (frame Z) :=
  let pairs := valid_pairs r c in
  let rcats := sort (unique (map fst pairs)) in
  let ccats := sort (unique (map snd pairs)) in
  let body := map (fun rc => map (cell_count pairs rc) ccats) rcats in
  if margins then
    match pairs with
    | [] => Ok (mkFrame [] [] [])
    | _ :: _ =>
        if existsb is_all rcats || existsb is_all ccats then
          Raise (ValueError ("Conflicting name " ++ quoted "All" ++ " in margins"))
        else
          Ok (mkFrame (rcats ++ [All]) (ccats ++ [All])
                (map (fun rc => map (cell_count pairs rc) ccats ++ [row_size pairs rc])
                     rcats
                 ++ [map (col_size pairs) ccats ++ [Z.of_nat (List.length pairs)]]))
    end
  else Ok (mkFrame rcats ccats body).

(** [t.loc[label, ...]]: the row under a label of the index; a label that is
    not in the index is a [KeyError]. *)
Fixpoint loc_row {A : Type} (labels : list value) (rows : list (list A)) (label : string)
  : result (list A) :=
  match labels, rows with
  | l :: ls, row :: rest =>
      if value_eqb l (VStr label) then Ok row else loc_row ls rest label
  | _, _ => Raise (KeyError label)
  end.

End Pandas.
Export Pandas.

(* ------------------------------------------------------------------------- *)
(** ** Helpers on lists of cells *)

Fixpoint map2 {A B C : Type} (f : A -> B -> C) (l : list A) (l' : list B) : list C :=
  match l, l' with
  | x :: t, y :: t' => f x y :: map2 f t t'
  | _, _ => []
  end.

(** Boolean-mask selection, [line[mask]]. *)
Fixpoint select {A : Type} (mask : list bool) (l : list A) : list A :=
  match mask, l with
  | b :: m, x :: t => if b then x :: select m t else select m t
  | _, _ => []
  end.

(** int64 arithmetic of numpy: a sum or a product of integer cells that
    leaves the range of int64 wraps around, silently. *)
Definition wrap64 (z : Z) : Z := ((z + 2 ^ 63) mod 2 ^ 64 - 2 ^ 63)%Z.

(** Column [j] of a matrix of counts. *)
Definition col (j : nat) (m : list (list Z)) : list Z :=
  map (fun row => nth j row 0%Z) m.

(** [m.sum().sum()] *)
Definition grand_total (m : list (list Z)) : Z := zsum (map zsum m).

Definition rectangular {A : Type} (nc : nat) (m : list (list A)) : Prop :=
  Forall (fun row => List.length row = nc) m.

Definition dropna (l : list f64) : list f64 :=
  filter (fun x => match x with NaN => false | _ => true end) l.

(** [Series.mean()], missing values skipped; [nan] for an empty Series. *)
Definition mean (l : list f64) : f64 :=
  let xs := dropna l in
  fdiv (fsum xs) (of_int (Z.of_nat (List.length xs))).

(** [Series.var()], the sample variance (ddof = 1), missing values skipped;
    [nan] when fewer than two values remain. *)
Definition var (l : list f64) : f64 :=
  let xs := dropna l in
  let n := List.length xs in
  if Nat.leb n 1 then NaN
  else
    let m := mean l in
    fdiv (fsum (map (fun x => fmul (fsub x m) (fsub x m)) xs))
         (of_int (Z.of_nat n - 1)).

(** A cell read as a float; text in a numeric computation is a [TypeError]. *)
Definition to_float (v : value) : result f64 :=
  match v with
  | VInt z => Ok (of_int z)
  | VNaN => Ok NaN
  | VStr _ => Raise TypeError
  end.

Fixpoint to_floats (l : list value) : result (list f64) :=
  match l with
  | [] => Ok []
  | v :: t => x <- to_float v ;; xs <- to_floats t ;; Ok (x :: xs)
  end.

(** [data[data[var1] == g][var2]] on the two columns. *)
Definition group_values (c1 c2 : list value) (g : value) : list value :=
  map snd (filter (fun p => py_eq (fst p) g) (combine c1 c2)).

(* ------------------------------------------------------------------------- *)
(** ** The result objects ([core/crosstab_result.py]) *)

Record CrosstabStatistics : Type := mkStatistics {
  chi_square : f64;
  p_value : f64;
  degrees_of_freedom : f64;
  cramers_v : f64;
  expected_values : list (list f64);
  residuals : list (list f64)
}.

(** [table] holds the counts.  [table.astype(float)] changes the dtype of the
    cells and none of their values, so the counts stay integers here and are
    converted where the code divides. *)
Record CrosstabResult : Type := mkResult {
  table : frame Z;
  row_percentages : option (frame f64);
  column_percentages : option (frame f64);
  total_percentages : option (frame f64);
  statistics : option CrosstabStatistics
}.

Inductive StatisticType : Type :=
| CHI_SQUARE
| FISHER_EXACT
| T_TEST
| ANOVA
| Unsupported (repr : string).

Inductive dof_t : Type :=
| DofInt (d : Z)
| DofPair (between within : Z).

Record StatisticalResult : Type := mkStatisticalResult {
  test_type : StatisticType;
  statistic : f64;
  sr_p_value : f64;
  sr_degrees_of_freedom : option dof_t;
  effect_size : option f64
}.

(* ------------------------------------------------------------------------- *)
(** ** The banner loop

    [create_banner_table] and [generate_banner] are the same two nested
    [for] loops over a dict; they differ in the key they build and in the
    per-pair call, which are the two parameters here.  An exception of the
    per-pair call leaves the loops at once. *)

Section BannerLoop.

Context {A : Type}.
Variable key_of : string -> string -> string.
Variable compute : string -> string -> result A.

Fixpoint for_col_vars (row_var : string) (col_vars : list string) (results : dict A)
  : result (dict A) :=
  match col_vars with
  | [] => Ok results
  | col_var :: rest =>
      v <- compute row_var col_var ;;
      for_col_vars row_var rest (dict_set (key_of row_var col_var) v results)
  end.

Fixpoint for_row_vars (row_vars col_vars : list string) (results : dict A)
  : result (dict A) :=
  match row_vars with
  | [] => Ok results
  | row_var :: rest =>
      results' <- for_col_vars row_var col_vars results ;;
      for_row_vars rest col_vars results'
  end.

Definition banner_loop (row_vars col_vars : list string) : result (dict A) :=
  for_row_vars row_vars col_vars [].

End BannerLoop.

(* ------------------------------------------------------------------------- *)
(** ** scipy.stats

    The four tests the engine delegates to scipy.  Their distribution
    functions are outside the repository, so the engine is parameterised by
    them; each may raise. *)

Record Scipy : Type := mkScipy {
  (** [chi2, p, dof, expected = chi2_contingency(observed)] *)
  chi2_contingency : list (list Z) -> result (f64 * f64 * Z * list (list f64));
  (** [odds_ratio, p = fisher_exact(table)] *)
  fisher_exact : list (list Z) -> result (f64 * f64);
  (** [t_stat, p = ttest_ind(group1, group2)] *)
  ttest_ind : list f64 -> list f64 -> result (f64 * f64);
  (** [f_stat, p = f_oneway] of the list of groups *)
  f_oneway : list (list f64) -> result (f64 * f64)
}.

(* ------------------------------------------------------------------------- *)
(** ** class CrosstabGenerator *)

Module CrosstabGenerator.

(** [table.div(table.sum(axis=1), axis=0) * 100]: every cell of a row over
    the sum of the whole row, the 'All' cell included. *)
Definition _calculate_row_percentages (table : frame Z) : frame f64 :=
  mkFrame (index table) (columns table)
    (map (fun row =>
            map (fun c => fmul (fdiv (of_int c) (of_int (zsum row))) (Fin 100)) row)
         (values table)).

(** [table.div(table.sum(axis=0), axis=1) * 100] *)
Definition _calculate_column_percentages (table : frame Z) : frame f64 :=
  mkFrame (index table) (columns table)
    (map (fun row =>
            map2 (fun j c =>
                    fmul (fdiv (of_int c) (of_int (zsum (col j (values table))))) (Fin 100))
                 (seq 0 (List.length row)) row)
         (values table)).

(** [table / table.sum().sum() * 100] *)
Definition _calculate_total_percentages (table : frame Z) : frame f64 :=
  mkFrame (index table) (columns table)
    (map (map (fun c =>
                 fmul (fdiv (of_int c) (of_int (grand_total (values table)))) (Fin 100)))
         (values table)).

Section WithScipy.

Variable stats : Scipy.

(** The expected matrix is the one [chi2_contingency] returns for the table
    without its margins. *)
Definition _calculate_expected_values (table : frame Z) : result (frame f64) :=
  let table_no_margins := iloc_drop_last table in
  r <- chi2_contingency stats (values table_no_margins) ;;
  let '(_, _, _, expected) := r in
  Ok (mkFrame (index table_no_margins) (columns table_no_margins) expected).

End WithScipy.

End CrosstabGenerator.

(* ------------------------------------------------------------------------- *)
(** ** class BannerTableGenerator *)

Module BannerTableGenerator.

Section WithGenerator.

Context {A : Type}.
(** [self.generator.generate] *)
Variable generate : string -> string -> bool -> bool -> result A.

Definition generate_banner (row_vars col_vars : list string)
    (include_percentages include_statistics : bool) : result (dict A) :=
  banner_loop
    (fun row_var col_var => (row_var ++ "_by_" ++ col_var)%string)
    (fun row_var col_var => generate row_var col_var include_percentages include_statistics)
    row_vars col_vars.

End WithGenerator.

End BannerTableGenerator.

(* ------------------------------------------------------------------------- *)
(** ** class CrosstabEngine *)

Module CrosstabEngine.

Definition _validate_data (data : DataFrame) : result unit :=
  if empty data then Raise (ValueError "DataFrame is empty") else Ok tt.

(** [labels != 'All'] *)
Definition not_all (labels : list value) : list bool :=
  map (fun l => negb (is_all l)) labels.

(** One line (a row, or a column) of a percentage view.  [labels] are the
    labels across the line.  The total is taken over the cells that are not
    under 'All'; when it is positive those cells are divided by it and the
    'All' cell is set to 100.0, otherwise the whole line is 0.0. *)
Definition percent_line (labels : list value) (line : list Z) : list f64 :=
  let total := zsum (select (not_all labels) line) in
  if (0 <? total)%Z then
    map2 (fun l c =>
            if is_all l then Fin 100
            else fmul (fdiv (of_int c) (of_int total)) (Fin 100))
         labels line
  else map (fun _ => Fin 0) labels.

(** Row percentages: the loop treats every row whose label is not 'All', the
    block after it treats the 'All' row in the same way. *)
Definition row_percentages_of (table : frame Z) : frame f64 :=
  mkFrame (index table) (columns table)
    (map (percent_line (columns table)) (values table)).

(** Column percentages: the same with rows and columns exchanged. *)
Definition column_percentages_of (table : frame Z) : frame f64 :=
  let pcols :=
    map (fun j => percent_line (index table) (col j (values table)))
        (seq 0 (List.length (columns table))) in
  mkFrame (index table) (columns table)
    (map (fun i => map (fun pc => nth i pc NaN) pcols)
         (seq 0 (List.length (index table)))).

(** Total percentages, by position: every cell over the total of the cells
    without margins, the bottom-right cell fixed at 100.0. *)
Definition total_percentages_of (table : frame Z) : frame f64 :=
  let total := grand_total (values (iloc_drop_last table)) in
  let nr := List.length (index table) in
  let nc := List.length (columns table) in
  mkFrame (index table) (columns table)
    (map (fun i =>
            map (fun j =>
                   if Nat.eqb i (nr - 1) && Nat.eqb j (nc - 1) then Fin 100
                   else if (0 <? total)%Z then
                     fmul (fdiv (of_int (nth j (nth i (values table) []) 0%Z))
                                (of_int total)) (Fin 100)
                   else Fin 0)
                (seq 0 nc))
         (seq 0 nr)).

(** Residuals by position: [(observed - expected) / np.sqrt(expected)]. *)
Definition residual (o e : f64) : f64 := fdiv (fsub o e) (fsqrt e).

Definition _calculate_residuals (observed expected : list (list f64)) : list (list f64) :=
  map2 (map2 residual) observed expected.

(** [np.outer(row_totals, col_totals) / total].  The table holds int64
    counts: the totals and the outer product are int64 and wrap around, the
    division is the first float operation. *)
Definition _calculate_expected_values (table : frame Z) : frame f64 :=
  let row_totals := map (fun row => wrap64 (zsum row)) (values table) in
  let col_totals :=
    map (fun j => wrap64 (zsum (col j (values table))))
        (seq 0 (List.length (columns table))) in
  let total := wrap64 (zsum col_totals) in
  mkFrame (index table) (columns table)
    (map (fun r => map (fun c => fdiv (of_int (wrap64 (r * c))) (of_int total)) col_totals)
         row_totals).

(** [np.sqrt(chi2 / (n * k))] with [k = min(table.shape) - 1] *)
Definition _calculate_cramers_v (table : frame Z) (chi2 : f64) : f64 :=
  let n := grand_total (values table) in
  let k := (Z.of_nat (Nat.min (fst (shape table)) (snd (shape table))) - 1)%Z in
  fsqrt (fdiv chi2 (of_int (n * k))).

(** The values of the degenerate chi-square result. *)
Definition single_value_statistics (chi2_table : frame Z) : CrosstabStatistics :=
  mkStatistics (Fin 0) (Fin 1) (Fin 0) (Fin 0)
    (map (map of_int) (values chi2_table))
    (repeat (repeat (Fin 0) (snd (shape chi2_table))) (fst (shape chi2_table))).

Section WithScipy.

Variable stats : Scipy.

(** The statistics block of [create_crosstab], written inline there.  Its
    residual expression is the one of [_calculate_residuals]; the counts
    enter it as floats. *)
Definition chi_square_statistics (table : frame Z) : result CrosstabStatistics :=
  let chi2_table := iloc_drop_last table in
  if Nat.eqb (fst (shape chi2_table)) 1 || Nat.eqb (snd (shape chi2_table)) 1 then
    Ok (single_value_statistics chi2_table)
  else
    r <- chi2_contingency stats (values chi2_table) ;;
    let '(chi2, p, dof, expected) := r in
    let n := grand_total (values chi2_table) in
    let min_dim :=
      (Z.of_nat (Nat.min (fst (shape chi2_table)) (snd (shape chi2_table))) - 1)%Z in
    let v :=
      if (0 <? n)%Z && (0 <? min_dim)%Z
      then fsqrt (fdiv chi2 (of_int (n * min_dim)))
      else Fin 0 in
    let res :=
      _calculate_residuals (map (map of_int) (values chi2_table)) expected in
    Ok (mkStatistics chi2 p (of_int dof) v expected res).

Definition create_crosstab (data : DataFrame) (row_var col_var : string)
    (include_percentages include_statistics : bool) : result CrosstabResult :=
  _ <- _validate_data data ;;
  if negb (has_column data row_var) then
    Raise (ValueError ("Row variable '" ++ row_var ++ "' not found in data")%string)
  else if negb (has_column data col_var) then
    Raise (ValueError ("Column variable '" ++ col_var ++ "' not found in data")%string)
  else
    r <- get_column data row_var ;;
    c <- get_column data col_var ;;
    if forallb isna r || forallb isna c then
      Raise (ValueError "Variable contains all null values")
    else
      table <- crosstab r c true ;;
      (* the percentage block: its views are filled line by line, and the
         'All' row is read by its label *)
      _ <- (if include_percentages
            then loc_row (index table) (values table) "All"
            else Ok []) ;;
      let pct (view : frame Z -> frame f64) :=
        if include_percentages then Some (view table) else None in
      st <- (if include_statistics && negb (empty data)
             then s <- chi_square_statistics table ;; Ok (Some s)
             else Ok None) ;;
      Ok (mkResult table
            (pct row_percentages_of)
            (pct column_percentages_of)
            (pct total_percentages_of)
            st).

Definition create_banner_table (data : DataFrame) (row_vars col_vars : list string)
    (include_percentages include_statistics : bool) : result (dict CrosstabResult) :=
  banner_loop
    (fun row_var col_var => (row_var ++ " x " ++ col_var)%string)
    (fun row_var col_var =>
       create_crosstab data row_var col_var include_percentages include_statistics)
    row_vars col_vars.

Definition perform_statistical_test (data : DataFrame) (var1 var2 : string)
    (test : StatisticType) : result StatisticalResult :=
  match test with
  | CHI_SQUARE =>
      c1 <- get_column data var1 ;;
      c2 <- get_column data var2 ;;
      table <- crosstab c1 c2 false ;;
      r <- chi2_contingency stats (values table) ;;
      let '(chi2, p, dof, _) := r in
      Ok (mkStatisticalResult test chi2 p (Some (DofInt dof))
            (Some (_calculate_cramers_v table chi2)))
  | FISHER_EXACT =>
      c1 <- get_column data var1 ;;
      c2 <- get_column data var2 ;;
      table <- crosstab c1 c2 false ;;
      r <- fisher_exact stats (values table) ;;
      let '(odds_ratio, p) := r in
      Ok (mkStatisticalResult test odds_ratio p None None)
  | T_TEST =>
      c1 <- get_column data var1 ;;
      let groups := unique c1 in
      if negb (Nat.eqb (List.length groups) 2) then
        Raise (ValueError "T-test requires exactly 2 groups")
      else
        c2 <- get_column data var2 ;;
        group1 <- to_floats (group_values c1 c2 (nth 0 groups VNaN)) ;;
        group2 <- to_floats (group_values c1 c2 (nth 1 groups VNaN)) ;;
        r <- ttest_ind stats group1 group2 ;;
        let '(t_stat, p) := r in
        let effect :=
          fdiv (fsub (mean group1) (mean group2))
               (fsqrt (fdiv (fadd (var group1) (var group2)) (Fin 2))) in
        Ok (mkStatisticalResult test t_stat p None (Some effect))
  | ANOVA =>
      c1 <- get_column data var1 ;;
      let groups := unique c1 in
      if Nat.ltb (List.length groups) 2 then
        Raise (ValueError "ANOVA requires at least 2 groups")
      else
        c2 <- get_column data var2 ;;
        group_data <-
          (fix each (gs : list value) : result (list (list f64)) :=
             match gs with
             | [] => Ok []
             | g :: rest =>
                 x <- to_floats (group_values c1 c2 g) ;;
                 xs <- each rest ;;
                 Ok (x :: xs)
             end) groups ;;
        r <- f_oneway stats group_data ;;
        let '(f_stat, p) := r in
        all <- to_floats c2 ;;
        let m := mean all in
        let total_ss := fsum (map (fun x => fmul (fsub x m) (fsub x m)) all) in
        let between_ss :=
          fsum (map (fun g =>
                       fmul (of_int (Z.of_nat (List.length g)))
                            (fmul (fsub (mean g) m) (fsub (mean g) m)))
                    group_data) in
        let eta_squared := fdiv between_ss total_ss in
        Ok (mkStatisticalResult test f_stat p
              (Some (DofPair (Z.of_nat (List.length groups) - 1)
                             (Z.of_nat (n_rows data) - Z.of_nat (List.length groups))))
              (Some eta_squared))
  | Unsupported repr =>
      Raise (ValueError ("Unsupported test type: " ++ repr)%string)
  end.

End WithScipy.

End CrosstabEngine.

(* ------------------------------------------------------------------------- *)
(** ** Notions used in the statements *)

(** The distinct elements of [l] in order of first occurrence: the keys a
    dict holds after [l] has been assigned to it key by key. *)
Definition first_occurrences (l : list string) : list string :=
  fold_left (fun acc k => if existsb (String.eqb k) acc then acc else acc ++ [k]) l [].

(** The cells of a line that are not under the 'All' label. *)
Definition non_margin {A : Type} (labels : list value) (line : list A) : list A :=
  select (CrosstabEngine.not_all labels) line.

(** The banner loops, flattened: one pass over the list of pairs. *)
Fixpoint for_pairs {A : Type} (key_of : string -> string -> string)
    (compute : string -> string -> result A)
    (pairs : list (string * string)) (results : dict A) : result (dict A) :=
  match pairs with
  | [] => Ok results
  | (r, c) :: rest =>
      v <- compute r c ;;
      for_pairs key_of compute rest (dict_set (key_of r c) v results)
  end.

(* ------------------------------------------------------------------------- *)
(** ** The margin invariant *)

(** The margin invariant of a table whose last row and last column are the
    'All' margins: every row ends with the sum of its other cells, the last
    row holds the column sums of the rows above it, and the bottom-right cell
    is the sum of all cells without margins. *)
Definition margins_hold (t : frame Z) : Prop :=
  let rows := removelast (values t) in
  let all_row := last (values t) [] in
  Forall (fun row => last row 0%Z = zsum (removelast row)) (values t) /\
  (forall j, j < List.length (columns t) -> nth j all_row 0%Z = zsum (col j rows)) /\
  last all_row 0%Z = grand_total (map (@removelast Z) rows).

(** The shape of a table with margins: categories, then 'All', on both axes,
    one row of cells per index label and one cell per column label. *)
Definition margins_last (t : frame Z) : Prop :=
  exists rcats ccats,
    index t = rcats ++ [All] /\ columns t = ccats ++ [All] /\
    existsb is_all rcats = false /\ existsb is_all ccats = false /\
    List.length (values t) = List.length (index t) /\
    rectangular (List.length (columns t)) (values t).

(** The sum of all cells of a matrix of floats. *)
Definition fgrand_total (m : list (list f64)) : f64 := fsum (map fsum m).

(* ------------------------------------------------------------------------- *)
(** ** Shapes, ranges and groups *)

Definition is_2x2 {A : Type} (m : list (list A)) : bool :=
  match m with
  | [[_; _]; [_; _]] => true
  | _ => false
  end.

(** No row of the two columns holds both values. *)
Definition no_complete_row (r c : list value) : bool :=
  match valid_pairs r c with
  | [] => true
  | _ :: _ => false
  end.

(** The range of int64. *)
Definition int64 (z : Z) : Prop := (- 2 ^ 63 <= z < 2 ^ 63)%Z.

(** The integer part of [_calculate_expected_values] stays in int64: the row
    totals, the column totals, the grand total and every product of a row
    total with a column total. *)
Definition no_overflow (table : frame Z) : Prop :=
  let row_totals := map zsum (values table) in
  let col_totals :=
    map (fun j => zsum (col j (values table))) (seq 0 (List.length (columns table))) in
  Forall int64 row_totals /\ Forall int64 col_totals /\
  int64 (grand_total (values table)) /\
  Forall (fun r => Forall (fun c => int64 (r * c)) col_totals) row_totals.

(** The groups a variable partitions the dataset into, as the specification
    counts them: its distinct values, the missing marker apart. *)
Definition non_empty_groups (c : list value) : list value := unique (filter notna c).

(** The numbers of a group: its integers, the missing values left out;
    nothing when the group holds text. *)
Fixpoint numbers (l : list value) : option (list Z) :=
  match l with
  | [] => Some []
  | VInt z :: t => option_map (cons z) (numbers t)
  | VNaN :: t => numbers t
  | VStr _ :: _ => None
  end.

(** Mean and sample variance of a list of reals, and the standardized mean
    difference of two samples under the pooled-variance convention of the
    specification, [(mean1 - mean2) / sqrt((var1 + var2) / 2)]. *)
Definition rmean (xs : list R) : R := (rsum xs / INR (List.length xs))%R.

Definition rvar (xs : list R) : R :=
  (rsum (map (fun x => (x - rmean xs) * (x - rmean xs)) xs)
   / (INR (List.length xs) - 1))%R.

Definition pooled_effect_size (xs ys : list R) : R :=
  ((rmean xs - rmean ys) / sqrt ((rvar xs + rvar ys) / 2))%R.

(** The engine with a given Fisher test, and with a given t-test. *)
Definition with_fisher (fisher : list (list Z) -> result (f64 * f64)) (stats : Scipy)
  : Scipy :=
  mkScipy (chi2_contingency stats) fisher (ttest_ind stats) (f_oneway stats).

Definition with_ttest (ttest : list f64 -> list f64 -> result (f64 * f64)) (stats : Scipy)
  : Scipy :=
  mkScipy (chi2_contingency stats) (fisher_exact stats) ttest (f_oneway stats).

(* ------------------------------------------------------------------------- *)
(** ** Example datasets *)

(** The dataset of the Fisher test of the test suite. *)
Definition fisher_df : DataFrame :=
  [("group", [VStr "A"; VStr "A"; VStr "B"; VStr "B"]);
   ("outcome", [VStr "Yes"; VStr "No"; VStr "Yes"; VStr "No"])].

(** The scenario of the specification: four respondents. *)
Definition survey : DataFrame :=
  [("gender", [VStr "Male"; VStr "Female"; VStr "Male"; VStr "Female"]);
   ("satisfaction", [VStr "High"; VStr "Medium"; VStr "Low"; VStr "High"])].

(** [single_value_df] of the edge-case test: one gender only. *)
Definition single_value_df : DataFrame :=
  [("gender", [VStr "Male"; VStr "Male"; VStr "Male"; VStr "Male"]);
   ("satisfaction", [VStr "High"; VStr "Medium"; VStr "Low"; VStr "High"])].

(** [null_df] of the edge-case test: gender is missing throughout. *)
Definition null_df : DataFrame :=
  [("gender", [VNaN; VNaN; VNaN; VNaN]);
   ("satisfaction", [VStr "High"; VStr "Medium"; VStr "Low"; VStr "High"])].

(** The contingency table of [survey], margins included. *)
Definition survey_table : frame Z :=
  mkFrame [VStr "Female"; VStr "Male"; VStr "All"]
          [VStr "High"; VStr "Low"; VStr "Medium"; VStr "All"]
          [[1; 0; 1; 2]; [1; 1; 0; 2]; [2; 1; 1; 4]]%Z.

(** A dataset in which no row holds both values. *)
Definition sparse_df : DataFrame :=
  [("g", [VStr "A"; VNaN]); ("s", [VNaN; VStr "x"])].

(** One group and two missing values in the grouping variable. *)
Definition missing_group_df : DataFrame :=
  [("g", [VStr "A"; VNaN; VStr "A"; VNaN]);
   ("v", [VInt 1; VInt 2; VInt 3; VInt 4])].

(** Two groups and one missing value in the grouping variable. *)
Definition two_groups_df : DataFrame :=
  [("g", [VStr "A"; VStr "B"; VNaN]);
   ("v", [VInt 1; VInt 2; VInt 3])].

(** A table of counts whose totals multiply out of int64. *)
Definition large_table : frame Z :=
  mkFrame [VStr "a"; VStr "b"] [VStr "x"; VStr "y"]
          [[2 ^ 32; 0]; [0; 2 ^ 32]]%Z.

(** The t-test of the test suite asks for three age groups. *)
Definition age_df : DataFrame :=
  [("age_group", [VStr "18-24"; VStr "25-34"; VStr "18-24"; VStr "35-44"]);
   ("gender", [VStr "M"; VStr "M"; VStr "F"; VStr "F"]);
   ("income", [VInt 1; VInt 3; VInt 5; VInt 9])].

(* ------------------------------------------------------------------------- *)
(** ** More notions for the statements *)

(** [results[key]] on a dict. *)
Fixpoint dict_get {A : Type} (k : string) (d : dict A) : option A :=
  match d with
  | [] => None
  | (k', v') :: t => if String.eqb k' k then Some v' else dict_get k t
  end.

(** Column [j] of a matrix of floats. *)
Definition fcol (j : nat) (m : list (list f64)) : list f64 :=
  map (fun row => nth j row NaN) m.

(** A float that is neither an infinity nor [nan]. *)
Definition finite (a : f64) : Prop :=
  match a with Fin _ => True | _ => False end.

(** Labels in ascending category order. *)
Definition ascending (l : list value) : Prop :=
  Sorted (fun a b => value_leb a b = true) l.

(** What [chi2_contingency] answers for a table with zero degrees of
    freedom, after scipy's documentation: statistic 0.0, p-value 1.0, and the
    observed counts as expected frequencies. *)
Definition zero_dof_chi2 (m : list (list Z)) : result (f64 * f64 * Z * list (list f64)) :=
  Ok (Fin 0, Fin 1, 0%Z, map (map of_int) m).

(** The engine with a given chi-square test. *)
Definition with_chi2 (chi2 : list (list Z) -> result (f64 * f64 * Z * list (list f64)))
    (stats : Scipy) : Scipy :=
  mkScipy chi2 (fisher_exact stats) (ttest_ind stats) (f_oneway stats).

(* ========================================================================= *)
(** * Properties *)

(* ------------------------------------------------------------------------- *)
(** ** Facts about float64 values *)

Lemma fdiv_fin (x y : R) : y <> 0%R -> fdiv (Fin x) (Fin y) = Fin (x / y).
Proof.
  intros Hy. unfold fdiv. destruct (Req_EM_T y 0) as [E | _]; [contradiction | reflexivity].
Qed.

Lemma fsqrt_zero : fsqrt (Fin 0) = Fin 0.
Proof.
  unfold fsqrt. destruct (Rlt_dec 0 0) as [L | _]; [lra |]. now rewrite sqrt_0.
Qed.

Lemma fsqrt_pos (x : R) : (0 < x)%R -> fsqrt (Fin x) = Fin (sqrt x).
Proof.
  intros Hx. unfold fsqrt. destruct (Rlt_dec x 0) as [L | _]; [lra | reflexivity].
Qed.

Lemma fsub_fin (x y : R) : fsub (Fin x) (Fin y) = Fin (x - y).
Proof. reflexivity. Qed.

Lemma fold_fadd_fin (l : list R) (acc : R) :
  fold_left fadd (map Fin l) (Fin acc) = Fin (acc + rsum l).
Proof.
  revert acc. induction l as [| x t IH]; intros acc; simpl.
  - f_equal. lra.
  - rewrite IH. f_equal. lra.
Qed.

Lemma fsum_fin (l : list R) : fsum (map Fin l) = Fin (rsum l).
Proof. unfold fsum. rewrite fold_fadd_fin. f_equal. lra. Qed.

Lemma rsum_map_IZR (l : list Z) :
  rsum (map IZR l) = IZR (fold_right Z.add 0%Z l).
Proof.
  induction l as [| z t IH]; simpl; [reflexivity |].
  now rewrite IH, plus_IZR.
Qed.

(* ------------------------------------------------------------------------- *)
(** ** Facts about dicts and the banner loop *)

Section BannerFacts.

Context {A : Type}.
Variable key_of : string -> string -> string.
Variable compute : string -> string -> result A.

Let key_p (p : string * string) : string := key_of (fst p) (snd p).
Let ok_p (p : string * string) : Prop := is_ok (compute (fst p) (snd p)) = true.

Lemma for_col_vars_pairs (r : string) (cols : list string) (d : dict A) :
  for_col_vars key_of compute r cols d = for_pairs key_of compute (map (pair r) cols) d.
Proof.
  revert d. induction cols as [| c t IH]; intros d; simpl; [reflexivity |].
  destruct (compute r c); simpl; [apply IH | reflexivity].
Qed.

Lemma for_pairs_app (l1 l2 : list (string * string)) (d : dict A) :
  for_pairs key_of compute (l1 ++ l2) d =
  (d' <- for_pairs key_of compute l1 d ;; for_pairs key_of compute l2 d').
Proof.
  revert d. induction l1 as [| [r c] t IH]; intros d; simpl; [reflexivity |].
  destruct (compute r c); simpl; [apply IH | reflexivity].
Qed.

Lemma for_row_vars_pairs (rows cols : list string) (d : dict A) :
  for_row_vars key_of compute rows cols d =
  for_pairs key_of compute (list_prod rows cols) d.
Proof.
  revert d. induction rows as [| r t IH]; intros d; simpl; [reflexivity |].
  rewrite for_pairs_app, for_col_vars_pairs.
  destruct (for_pairs key_of compute (map (pair r) cols) d); simpl;
    [apply IH | reflexivity].
Qed.

Lemma for_pairs_raise (l1 l2 : list (string * string)) (r c : string) (e : exn)
    (d : dict A) :
  Forall ok_p l1 -> compute r c = Raise e ->
  for_pairs key_of compute (l1 ++ (r, c) :: l2) d = Raise e.
Proof.
  intros Hok Hfail. revert d.
  induction Hok as [| [r' c'] t Hp _ IH]; intros d; simpl.
  - now rewrite Hfail.
  - unfold ok_p in Hp. simpl in Hp.
    destruct (compute r' c'); simpl; [apply IH | discriminate].
Qed.

Lemma for_pairs_total (pairs : list (string * string)) (d : dict A) :
  Forall ok_p pairs -> exists d', for_pairs key_of compute pairs d = Ok d'.
Proof.
  intros Hok. revert d.
  induction Hok as [| [r c] t Hp _ IH]; intros d; simpl.
  - now exists d.
  - unfold ok_p in Hp. simpl in Hp.
    destruct (compute r c); simpl; [apply IH | discriminate].
Qed.

Lemma first_failure (pairs : list (string * string)) :
  (exists p, In p pairs /\ is_ok (compute (fst p) (snd p)) = false) ->
  exists l1 r c l2 e,
    pairs = l1 ++ (r, c) :: l2 /\ Forall ok_p l1 /\ compute r c = Raise e.
Proof.
  induction pairs as [| [r c] t IH]; intros [p [Hin Hp]]; [contradiction |].
  destruct (compute r c) as [v | e] eqn:E.
  - destruct Hin as [<- | Hin]; [simpl in Hp; rewrite E in Hp; discriminate |].
    destruct IH as (l1 & r' & c' & l2 & e & -> & Hok & Hfail); [now exists p |].
    exists ((r, c) :: l1), r', c', l2, e.
    split; [reflexivity | split; [| exact Hfail]].
    constructor; [| exact Hok]. unfold ok_p. simpl. now rewrite E.
  - exists [], r, c, t, e. split; [reflexivity | split; [constructor | exact E]].
Qed.

Lemma keys_dict_set (k : string) (v : A) (d : dict A) :
  keys (dict_set k v d) =
  if existsb (String.eqb k) (keys d) then keys d else keys d ++ [k].
Proof.
  unfold keys. induction d as [| [k' v'] t IH]; simpl; [reflexivity |].
  rewrite (String.eqb_sym k k').
  destruct (String.eqb k' k) eqn:E; simpl; [reflexivity |].
  rewrite IH. now destruct (existsb _ _).
Qed.

Lemma for_pairs_keys (pairs : list (string * string)) (d d' : dict A) :
  for_pairs key_of compute pairs d = Ok d' ->
  keys d' =
  fold_left (fun acc k => if existsb (String.eqb k) acc then acc else acc ++ [k])
            (map key_p pairs) (keys d).
Proof.
  revert d. induction pairs as [| [r c] t IH]; intros d H; simpl in *.
  - now inversion H.
  - destruct (compute r c) as [v | e]; simpl in H; [| discriminate].
    apply IH in H. rewrite H, keys_dict_set. reflexivity.
Qed.

Lemma dict_set_fresh (k : string) (v : A) (d : dict A) :
  ~ In k (keys d) -> dict_set k v d = d ++ [(k, v)].
Proof.
  induction d as [| [k' v'] t IH]; simpl; intros Hn; [reflexivity |].
  destruct (String.eqb k' k) eqn:E.
  - apply String.eqb_eq in E. tauto.
  - f_equal. apply IH. tauto.
Qed.

Lemma for_pairs_distinct (pairs : list (string * string)) (d d' : dict A) :
  for_pairs key_of compute pairs d = Ok d' ->
  NoDup (keys d ++ map key_p pairs) ->
  exists d1, d' = d ++ d1 /\
    Forall2 (fun p kv => fst kv = key_p p /\ compute (fst p) (snd p) = Ok (snd kv))
            pairs d1.
Proof.
  revert d. induction pairs as [| [r c] t IH]; intros d H Hnd; simpl in *.
  - inversion H. exists []. split; [now rewrite app_nil_r | constructor].
  - destruct (compute r c) as [v | e] eqn:E; simpl in H; [| discriminate].
    assert (Hfresh : ~ In (key_of r c) (keys d)).
    { apply NoDup_remove_2 in Hnd. intros Hin. apply Hnd, in_or_app. now left. }
    rewrite dict_set_fresh in H by exact Hfresh.
    apply IH in H.
    + destruct H as (d1 & -> & HF). exists ((key_of r c, v) :: d1). split.
      * now rewrite <- app_assoc.
      * constructor; [now split | exact HF].
    + unfold keys in *. rewrite map_app. simpl. rewrite <- app_assoc. exact Hnd.
Qed.

End BannerFacts.

Example survey_crosstab :
  crosstab [VStr "Male"; VStr "Female"; VStr "Male"; VStr "Female"]
           [VStr "High"; VStr "Medium"; VStr "Low"; VStr "High"] true
  = Ok survey_table.
Proof. reflexivity. Qed.

(* ------------------------------------------------------------------------- *)
(** ** Banner tables *)

Import CrosstabEngine.

(** C10.  When some pair of a banner request fails, [create_banner_table]
    raises the exception of the first failing pair in row-major order: the
    pairs before it all succeeded, their results are dropped with the dict,
    and the call returns nothing but that exception. *)
Theorem create_banner_table_aborts_on_first_failure :
  forall (stats : Scipy) (data : DataFrame) (row_vars col_vars : list string)
         (include_percentages include_statistics : bool),
    let crosstab_of p :=
      create_crosstab stats data (fst p) (snd p) include_percentages include_statistics in
    (exists p, In p (list_prod row_vars col_vars) /\ is_ok (crosstab_of p) = false) ->
    exists before r c after e,
      list_prod row_vars col_vars = before ++ (r, c) :: after /\
      Forall (fun p => is_ok (crosstab_of p) = true) before /\
      create_crosstab stats data r c include_percentages include_statistics = Raise e /\
      create_banner_table stats data row_vars col_vars
        include_percentages include_statistics = Raise e.
Proof.
  intros stats data row_vars col_vars ip st crosstab_of Hfail.
  apply (first_failure (fun r c => create_crosstab stats data r c ip st)) in Hfail.
  destruct Hfail as (l1 & r & c & l2 & e & Hsplit & Hok & He).
  exists l1, r, c, l2, e. repeat split; trivial.
  unfold create_banner_table, banner_loop.
  rewrite for_row_vars_pairs, Hsplit.
  now apply for_pairs_raise.
Qed.

Lemma create_banner_table_aborts_on_first_failure_witness :
  (exists p, In p (list_prod ["gender"; "age"] ["satisfaction"]) /\
             forall stats,
               is_ok (create_crosstab stats survey (fst p) (snd p) true false) = false) /\
  forall stats,
  exists before r c after e,
    list_prod ["gender"; "age"] ["satisfaction"] = before ++ (r, c) :: after /\
    Forall (fun p => is_ok (create_crosstab stats survey (fst p) (snd p) true false) = true)
           before /\
    create_crosstab stats survey r c true false = Raise e /\
    create_banner_table stats survey ["gender"; "age"] ["satisfaction"] true false = Raise e.
Proof.
  split.
  - exists ("age", "satisfaction"). split; [right; left; reflexivity | reflexivity].
  - intros stats.
    apply (create_banner_table_aborts_on_first_failure
             stats survey ["gender"; "age"] ["satisfaction"] true false).
    exists ("age", "satisfaction"). split; [right; left; reflexivity | reflexivity].
Defined.

(** The same holds for [BannerTableGenerator.generate_banner], whatever the
    generator's [generate] does. *)
Lemma generate_banner_aborts_on_first_failure :
  forall (A : Type) (generate : string -> string -> bool -> bool -> result A)
         (row_vars col_vars : list string) (ip st : bool),
    (exists p, In p (list_prod row_vars col_vars) /\
               is_ok (generate (fst p) (snd p) ip st) = false) ->
    exists before r c after e,
      list_prod row_vars col_vars = before ++ (r, c) :: after /\
      Forall (fun p => is_ok (generate (fst p) (snd p) ip st) = true) before /\
      generate r c ip st = Raise e /\
      BannerTableGenerator.generate_banner generate row_vars col_vars ip st = Raise e.
Proof.
  intros A generate row_vars col_vars ip st Hfail.
  apply (first_failure (fun r c => generate r c ip st)) in Hfail.
  destruct Hfail as (l1 & r & c & l2 & e & Hsplit & Hok & He).
  exists l1, r, c, l2, e. repeat split; trivial.
  unfold BannerTableGenerator.generate_banner, banner_loop.
  rewrite for_row_vars_pairs, Hsplit.
  now apply for_pairs_raise.
Qed.

Lemma generate_banner_aborts_on_first_failure_witness :
  let generate (r c : string) (_ _ : bool) : result unit :=
    if String.eqb r "age" then Raise (KeyError r) else Ok tt in
  In ("age", "satisfaction") (list_prod ["gender"; "age"] ["satisfaction"]) /\
  exists before r c after e,
    list_prod ["gender"; "age"] ["satisfaction"] = before ++ (r, c) :: after /\
    Forall (fun p => is_ok (generate (fst p) (snd p) true true) = true) before /\
    generate r c true true = Raise e /\
    BannerTableGenerator.generate_banner generate ["gender"; "age"] ["satisfaction"]
      true true = Raise e.
Proof.
  intros generate. split; [right; left; reflexivity |].
  apply (generate_banner_aborts_on_first_failure unit generate
           ["gender"; "age"] ["satisfaction"] true true).
  exists ("age", "satisfaction"). split; [right; left; reflexivity | reflexivity].
Defined.

(** C7, as the code has it.  When every pair's crosstab succeeds,
    [create_banner_table] returns a dict whose keys are the strings
    "<row_variable> x <column_variable>" of the cross product, in row-major
    order of first occurrence; when these strings are pairwise distinct the
    dict holds exactly one entry per ordered pair, in that order, with the
    pair's crosstab as value.  [BannerTableGenerator.generate_banner] runs the
    same loop and builds its keys as "<row_variable>_by_<column_variable>". *)
Theorem banner_keys :
  forall (stats : Scipy) (data : DataFrame)
         (A : Type) (generate : string -> string -> bool -> bool -> result A)
         (row_vars col_vars : list string)
         (include_percentages include_statistics : bool),
    let pairs := list_prod row_vars col_vars in
    let key_x p := (fst p ++ " x " ++ snd p)%string in
    let key_by p := (fst p ++ "_by_" ++ snd p)%string in
    let crosstab_of p :=
      create_crosstab stats data (fst p) (snd p) include_percentages include_statistics in
    let generate_of p :=
      generate (fst p) (snd p) include_percentages include_statistics in
    (Forall (fun p => is_ok (crosstab_of p) = true) pairs ->
     exists d,
       create_banner_table stats data row_vars col_vars
         include_percentages include_statistics = Ok d /\
       keys d = first_occurrences (map key_x pairs) /\
       (NoDup (map key_x pairs) ->
        Forall2 (fun p kv => fst kv = key_x p /\ crosstab_of p = Ok (snd kv)) pairs d))
    /\
    (Forall (fun p => is_ok (generate_of p) = true) pairs ->
     exists d,
       BannerTableGenerator.generate_banner generate row_vars col_vars
         include_percentages include_statistics = Ok d /\
       keys d = first_occurrences (map key_by pairs) /\
       (NoDup (map key_by pairs) ->
        Forall2 (fun p kv => fst kv = key_by p /\ generate_of p = Ok (snd kv)) pairs d)).
Proof.
  intros stats data A generate row_vars col_vars ip st pairs key_x key_by
         crosstab_of generate_of.
  split; intros Hok.
  - destruct (for_pairs_total (fun r c => (r ++ " x " ++ c)%string)
                (fun r c => create_crosstab stats data r c ip st) pairs [] Hok)
      as [d Hd].
    exists d. unfold create_banner_table, banner_loop.
    rewrite for_row_vars_pairs. fold pairs. split; [exact Hd | split].
    + apply for_pairs_keys in Hd. exact Hd.
    + intros Hnd. apply for_pairs_distinct in Hd; [| exact Hnd].
      destruct Hd as (d1 & -> & HF). exact HF.
  - destruct (for_pairs_total (fun r c => (r ++ "_by_" ++ c)%string)
                (fun r c => generate r c ip st) pairs [] Hok)
      as [d Hd].
    exists d. unfold BannerTableGenerator.generate_banner, banner_loop.
    rewrite for_row_vars_pairs. fold pairs. split; [exact Hd | split].
    + apply for_pairs_keys in Hd. exact Hd.
    + intros Hnd. apply for_pairs_distinct in Hd; [| exact Hnd].
      destruct Hd as (d1 & -> & HF). exact HF.
Qed.

Lemma banner_keys_witness :
  Forall (fun p => forall stats,
            is_ok (create_crosstab stats survey (fst p) (snd p) true false) = true)
         (list_prod ["gender"] ["satisfaction"; "gender"]) /\
  forall stats : Scipy,
    let make r c (_ _ : bool) := create_crosstab stats survey r c false false in
    exists d d',
      create_banner_table stats survey ["gender"] ["satisfaction"; "gender"] true false
        = Ok d /\
      keys d = ["gender x satisfaction"; "gender x gender"] /\
      BannerTableGenerator.generate_banner make ["gender"] ["satisfaction"; "gender"]
        true false = Ok d' /\
      keys d' = ["gender_by_satisfaction"; "gender_by_gender"].
Proof.
  split; [repeat constructor |].
  intros stats make.
  destruct (banner_keys stats survey CrosstabResult make
              ["gender"] ["satisfaction"; "gender"] true false) as [He Hg].
  destruct He as (d & Hd & Hk & _).
  { repeat constructor. }
  destruct Hg as (d' & Hd' & Hk' & _).
  { repeat constructor. }
  exists d, d'. repeat split; assumption.
Defined.

(** C7, as stated, fails at two places.  [generate_banner] stores the pair
    (gender, satisfaction) under "gender_by_satisfaction" (or stores nothing,
    when the generator raises), never under "gender x satisfaction"; and
    [create_banner_table], asked for the two ordered pairs of
    [gender; gender] x [satisfaction], returns a dict with one entry. *)
Lemma banner_keys_counterexample :
  (forall (A : Type) (generate : string -> string -> bool -> bool -> result A)
          (ip st : bool),
      BannerTableGenerator.generate_banner generate ["gender"] ["satisfaction"] ip st =
      match generate "gender" "satisfaction" ip st with
      | Ok v => Ok [("gender_by_satisfaction", v)]
      | Raise e => Raise e
      end) /\
  String.eqb "gender_by_satisfaction" "gender x satisfaction" = false /\
  List.length (list_prod ["gender"; "gender"] ["satisfaction"]) = 2 /\
  (forall stats : Scipy,
      exists v,
        create_banner_table stats survey ["gender"; "gender"] ["satisfaction"] true false
        = Ok [("gender x satisfaction", v)]).
Proof.
  split; [| split; [reflexivity | split; [reflexivity |]]].
  - intros A generate ip st.
    unfold BannerTableGenerator.generate_banner, banner_loop. simpl.
    now destruct (generate "gender" "satisfaction" ip st).
  - intros stats. eexists. reflexivity.
Qed.

(* ------------------------------------------------------------------------- *)
(** ** Validation in [create_crosstab] *)

Arguments crosstab : simpl never.
Arguments chi_square_statistics : simpl never.

Lemma has_column_get (data : DataFrame) (name : string) :
  has_column data name = true -> exists c, get_column data name = Ok c.
Proof.
  unfold has_column, columns_of.
  induction data as [| [n c] t IH]; simpl; [discriminate |].
  rewrite (String.eqb_sym name n).
  destruct (String.eqb n name); simpl; [now exists c | exact IH].
Qed.

Lemma get_column_has (data : DataFrame) (name : string) (c : list value) :
  get_column data name = Ok c -> has_column data name = true.
Proof.
  unfold has_column, columns_of.
  induction data as [| [n c'] t IH]; simpl; [discriminate |].
  rewrite (String.eqb_sym name n).
  destruct (String.eqb n name); simpl; [reflexivity | exact IH].
Qed.

(** [pd.crosstab] with margins when no row holds both values. *)
Lemma crosstab_empty (r c : list value) :
  no_complete_row r c = true -> crosstab r c true = Ok (mkFrame [] [] []).
Proof.
  unfold no_complete_row, crosstab.
  destruct (valid_pairs r c); [reflexivity | discriminate].
Qed.

(** [pd.crosstab] with margins, read backwards: the frame it returns when
    some row holds both values. *)
Lemma crosstab_margins_inv (r c : list value) (t : frame Z) :
  crosstab r c true = Ok t ->
  no_complete_row r c = false ->
  let pairs := valid_pairs r c in
  let rcats := sort (unique (map fst pairs)) in
  let ccats := sort (unique (map snd pairs)) in
  existsb is_all rcats = false /\ existsb is_all ccats = false /\
  t = mkFrame (rcats ++ [All]) (ccats ++ [All])
        (map (fun rc => map (cell_count pairs rc) ccats ++ [row_size pairs rc]) rcats
         ++ [map (col_size pairs) ccats ++ [Z.of_nat (List.length pairs)]]).
Proof.
  intros H Hsome pairs rcats ccats. unfold crosstab in H. unfold no_complete_row in Hsome.
  fold pairs rcats ccats in H. fold pairs in Hsome.
  destruct pairs as [| p ps] eqn:Ep; [discriminate Hsome |]. rewrite <- Ep in *.
  destruct (existsb is_all rcats || existsb is_all ccats) eqn:Hall; [discriminate |].
  apply orb_false_elim in Hall. destruct Hall as [Hr Hc].
  injection H as <-. now repeat split.
Qed.

(** Reading the row 'All' of a table by its label. *)
Lemma loc_row_last {A : Type} (cats : list value) (rows : list (list A)) (label : string) :
  List.length rows = List.length (cats ++ [VStr label]) ->
  exists row, loc_row (cats ++ [VStr label]) rows label = Ok row.
Proof.
  revert rows. induction cats as [| k ks IH]; intros [| row rest] Hlen;
    try discriminate Hlen.
  - exists row. simpl. now rewrite String.eqb_refl.
  - simpl. destruct (value_eqb k (VStr label)); [now exists row |].
    apply IH. simpl in Hlen. now injection Hlen.
Qed.

Lemma crosstab_loc_all (r c : list value) (t : frame Z) :
  crosstab r c true = Ok t ->
  if no_complete_row r c
  then loc_row (index t) (values t) "All" = Raise (KeyError "All")
  else exists row, loc_row (index t) (values t) "All" = Ok row.
Proof.
  intros Ht. destruct (no_complete_row r c) eqn:Hsome.
  - rewrite (crosstab_empty _ _ Hsome) in Ht. now injection Ht as <-.
  - destruct (crosstab_margins_inv _ _ _ Ht Hsome) as (_ & _ & ->). cbn [index values].
    apply loc_row_last. now rewrite !length_app, !length_map.
Qed.

(** [create_crosstab] past its validation. *)
Lemma create_crosstab_run (stats : Scipy) (data : DataFrame) (row_var col_var : string)
    (ip st : bool) (r c : list value) (t : frame Z) :
  empty data = false ->
  get_column data row_var = Ok r -> get_column data col_var = Ok c ->
  forallb isna r || forallb isna c = false ->
  crosstab r c true = Ok t ->
  create_crosstab stats data row_var col_var ip st =
  if ip && no_complete_row r c then Raise (KeyError "All")
  else
    (s <- (if st then s <- chi_square_statistics stats t ;; Ok (Some s) else Ok None) ;;
     Ok (mkResult t
           (if ip then Some (row_percentages_of t) else None)
           (if ip then Some (column_percentages_of t) else None)
           (if ip then Some (total_percentages_of t) else None)
           s)).
Proof.
  intros Hne Hr Hc Hnull Ht.
  unfold create_crosstab, _validate_data. rewrite Hne. cbn [bind].
  rewrite (get_column_has _ _ _ Hr), (get_column_has _ _ _ Hc). cbn [negb].
  rewrite Hr, Hc. cbn [bind]. rewrite Hnull, Ht. cbn [bind].
  pose proof (crosstab_loc_all _ _ _ Ht) as Hloc.
  destruct ip; cbn [andb bind].
  - destruct (no_complete_row r c).
    + now rewrite Hloc.
    + destruct Hloc as [row ->]. cbn [bind]. now destruct st.
  - now destruct st.
Qed.

(** The inversion of a successful [create_crosstab]. *)
Lemma create_crosstab_inv (stats : Scipy) (data : DataFrame) (row_var col_var : string)
    (ip st : bool) (res : CrosstabResult) :
  create_crosstab stats data row_var col_var ip st = Ok res ->
  exists r c t,
    empty data = false /\
    get_column data row_var = Ok r /\ get_column data col_var = Ok c /\
    forallb isna r || forallb isna c = false /\
    crosstab r c true = Ok t /\
    ip && no_complete_row r c = false /\
    table res = t /\
    row_percentages res = (if ip then Some (row_percentages_of t) else None) /\
    column_percentages res = (if ip then Some (column_percentages_of t) else None) /\
    total_percentages res = (if ip then Some (total_percentages_of t) else None) /\
    (if st
     then exists s, chi_square_statistics stats t = Ok s /\ statistics res = Some s
     else statistics res = None).
Proof.
  intros H.
  assert (Hfront :
            exists r c t,
              empty data = false /\
              get_column data row_var = Ok r /\ get_column data col_var = Ok c /\
              forallb isna r || forallb isna c = false /\ crosstab r c true = Ok t).
  { revert H. unfold create_crosstab, _validate_data.
    destruct (empty data) eqn:He; cbn [bind]; [discriminate |].
    destruct (has_column data row_var); cbn [negb]; [| discriminate].
    destruct (has_column data col_var); cbn [negb]; [| discriminate].
    destruct (get_column data row_var) as [r |] eqn:Er; cbn [bind]; [| discriminate].
    destruct (get_column data col_var) as [c |] eqn:Ec; cbn [bind]; [| discriminate].
    destruct (forallb isna r || forallb isna c) eqn:Hn; [discriminate |].
    destruct (crosstab r c true) as [t |] eqn:Et; cbn [bind]; [| discriminate].
    intros _. now exists r, c, t. }
  destruct Hfront as (r & c & t & He & Er & Ec & Hn & Et).
  rewrite (create_crosstab_run stats data row_var col_var ip st r c t He Er Ec Hn Et) in H.
  destruct (ip && no_complete_row r c) eqn:Hsparse; [discriminate H |].
  exists r, c, t. destruct st; cbn [bind] in H.
  - destruct (chi_square_statistics stats t) as [s |] eqn:Es; cbn [bind] in H;
      [| discriminate H].
    injection H as <-. cbn. repeat split; trivial. now exists s.
  - injection H as <-. cbn. repeat split; trivial.
Qed.

(** C4, as stated, fails on the all-null dataset of the test suite: the
    column gender is entirely missing, the error raised is "Variable contains
    all null values", and that message does not contain the name gender. *)
Lemma create_crosstab_all_null_counterexample :
  get_column null_df "gender" = Ok [VNaN; VNaN; VNaN; VNaN] /\
  forallb isna [VNaN; VNaN; VNaN; VNaN] = true /\
  (forall (stats : Scipy) (ip st : bool),
      create_crosstab stats null_df "gender" "satisfaction" ip st =
      Raise (ValueError "Variable contains all null values")) /\
  contains "gender" "Variable contains all null values" = false.
Proof.
  repeat split; reflexivity.
Qed.

(** C4, as the code has it.  On a dataset that is not empty,
    [create_crosstab] raises [ValueError] with a message naming the variable
    exactly when that variable is absent from the dataset's columns (the row
    variable is looked up first).  When both are present and one of the two
    columns is entirely missing it raises [ValueError] with the fixed message
    "Variable contains all null values".  When both are present and neither is
    entirely missing, no validation error is raised: an exception can only
    come from [pd.crosstab], from the percentage block (the [KeyError] on
    'All' of a table built from no complete row), or from the chi-square
    computation. *)
Theorem create_crosstab_validation :
  forall (stats : Scipy) (data : DataFrame) (row_var col_var : string)
         (include_percentages include_statistics : bool),
    let run :=
      create_crosstab stats data row_var col_var include_percentages include_statistics in
    empty data = false ->
    (has_column data row_var = false ->
     run = Raise (ValueError ("Row variable '" ++ row_var ++ "' not found in data")%string))
    /\
    (has_column data row_var = true -> has_column data col_var = false ->
     run = Raise (ValueError ("Column variable '" ++ col_var ++ "' not found in data")%string))
    /\
    (has_column data row_var = true -> has_column data col_var = true ->
     exists r c,
       get_column data row_var = Ok r /\ get_column data col_var = Ok c /\
       (forallb isna r || forallb isna c = true ->
        run = Raise (ValueError "Variable contains all null values")) /\
       (forallb isna r || forallb isna c = false ->
        forall e, run = Raise e ->
          crosstab r c true = Raise e \/
          (include_percentages = true /\ no_complete_row r c = true /\
           e = KeyError "All") \/
          exists t, crosstab r c true = Ok t /\ include_statistics = true /\
                    include_percentages && no_complete_row r c = false /\
                    chi_square_statistics stats t = Raise e)).
Proof.
  intros stats data row_var col_var ip st run Hne.
  split; [| split].
  - intros Hr. unfold run, create_crosstab, _validate_data. rewrite Hne, Hr. reflexivity.
  - intros Hr Hc. unfold run, create_crosstab, _validate_data.
    rewrite Hne, Hr, Hc. reflexivity.
  - intros Hr Hc.
    destruct (has_column_get _ _ Hr) as [r Er].
    destruct (has_column_get _ _ Hc) as [c Ec].
    exists r, c. split; [exact Er | split; [exact Ec | split]].
    + intros Hnull. unfold run, create_crosstab, _validate_data.
      rewrite Hne, Hr, Hc. cbn [bind negb]. rewrite Er, Ec. cbn [bind].
      now rewrite Hnull.
    + intros Hnull e Hrun.
      destruct (crosstab r c true) as [t | e0] eqn:Et.
      * unfold run in Hrun.
        rewrite (create_crosstab_run stats data row_var col_var ip st r c t
                   Hne Er Ec Hnull Et) in Hrun.
        destruct (ip && no_complete_row r c) eqn:Hsparse.
        -- right. left. apply andb_prop in Hsparse. destruct Hsparse as [-> ->].
           injection Hrun as <-. now repeat split.
        -- right. right. exists t. destruct st; cbn [bind] in Hrun.
           ++ destruct (chi_square_statistics stats t) as [s | e1] eqn:Es;
                cbn [bind] in Hrun; [discriminate Hrun |].
              injection Hrun as <-. now repeat split.
           ++ discriminate Hrun.
      * left. unfold run, create_crosstab, _validate_data in Hrun.
        rewrite Hne, Hr, Hc in Hrun. cbn [bind negb] in Hrun.
        rewrite Er, Ec in Hrun. cbn [bind] in Hrun.
        rewrite Hnull, Et in Hrun. cbn [bind] in Hrun. now injection Hrun as <-.
Qed.

Lemma create_crosstab_validation_witness :
  empty survey = false /\
  has_column survey "age" = false /\
  forall stats : Scipy,
    create_crosstab stats survey "age" "gender" true true =
    Raise (ValueError "Row variable 'age' not found in data").
Proof.
  split; [reflexivity | split; [reflexivity |]].
  intros stats.
  apply (create_crosstab_validation stats survey "age" "gender" true true);
    reflexivity.
Defined.

(* ------------------------------------------------------------------------- *)
(** ** The degenerate chi-square result *)

(** C2.  When the table without its margins has exactly one row or exactly
    one column, the chi-square path of [create_crosstab] returns, and its
    statistics are: statistic 0.0, p-value 1.0, 0 degrees of freedom,
    Cramer's V 0.0, the observed counts as expected values, and a residual
    matrix of the same shape filled with 0.0. *)
Theorem single_value_chi_square :
  forall (stats : Scipy) (data : DataFrame) (row_var col_var : string)
         (include_percentages : bool) (r c : list value) (t : frame Z),
    empty data = false ->
    get_column data row_var = Ok r ->
    get_column data col_var = Ok c ->
    forallb isna r || forallb isna c = false ->
    crosstab r c true = Ok t ->
    fst (shape (iloc_drop_last t)) = 1 \/ snd (shape (iloc_drop_last t)) = 1 ->
    exists res,
      create_crosstab stats data row_var col_var include_percentages true = Ok res /\
      table res = t /\
      statistics res =
      Some (mkStatistics (Fin 0) (Fin 1) (Fin 0) (Fin 0)
              (map (map of_int) (values (iloc_drop_last t)))
              (repeat (repeat (Fin 0) (snd (shape (iloc_drop_last t))))
                      (fst (shape (iloc_drop_last t))))).
Proof.
  intros stats data row_var col_var ip r c t Hne Hr Hc Hnull Ht Hshape.
  assert (Hsome : no_complete_row r c = false).
  { destruct (no_complete_row r c) eqn:E; [| reflexivity].
    rewrite (crosstab_empty _ _ E) in Ht. injection Ht as <-.
    destruct Hshape as [H | H]; discriminate H. }
  rewrite (create_crosstab_run stats data row_var col_var ip true r c t Hne Hr Hc Hnull Ht).
  rewrite Hsome, andb_false_r.
  assert (Hdeg : chi_square_statistics stats t = Ok (single_value_statistics (iloc_drop_last t))).
  { unfold chi_square_statistics.
    destruct Hshape as [-> | ->]; simpl; [reflexivity |].
    now rewrite orb_true_r. }
  rewrite Hdeg. cbn [bind]. eexists. split; [reflexivity | split; reflexivity].
Qed.

Lemma single_value_chi_square_witness :
  empty single_value_df = false /\
  crosstab [VStr "Male"; VStr "Male"; VStr "Male"; VStr "Male"]
           [VStr "High"; VStr "Medium"; VStr "Low"; VStr "High"] true
  = Ok (mkFrame [VStr "Male"; All] [VStr "High"; VStr "Low"; VStr "Medium"; All]
                [[2; 1; 1; 4]; [2; 1; 1; 4]]%Z) /\
  forall stats : Scipy,
  exists res,
    create_crosstab stats single_value_df "gender" "satisfaction" true true = Ok res /\
    statistics res =
    Some (mkStatistics (Fin 0) (Fin 1) (Fin 0) (Fin 0)
            [[of_int 2; of_int 1; of_int 1]]
            [[Fin 0; Fin 0; Fin 0]]).
Proof.
  split; [reflexivity | split; [reflexivity |]].
  intros stats.
  destruct (single_value_chi_square stats single_value_df "gender" "satisfaction" true
              [VStr "Male"; VStr "Male"; VStr "Male"; VStr "Male"]
              [VStr "High"; VStr "Medium"; VStr "Low"; VStr "High"]
              (mkFrame [VStr "Male"; All] [VStr "High"; VStr "Low"; VStr "Medium"; All]
                       [[2; 1; 1; 4]; [2; 1; 1; 4]]%Z))
    as (res & Hres & _ & Hst);
    try reflexivity.
  - left. reflexivity.
  - exists res. split; [exact Hres | exact Hst].
Defined.

(* ------------------------------------------------------------------------- *)
(** ** Margins of the contingency table *)

Lemma value_eqb_eq (a b : value) : value_eqb a b = true <-> a = b.
Proof.
  destruct a, b; simpl; split; intros H; try discriminate; try reflexivity.
  - apply Z.eqb_eq in H. now subst.
  - inversion H. apply Z.eqb_refl.
  - apply String.eqb_eq in H. now subst.
  - inversion H. apply String.eqb_refl.
Qed.

Lemma value_eqb_refl (a : value) : value_eqb a a = true.
Proof. now apply value_eqb_eq. Qed.

Lemma insert_perm (x : value) (l : list value) : Permutation (x :: l) (insert x l).
Proof.
  induction l as [| y t IH]; simpl; [apply Permutation_refl |].
  destruct (value_leb x y); [apply Permutation_refl |].
  eapply perm_trans; [apply perm_swap | now apply perm_skip].
Qed.

Lemma sort_perm (l : list value) : Permutation l (sort l).
Proof.
  induction l as [| x t IH]; simpl; [constructor |].
  eapply perm_trans; [apply perm_skip, IH | apply insert_perm].
Qed.

Lemma unique_in (x : value) (l : list value) : In x (unique l) <-> In x l.
Proof.
  induction l as [| y t IH]; simpl; [tauto |].
  rewrite filter_In, IH. split.
  - intros [-> | [H _]]; auto.
  - intros [-> | H]; [now left |].
    destruct (value_eqb y x) eqn:E.
    + apply value_eqb_eq in E. now left.
    + right. now split.
Qed.

Lemma unique_NoDup (l : list value) : NoDup (unique l).
Proof.
  induction l as [| y t IH]; simpl; constructor.
  - rewrite filter_In. intros [_ H]. now rewrite value_eqb_refl in H.
  - now apply NoDup_filter.
Qed.

Lemma categories_NoDup (l : list value) : NoDup (sort (unique l)).
Proof.
  eapply Permutation_NoDup; [apply sort_perm | apply unique_NoDup].
Qed.

Lemma categories_in (x : value) (l : list value) :
  In x l -> In x (sort (unique l)).
Proof.
  intros H. eapply Permutation_in; [apply sort_perm | now apply unique_in].
Qed.

Lemma zsum_map_add {A : Type} (f g : A -> Z) (l : list A) :
  zsum (map (fun k => f k + g k)%Z l) = (zsum (map f l) + zsum (map g l))%Z.
Proof. induction l as [| x t IH]; simpl; [reflexivity | rewrite IH; lia]. Qed.

Lemma zsum_indicator_out (x : value) (cats : list value) :
  ~ In x cats ->
  zsum (map (fun k => if value_eqb x k then 1 else 0)%Z cats) = 0%Z.
Proof.
  induction cats as [| k t IH]; simpl; intros Hn; [reflexivity |].
  destruct (value_eqb x k) eqn:E.
  - apply value_eqb_eq in E. subst. tauto.
  - rewrite IH; tauto.
Qed.

Lemma zsum_indicator (x : value) (cats : list value) :
  NoDup cats -> In x cats ->
  zsum (map (fun k => if value_eqb x k then 1 else 0)%Z cats) = 1%Z.
Proof.
  induction 1 as [| k t Hk Hnd IH]; simpl; intros Hin; [contradiction |].
  destruct (value_eqb x k) eqn:E.
  - apply value_eqb_eq in E. subst. now rewrite zsum_indicator_out.
  - destruct Hin as [-> | Hin]; [now rewrite value_eqb_refl in E | now rewrite IH].
Qed.

Lemma countb_ext {A : Type} (p q : A -> bool) (l : list A) :
  (forall x, p x = q x) -> countb p l = countb q l.
Proof. intros H. induction l as [| x t IH]; simpl; [reflexivity | now rewrite H, IH]. Qed.

Lemma countb_true {A : Type} (l : list A) :
  countb (fun _ => true) l = Z.of_nat (List.length l).
Proof.
  induction l as [| x t IH]; [reflexivity |].
  change (countb (fun _ => true) (x :: t)) with (1 + countb (fun _ : A => true) t)%Z.
  rewrite IH. simpl List.length. lia.
Qed.

Lemma zsum_zero {A : Type} (l : list A) : zsum (map (fun _ => 0%Z) l) = 0%Z.
Proof. induction l as [| x t IH]; simpl; [reflexivity | exact IH]. Qed.

(** Counting by category: the counts of the categories add up to the count
    of the whole, when every element falls in exactly one listed category. *)
Lemma countb_by_category {A : Type} (f : A -> value) (q : A -> bool)
    (cats : list value) (l : list A) :
  NoDup cats -> (forall p, In p l -> In (f p) cats) ->
  zsum (map (fun k => countb (fun p => q p && value_eqb (f p) k) l) cats) = countb q l.
Proof.
  intros Hnd. induction l as [| p t IH]; intros Hin; simpl.
  - apply zsum_zero.
  - rewrite zsum_map_add, IH by (intros p' Hp'; apply Hin; now right).
    f_equal. destruct (q p); simpl.
    + apply zsum_indicator; [exact Hnd | apply Hin; now left].
    + apply zsum_zero.
Qed.

Section CrosstabCounts.

Variable pairs : list (value * value).

Let rcats := sort (unique (map fst pairs)).
Let ccats := sort (unique (map snd pairs)).

Lemma row_cells_sum (rc : value) :
  zsum (map (cell_count pairs rc) ccats) = row_size pairs rc.
Proof.
  unfold cell_count, row_size.
  apply (countb_by_category snd (fun p => value_eqb (fst p) rc)).
  - apply categories_NoDup.
  - intros p Hp. apply categories_in, in_map, Hp.
Qed.

Lemma col_cells_sum (cc : value) :
  zsum (map (fun rc => cell_count pairs rc cc) rcats) = col_size pairs cc.
Proof.
  unfold cell_count, col_size.
  rewrite <- (countb_by_category fst (fun p => value_eqb (snd p) cc) rcats pairs).
  - f_equal. apply map_ext. intros rc. apply countb_ext. intros p. apply andb_comm.
  - apply categories_NoDup.
  - intros p Hp. apply categories_in, in_map, Hp.
Qed.

Lemma row_sizes_sum :
  zsum (map (row_size pairs) rcats) = Z.of_nat (List.length pairs).
Proof.
  rewrite <- countb_true.
  rewrite <- (countb_by_category fst (fun _ => true) rcats pairs).
  - reflexivity.
  - apply categories_NoDup.
  - intros p Hp. apply categories_in, in_map, Hp.
Qed.

Lemma col_sizes_sum :
  zsum (map (col_size pairs) ccats) = Z.of_nat (List.length pairs).
Proof.
  rewrite <- countb_true.
  rewrite <- (countb_by_category snd (fun _ => true) ccats pairs).
  - reflexivity.
  - apply categories_NoDup.
  - intros p Hp. apply categories_in, in_map, Hp.
Qed.

End CrosstabCounts.

Lemma nth_map_in {A B : Type} (f : A -> B) (l : list A) (j : nat) (d : A) (d' : B) :
  j < List.length l -> nth j (map f l) d' = f (nth j l d).
Proof.
  intros H. rewrite (nth_indep _ d' (f d)) by now rewrite length_map.
  apply map_nth.
Qed.

Lemma margins_hold_empty : margins_hold (mkFrame [] [] []).
Proof.
  unfold margins_hold. cbn. repeat split; [constructor | intros j Hj; lia].
Qed.

Lemma crosstab_margins (r c : list value) (t : frame Z) :
  crosstab r c true = Ok t -> no_complete_row r c = false ->
  margins_last t /\ margins_hold t.
Proof.
  intros Ht Hsome.
  pose proof (crosstab_margins_inv _ _ _ Ht Hsome) as Hinv. cbv zeta in Hinv.
  set (pairs := valid_pairs r c) in *.
  set (rcats := sort (unique (map fst pairs))) in *.
  set (ccats := sort (unique (map snd pairs))) in *.
  destruct Hinv as (Hr & Hc & ->). clear Ht.
  split.
  - exists rcats, ccats. simpl. repeat split; trivial.
    + now rewrite !length_app, length_map.
    + unfold rectangular. apply Forall_app. split.
      * apply Forall_forall. intros row Hrow.
        apply in_map_iff in Hrow. destruct Hrow as (rc & <- & _).
        now rewrite !length_app, length_map.
      * constructor; [| constructor]. now rewrite !length_app, length_map.
  - unfold margins_hold. simpl.
    rewrite removelast_last, last_last. repeat split.
    + apply Forall_app. split.
      * apply Forall_forall. intros row Hrow.
        apply in_map_iff in Hrow. destruct Hrow as (rc & <- & _).
        rewrite removelast_last, last_last. symmetry. apply row_cells_sum.
      * constructor; [| constructor].
        rewrite removelast_last, last_last. symmetry. apply col_sizes_sum.
    + intros j Hj. rewrite length_app in Hj. simpl in Hj.
      unfold col. rewrite map_map.
      destruct (Nat.eq_dec j (List.length ccats)) as [-> | Hne].
      * rewrite app_nth2 by (rewrite length_map; lia).
        rewrite length_map, Nat.sub_diag. simpl.
        rewrite <- (row_sizes_sum pairs). f_equal. apply map_ext. intros rc.
        rewrite app_nth2 by (rewrite length_map; lia).
        now rewrite length_map, Nat.sub_diag.
      * assert (Hlt : j < List.length ccats) by lia.
        rewrite app_nth1 by now rewrite length_map.
        rewrite (nth_map_in _ _ _ VNaN 0%Z Hlt).
        rewrite <- (col_cells_sum pairs). f_equal. apply map_ext. intros rc.
        rewrite app_nth1 by now rewrite length_map.
        now rewrite (nth_map_in _ _ _ VNaN 0%Z Hlt).
    + rewrite last_last. unfold grand_total. rewrite !map_map.
      rewrite <- (row_sizes_sum pairs). f_equal. apply map_ext. intros rc.
      rewrite removelast_last. symmetry. apply row_cells_sum.
Qed.

(** C9.  In the table of every result of [create_crosstab], each cell of
    the 'All' column is the sum of the other cells of its row, each cell of
    the 'All' row is the sum of the cells of its column in the rows above,
    and the grand total is the sum of all cells without margins.  When some
    row of the dataset holds both values, the last row and the last column
    of the table are these 'All' margins.  When no row does, a result exists
    only without percentages, and its table is the empty one: it has no
    cell and no margin. *)
Theorem create_crosstab_margins :
  forall (stats : Scipy) (data : DataFrame) (row_var col_var : string)
         (include_percentages include_statistics : bool) (res : CrosstabResult),
    create_crosstab stats data row_var col_var include_percentages include_statistics
    = Ok res ->
    margins_hold (table res) /\
    exists r c,
      get_column data row_var = Ok r /\ get_column data col_var = Ok c /\
      if no_complete_row r c
      then include_percentages = false /\ table res = mkFrame [] [] []
      else margins_last (table res).
Proof.
  intros stats data row_var col_var ip st res H.
  apply create_crosstab_inv in H.
  destruct H as (r & c & t & _ & Er & Ec & _ & Ht & Hip & -> & _).
  destruct (no_complete_row r c) eqn:Hsome.
  - rewrite (crosstab_empty _ _ Hsome) in Ht. injection Ht as <-.
    split; [exact margins_hold_empty |].
    exists r, c. rewrite Hsome. rewrite andb_true_r in Hip. now repeat split.
  - destruct (crosstab_margins _ _ _ Ht Hsome) as [Hlast Hm].
    split; [exact Hm |]. exists r, c. rewrite Hsome. now repeat split.
Qed.

Lemma create_crosstab_margins_witness :
  survey_table =
  mkFrame [VStr "Female"; VStr "Male"; All] [VStr "High"; VStr "Low"; VStr "Medium"; All]
          [[1; 0; 1; 2]; [1; 1; 0; 2]; [2; 1; 1; 4]]%Z /\
  (forall stats : Scipy,
   exists res,
     create_crosstab stats survey "gender" "satisfaction" true false = Ok res /\
     table res = survey_table /\
     margins_hold (table res)) /\
  (forall stats : Scipy,
   exists res,
     create_crosstab stats sparse_df "g" "s" false false = Ok res /\
     table res = mkFrame [] [] [] /\
     margins_hold (table res)).
Proof.
  split; [reflexivity | split].
  - intros stats. eexists. split; [reflexivity | split; [reflexivity |]].
    apply (create_crosstab_margins stats survey "gender" "satisfaction" true false).
    reflexivity.
  - intros stats. eexists. split; [reflexivity | split; [reflexivity |]].
    apply (create_crosstab_margins stats sparse_df "g" "s" false false).
    reflexivity.
Defined.

(* ------------------------------------------------------------------------- *)
(** ** Row percentages *)

Lemma select_percent_cells {A : Type} (a : A) (g : Z -> A)
    (labels : list value) (line : list Z) :
  select (not_all labels)
         (map2 (fun l c => if is_all l then a else g c) labels line)
  = map g (select (not_all labels) line).
Proof.
  revert line. induction labels as [| l ls IH]; intros [| c cs]; simpl; try reflexivity.
  destruct (is_all l); simpl; now rewrite IH.
Qed.

Lemma percent_cells_finite (total : Z) (l : list Z) :
  total <> 0%Z ->
  map (fun c => fmul (fdiv (of_int c) (of_int total)) (Fin 100)) l
  = map Fin (map (fun c => IZR c / IZR total * 100)%R l).
Proof.
  intros Ht. rewrite map_map. apply map_ext. intros c.
  unfold of_int. rewrite fdiv_fin; [reflexivity |].
  now apply not_0_IZR.
Qed.

Lemma rsum_percent (k : R) (l : list Z) :
  rsum (map (fun c => IZR c / k * 100)%R l) = (rsum (map IZR l) / k * 100)%R.
Proof.
  induction l as [| c t IH]; simpl.
  - unfold Rdiv. ring.
  - rewrite IH. unfold Rdiv. ring.
Qed.

(** A line with a positive total: its cells outside 'All' add up to 100. *)
Lemma percent_line_positive (labels : list value) (line : list Z) :
  (0 < zsum (non_margin labels line))%Z ->
  fsum (non_margin labels (percent_line labels line)) = Fin 100.
Proof.
  unfold non_margin, percent_line. intros Hpos.
  set (total := zsum (select (not_all labels) line)) in *.
  destruct (Z.ltb_spec 0 total) as [_ | Hle]; [| lia].
  rewrite select_percent_cells, percent_cells_finite by lia.
  rewrite fsum_fin, rsum_percent, rsum_map_IZR. fold (zsum (select (not_all labels) line)).
  fold total. f_equal. field. apply not_0_IZR. lia.
Qed.

(** A line whose total is not positive is 0.0 throughout. *)
Lemma percent_line_zero (labels : list value) (line : list Z) :
  (zsum (non_margin labels line) <= 0)%Z ->
  percent_line labels line = map (fun _ => Fin 0) labels.
Proof.
  unfold non_margin, percent_line. intros Hle.
  destruct (Z.ltb_spec 0 (zsum (select (not_all labels) line))) as [Hpos | _];
    [lia | reflexivity].
Qed.

(** Under a header that ends with its only 'All', the cells outside 'All'
    are all cells but the last. *)
Lemma non_margin_removelast {A : Type} (cats : list value) (line : list A) :
  existsb is_all cats = false ->
  List.length line = List.length (cats ++ [All]) ->
  non_margin (cats ++ [All]) line = removelast line.
Proof.
  unfold non_margin. revert line.
  induction cats as [| k ks IH]; intros line Hno Hlen.
  - destruct line as [| x [| y t]]; simpl in *; try discriminate; reflexivity.
  - simpl in Hno. apply orb_false_elim in Hno. destruct Hno as [Hk Hks].
    destruct line as [| x t]; [discriminate |].
    simpl in Hlen. injection Hlen as Hlen.
    simpl. rewrite Hk. simpl.
    fold (not_all (ks ++ [All])). rewrite (IH t Hks Hlen).
    destruct t; [| reflexivity].
    rewrite length_app in Hlen. simpl in Hlen. lia.
Qed.

(** The row-percentage view of [create_crosstab] (C1 on the engine path):
    every row whose margin total is positive has its cells outside 'All'
    adding up to 100, and every row whose margin total is zero is 0.0 in all
    its cells. *)
Theorem create_crosstab_row_percentages :
  forall (stats : Scipy) (data : DataFrame) (row_var col_var : string)
         (include_statistics : bool) (res : CrosstabResult),
    create_crosstab stats data row_var col_var true include_statistics = Ok res ->
    exists rp,
      row_percentages res = Some rp /\
      index rp = index (table res) /\ columns rp = columns (table res) /\
      Forall2 (fun trow prow =>
                 if (0 <? last trow 0)%Z
                 then close_to (1 / 1000000) (fsum (non_margin (columns rp) prow)) 100
                 else Forall (eq (Fin 0)) prow)
              (values (table res)) (values rp).
Proof.
  intros stats data row_var col_var st res H.
  apply create_crosstab_inv in H.
  destruct H as (r & c & t & _ & _ & _ & _ & Ht & Hip & Htab & Hrp & _).
  cbn [andb] in Hip.
  destruct (crosstab_margins _ _ _ Ht Hip) as [Hlast Hm].
  rewrite Htab. clear r c Ht Hip Htab.
  exists (row_percentages_of t). split; [exact Hrp |].
  simpl. repeat split.
  destruct Hlast as (rcats & ccats & _ & Hcols & _ & Hno & _ & Hrect).
  destruct Hm as [Hrows _]. rewrite Hcols in *.
  unfold rectangular in Hrect.
  induction (values t) as [| trow rows IH]; simpl; constructor.
  - inversion Hrows as [| ? ? Hrow _]. inversion Hrect as [| ? ? Hlen _]. subst.
    rewrite Hrow, <- (non_margin_removelast ccats trow Hno Hlen).
    destruct (Z.ltb_spec 0 (zsum (non_margin (ccats ++ [All]) trow))) as [Hpos | Hle].
    + rewrite (percent_line_positive _ _ Hpos). simpl.
      replace (100 - 100)%R with 0%R by ring. rewrite Rabs_R0. lra.
    + rewrite (percent_line_zero _ _ Hle). apply Forall_forall.
      intros x Hx. apply in_map_iff in Hx. now destruct Hx as (_ & <- & _).
  - apply IH; [now inversion Hrect | now inversion Hrows].
Qed.

Lemma create_crosstab_row_percentages_witness :
  empty survey = false /\
  forall stats : Scipy,
  exists res rp,
    create_crosstab stats survey "gender" "satisfaction" true false = Ok res /\
    table res = survey_table /\
    row_percentages res = Some rp /\
    Forall2 (fun trow prow =>
               if (0 <? last trow 0)%Z
               then close_to (1 / 1000000) (fsum (non_margin (columns rp) prow)) 100
               else Forall (eq (Fin 0)) prow)
            (values (table res)) (values rp).
Proof.
  split; [reflexivity |].
  intros stats.
  destruct (create_crosstab stats survey "gender" "satisfaction" true false)
    as [res |] eqn:Hrun; [| discriminate Hrun].
  destruct (create_crosstab_row_percentages stats survey "gender" "satisfaction"
              false res Hrun) as (rp & Hrp & _ & _ & Hrows).
  exists res, rp. repeat split; trivial.
  now injection Hrun as <-.
Defined.

Lemma zsum_app (l1 l2 : list Z) : zsum (l1 ++ l2) = (zsum l1 + zsum l2)%Z.
Proof. induction l1 as [| x t IH]; simpl; [reflexivity | rewrite IH; lia]. Qed.

(** The generator divides by the sum of the whole row.  In a row that ends
    with its own total that sum is twice the total, so the cells before the
    margin add up to 50. *)
Lemma generator_row_half (cells : list Z) :
  (0 < zsum cells)%Z ->
  let row := cells ++ [zsum cells] in
  fsum (removelast
          (map (fun c => fmul (fdiv (of_int c) (of_int (zsum row))) (Fin 100)) row))
  = Fin 50.
Proof.
  intros Hpos row. unfold row.
  rewrite map_app. simpl map at 2. rewrite removelast_last.
  assert (Htot : zsum (cells ++ [zsum cells]) = (2 * zsum cells)%Z).
  { rewrite zsum_app. change (zsum [zsum cells]) with (zsum cells + 0)%Z. lia. }
  rewrite Htot, percent_cells_finite by lia.
  rewrite fsum_fin, rsum_percent, rsum_map_IZR. fold (zsum cells).
  rewrite mult_IZR. f_equal. field. apply not_0_IZR. lia.
Qed.

(** C1 at the table of the specification's scenario, on the generator path.
    [CrosstabGenerator._calculate_row_percentages] gives every row of the
    table (Female, Male and 'All') cells outside the 'All' column that add up
    to 50, which is not within 1e-6 of 100. *)
Theorem generator_row_percentages_sum_to_50 :
  let rp := CrosstabGenerator._calculate_row_percentages survey_table in
  columns rp = [VStr "High"; VStr "Low"; VStr "Medium"; All] /\
  Forall (fun prow => fsum (non_margin (columns rp) prow) = Fin 50) (values rp) /\
  ~ close_to (1 / 1000000) (Fin 50) 100.
Proof.
  split; [reflexivity | split].
  - repeat constructor.
    + exact (generator_row_half [1; 0; 1]%Z eq_refl).
    + exact (generator_row_half [1; 1; 0]%Z eq_refl).
    + exact (generator_row_half [2; 1; 1]%Z eq_refl).
  - simpl. intros H. unfold Rabs in H.
    destruct (Rcase_abs (50 - 100)) in H; lra.
Qed.

(* ------------------------------------------------------------------------- *)
(** ** Standardized residuals *)

Lemma nth_map2 {A B C : Type} (f : A -> B -> C) (l : list A) (l' : list B)
    (i : nat) (da : A) (db : B) (dc : C) :
  i < List.length l -> List.length l = List.length l' ->
  nth i (map2 f l l') dc = f (nth i l da) (nth i l' db).
Proof.
  revert l' i. induction l as [| x t IH]; intros [| y t'] i Hi Hlen;
    simpl in *; try lia.
  destruct i as [| i]; [reflexivity |]. apply IH; lia.
Qed.

Lemma length_map2 {A B C : Type} (f : A -> B -> C) (l : list A) (l' : list B) :
  List.length l = List.length l' -> List.length (map2 f l l') = List.length l.
Proof.
  revert l'. induction l as [| x t IH]; intros [| y t'] Hlen; simpl in *; try lia.
  now rewrite IH by lia.
Qed.

Lemma residual_finite (x y : R) :
  (0 < y)%R -> residual (Fin x) (Fin y) = Fin ((x - y) / sqrt y).
Proof.
  intros Hy. unfold residual. rewrite fsub_fin, fsqrt_pos by exact Hy.
  apply fdiv_fin. apply Rgt_not_eq, sqrt_lt_R0, Hy.
Qed.

Lemma residual_zero_expected (x : R) :
  residual (Fin x) (Fin 0) =
  match total_order_T x 0 with
  | inleft (left _) => NInf
  | inleft (right _) => NaN
  | inright _ => PInf
  end.
Proof.
  unfold residual. rewrite fsub_fin, fsqrt_zero, Rminus_0_r.
  unfold fdiv. destruct (Req_EM_T 0 0) as [_ | N]; [| contradiction N; reflexivity].
  reflexivity.
Qed.

(** C3, as stated, fails: with an expected cell of zero the residual is a
    division-by-zero value.  An observed 1 over an expected 0 gives [inf], an
    observed 0 over an expected 0 gives [nan]; the second case is the one the
    engine's own expected matrix produces for a table with an empty row. *)
Lemma residuals_zero_expected_counterexample :
  _calculate_residuals [[Fin 1; Fin 0]] [[Fin 0; Fin 0]] = [[PInf; NaN]] /\
  let observed :=
    mkFrame [VStr "a"; VStr "b"] [VStr "x"; VStr "y"] [[1; 0]; [0; 0]]%Z in
  values (_calculate_expected_values observed) = [[Fin 1; Fin 0]; [Fin 0; Fin 0]] /\
  _calculate_residuals (map (map of_int) (values observed))
                       (values (_calculate_expected_values observed))
  = [[Fin 0; NaN]; [NaN; NaN]].
Proof.
  assert (H10 : residual (Fin 1) (Fin 0) = PInf).
  { rewrite residual_zero_expected.
    destruct (total_order_T 1 0) as [[L | E] | G]; try reflexivity; lra. }
  assert (H00 : residual (Fin 0) (Fin 0) = NaN).
  { rewrite residual_zero_expected.
    destruct (total_order_T 0 0) as [[L | E] | G]; try reflexivity; lra. }
  assert (H11 : residual (Fin 1) (Fin 1) = Fin 0).
  { rewrite residual_finite by lra. f_equal. unfold Rdiv. ring. }
  assert (Hexp : values (_calculate_expected_values
                           (mkFrame [VStr "a"; VStr "b"] [VStr "x"; VStr "y"]
                                    [[1; 0]; [0; 0]]%Z))
                 = [[Fin 1; Fin 0]; [Fin 0; Fin 0]]).
  { change (values _) with
      [[fdiv (Fin 1) (Fin 1); fdiv (Fin 0) (Fin 1)];
       [fdiv (Fin 0) (Fin 1); fdiv (Fin 0) (Fin 1)]].
    rewrite !fdiv_fin by lra.
    replace (1 / 1)%R with 1%R by field. replace (0 / 1)%R with 0%R by field.
    reflexivity. }
  split; [| split].
  - unfold _calculate_residuals. simpl. now rewrite H10, H00.
  - exact Hexp.
  - rewrite Hexp. unfold _calculate_residuals, of_int. simpl. now rewrite H11, H00.
Qed.

(** C3, as the code has it.  For observed and expected matrices of the same
    shape the computation returns a matrix of that shape whose cell (i, j) is
    [(observed - expected) / sqrt(expected)], without any guard: finite when
    the expected cell is positive, and, when the expected cell is zero, [inf]
    for a positive observed cell, [-inf] for a negative one and [nan] for
    zero. *)
Theorem residuals_unguarded :
  forall observed expected : list (list f64),
    Forall2 (fun orow erow => List.length orow = List.length erow) observed expected ->
    List.length (_calculate_residuals observed expected) = List.length observed /\
    (forall i j,
        i < List.length observed -> j < List.length (nth i observed []) ->
        List.length (nth i (_calculate_residuals observed expected) [])
        = List.length (nth i observed []) /\
        nth j (nth i (_calculate_residuals observed expected) []) NaN
        = residual (nth j (nth i observed []) NaN) (nth j (nth i expected []) NaN)) /\
    (forall x y, (0 < y)%R -> residual (Fin x) (Fin y) = Fin ((x - y) / sqrt y)) /\
    (forall x, (0 < x)%R -> residual (Fin x) (Fin 0) = PInf) /\
    (forall x, (x < 0)%R -> residual (Fin x) (Fin 0) = NInf) /\
    residual (Fin 0) (Fin 0) = NaN.
Proof.
  intros observed expected Hshape.
  assert (Hlen : List.length observed = List.length expected).
  { induction Hshape; simpl; congruence. }
  split; [now apply length_map2 | split; [| split; [| split; [| split]]]].
  - intros i j Hi Hj. unfold _calculate_residuals.
    assert (Hrow : List.length (nth i observed []) = List.length (nth i expected [])).
    { clear Hj Hlen. revert i Hi.
      induction Hshape as [| o e os es Hoe _ IH]; intros i Hi; simpl in *; [lia |].
      destruct i as [| i]; [exact Hoe | apply IH; lia]. }
    rewrite (nth_map2 _ _ _ _ [] [] [] Hi Hlen). split.
    + now apply length_map2.
    + now apply nth_map2.
  - exact residual_finite.
  - intros x Hx. rewrite residual_zero_expected.
    destruct (total_order_T x 0) as [[L | E] | G]; try reflexivity; lra.
  - intros x Hx. rewrite residual_zero_expected.
    destruct (total_order_T x 0) as [[L | E] | G]; try reflexivity; lra.
  - rewrite residual_zero_expected.
    destruct (total_order_T 0 0) as [[L | E] | G]; try reflexivity; lra.
Qed.

Lemma residuals_unguarded_witness :
  Forall2 (fun orow erow : list f64 => List.length orow = List.length erow)
          [[Fin 1; Fin 0]] [[Fin 4; Fin 0]] /\
  nth 0 (nth 0 (_calculate_residuals [[Fin 1; Fin 0]] [[Fin 4; Fin 0]]) []) NaN
  = residual (Fin 1) (Fin 4) /\
  residual (Fin 1) (Fin 4) = Fin ((1 - 4) / sqrt 4).
Proof.
  assert (Hshape : Forall2 (fun orow erow : list f64 => List.length orow = List.length erow)
                           [[Fin 1; Fin 0]] [[Fin 4; Fin 0]]).
  { repeat constructor. }
  split; [exact Hshape |].
  destruct (residuals_unguarded [[Fin 1; Fin 0]] [[Fin 4; Fin 0]] Hshape)
    as (_ & Hcell & Hfin & _).
  split.
  - apply (Hcell 0 0); simpl; lia.
  - apply Hfin. lra.
Defined.

(* ------------------------------------------------------------------------- *)
(** ** Expected frequencies *)


Lemma zsum_nth_seq (row : list Z) :
  zsum (map (fun j => nth j row 0%Z) (seq 0 (List.length row))) = zsum row.
Proof.
  induction row as [| x t IH]; [reflexivity |].
  simpl List.length. rewrite <- cons_seq, <- seq_shift. simpl map.
  rewrite map_map. simpl. now rewrite IH.
Qed.

(** Column totals add up to the grand total. *)
Lemma col_totals_sum (nc : nat) (m : list (list Z)) :
  rectangular nc m ->
  zsum (map (fun j => zsum (col j m)) (seq 0 nc)) = grand_total m.
Proof.
  unfold rectangular, grand_total. induction 1 as [| row rest Hlen _ IH]; simpl.
  - apply zsum_zero.
  - rewrite zsum_map_add, IH. f_equal. subst nc. apply zsum_nth_seq.
Qed.

Lemma expected_row_sum (r total : Z) (col_totals : list Z) :
  total <> 0%Z -> zsum col_totals = total ->
  fsum (map (fun c => fdiv (of_int (r * c)) (of_int total)) col_totals) = of_int r.
Proof.
  intros Ht Hsum.
  assert (Hcells :
            map (fun c => fdiv (of_int (r * c)) (of_int total)) col_totals
            = map Fin (map (fun c => IZR r * IZR c / IZR total)%R col_totals)).
  { rewrite map_map. apply map_ext. intros c. unfold of_int.
    rewrite fdiv_fin by now apply not_0_IZR. now rewrite mult_IZR. }
  rewrite Hcells, fsum_fin. unfold of_int. f_equal.
  assert (Hlin : forall l,
             rsum (map (fun c => IZR r * IZR c / IZR total)%R l)
             = (IZR r * rsum (map IZR l) / IZR total)%R).
  { induction l as [| c t IH]; simpl; [| rewrite IH]; unfold Rdiv; ring. }
  rewrite Hlin, rsum_map_IZR. fold (zsum col_totals). rewrite Hsum.
  field. now apply not_0_IZR.
Qed.

Lemma wrap64_int64 (z : Z) : int64 z -> wrap64 z = z.
Proof.
  unfold int64, wrap64. intros H.
  change (2 ^ 63)%Z with 9223372036854775808%Z in *.
  change (2 ^ 64)%Z with 18446744073709551616%Z.
  rewrite Z.mod_small by lia. lia.
Qed.

(** Within int64, the matrix is the outer product of the totals over the
    grand total, computed in the integers. *)
Lemma expected_values_in_range (table : frame Z) :
  rectangular (List.length (columns table)) (values table) ->
  no_overflow table ->
  values (_calculate_expected_values table)
  = map (fun r =>
           map (fun c => fdiv (of_int (r * c)) (of_int (grand_total (values table))))
               (map (fun j => zsum (col j (values table)))
                    (seq 0 (List.length (columns table)))))
        (map zsum (values table)).
Proof.
  intros Hrect (Hrows & Hcols & Htotal & Hprod).
  unfold _calculate_expected_values. cbn [values].
  assert (Er : map (fun row => wrap64 (zsum row)) (values table) = map zsum (values table)).
  { apply map_ext_in. intros row Hin. apply wrap64_int64.
    rewrite Forall_forall in Hrows. apply Hrows. now apply in_map. }
  assert (Ec : map (fun j => wrap64 (zsum (col j (values table))))
                   (seq 0 (List.length (columns table)))
               = map (fun j => zsum (col j (values table)))
                     (seq 0 (List.length (columns table)))).
  { apply map_ext_in. intros j Hin. apply wrap64_int64.
    rewrite Forall_forall in Hcols. apply Hcols.
    apply in_map_iff. now exists j. }
  rewrite Er, Ec, (col_totals_sum _ _ Hrect), (wrap64_int64 _ Htotal).
  apply map_ext_in. intros r Hr. apply map_ext_in. intros c Hc.
  rewrite wrap64_int64; [reflexivity |].
  rewrite Forall_forall in Hprod. specialize (Hprod r Hr).
  rewrite Forall_forall in Hprod. now apply Hprod.
Qed.

(** Outside int64 the products wrap around: a table whose row and column
    totals are 2^32 has an expected matrix of zeros. *)
Lemma expected_values_wrap_around :
  values (_calculate_expected_values large_table)
  = [[Fin (0 / 8589934592); Fin (0 / 8589934592)];
     [Fin (0 / 8589934592); Fin (0 / 8589934592)]].
Proof.
  assert (Hnz : IZR 8589934592 <> 0%R) by (apply not_0_IZR; discriminate).
  change (values (_calculate_expected_values large_table))
    with [[fdiv (Fin 0) (Fin 8589934592); fdiv (Fin 0) (Fin 8589934592)];
          [fdiv (Fin 0) (Fin 8589934592); fdiv (Fin 0) (Fin 8589934592)]].
  now rewrite !fdiv_fin by exact Hnz.
Qed.



(* ------------------------------------------------------------------------- *)
(** ** Fisher's exact test *)


Lemma countb_nonneg {A : Type} (p : A -> bool) (l : list A) : (0 <= countb p l)%Z.
Proof. induction l as [| x t IH]; simpl; [lia | destruct (p x); lia]. Qed.

Lemma crosstab_plain (r c : list value) :
  exists t,
    crosstab r c false = Ok t /\
    List.length (values t) = fst (shape t) /\
    Forall (fun row => List.length row = snd (shape t)) (values t) /\
    Forall (Forall (fun z => (0 <= z)%Z)) (values t).
Proof.
  unfold crosstab. eexists. split; [reflexivity |]. simpl. repeat split.
  - now rewrite length_map.
  - apply Forall_forall. intros row Hrow.
    apply in_map_iff in Hrow. destruct Hrow as (rc & <- & _). now rewrite length_map.
  - apply Forall_forall. intros row Hrow.
    apply in_map_iff in Hrow. destruct Hrow as (rc & <- & _).
    apply Forall_forall. intros z Hz.
    apply in_map_iff in Hz. destruct Hz as (cc & <- & _). apply countb_nonneg.
Qed.

Lemma is_2x2_shape {A : Type} (m : list (list A)) (nr nc : nat) :
  List.length m = nr -> Forall (fun row => List.length row = nc) m ->
  is_2x2 m = true <-> (nr, nc) = (2, 2).
Proof.
  intros Hnr Hnc. split.
  - destruct m as [| [| a [| b [| ? ?]]] [| [| c [| d [| ? ?]]] [| ? ?]]];
      try discriminate.
    intros _. inversion Hnc. subst. reflexivity.
  - intros E. injection E as -> ->.
    destruct m as [| r1 [| r2 [| ? ?]]]; try discriminate.
    pose proof (Forall_inv Hnc) as H1.
    pose proof (Forall_inv (Forall_inv_tail Hnc)) as H2. simpl in H1, H2.
    destruct r1 as [| ? [| ? [| ? ?]]]; try discriminate.
    destruct r2 as [| ? [| ? [| ? ?]]]; try discriminate.
    reflexivity.
Qed.

Lemma length_sort (l : list value) : List.length (sort l) = List.length l.
Proof. symmetry. apply Permutation_length, sort_perm. Qed.

(** C5, as stated, fails: the engine checks no shape.  The table of the
    specification's scenario has two rows and three columns, and with a
    [fisher_exact] that answers for a table of any shape, as scipy's does
    since it computes the test for r x c tables, the operation returns that
    answer. *)
Lemma fisher_exact_no_shape_check_counterexample :
  crosstab [VStr "Male"; VStr "Female"; VStr "Male"; VStr "Female"]
           [VStr "High"; VStr "Medium"; VStr "Low"; VStr "High"] false
  = Ok (mkFrame [VStr "Female"; VStr "Male"] [VStr "High"; VStr "Low"; VStr "Medium"]
                [[1; 0; 1]; [1; 1; 0]]%Z) /\
  is_2x2 [[1; 0; 1]; [1; 1; 0]]%Z = false /\
  forall (stats : Scipy) (answer p : f64),
    perform_statistical_test (with_fisher (fun _ => Ok (answer, p)) stats)
      survey "gender" "satisfaction" FISHER_EXACT
    = Ok (mkStatisticalResult FISHER_EXACT answer p None None).
Proof.
  split; [reflexivity | split; [reflexivity |]].
  intros stats answer p. reflexivity.
Qed.

(** C5, as the code has it.  The Fisher operation hands the contingency
    table of the two columns, built without margins, to scipy's
    [fisher_exact] and checks nothing itself.  What scipy returns becomes
    the statistic and the p-value of a result without degrees of freedom and
    without effect size; what scipy raises is raised.  The table holds
    counts, and it is 2x2 exactly when each variable takes exactly two
    distinct values on the rows where neither is missing. *)
Theorem fisher_exact_without_shape_check :
  forall (stats : Scipy) (data : DataFrame) (var1 var2 : string) (c1 c2 : list value),
    get_column data var1 = Ok c1 ->
    get_column data var2 = Ok c2 ->
    let pairs := valid_pairs c1 c2 in
    exists t,
      crosstab c1 c2 false = Ok t /\
      (is_2x2 (values t) = true <->
       List.length (unique (map fst pairs)) = 2 /\
       List.length (unique (map snd pairs)) = 2) /\
      Forall (Forall (fun z => (0 <= z)%Z)) (values t) /\
      perform_statistical_test stats data var1 var2 FISHER_EXACT =
      match fisher_exact stats (values t) with
      | Ok (odds_ratio, p) => Ok (mkStatisticalResult FISHER_EXACT odds_ratio p None None)
      | Raise e => Raise e
      end.
Proof.
  intros stats data var1 var2 c1 c2 H1 H2 pairs.
  destruct (crosstab_plain c1 c2) as (t & Ht & Hnr & Hnc & Hpos).
  exists t. split; [exact Ht | split; [| split; [exact Hpos |]]].
  - rewrite (is_2x2_shape (values t) _ _ Hnr Hnc).
    unfold crosstab in Ht. injection Ht as <-. fold pairs. cbn [shape index columns fst snd].
    rewrite !length_sort. split.
    + intros E. now injection E.
    + intros [-> ->]. reflexivity.
  - unfold perform_statistical_test. rewrite H1, H2. cbn [bind]. rewrite Ht. cbn [bind].
    now destruct (fisher_exact stats (values t)) as [[odds_ratio p] | e].
Qed.

Lemma fisher_exact_without_shape_check_witness :
  get_column fisher_df "group" = Ok [VStr "A"; VStr "A"; VStr "B"; VStr "B"] /\
  get_column fisher_df "outcome" = Ok [VStr "Yes"; VStr "No"; VStr "Yes"; VStr "No"] /\
  forall stats : Scipy,
  exists t,
    crosstab [VStr "A"; VStr "A"; VStr "B"; VStr "B"]
             [VStr "Yes"; VStr "No"; VStr "Yes"; VStr "No"] false = Ok t /\
    is_2x2 (values t) = true /\
    perform_statistical_test stats fisher_df "group" "outcome" FISHER_EXACT =
    match fisher_exact stats (values t) with
    | Ok (odds_ratio, p) => Ok (mkStatisticalResult FISHER_EXACT odds_ratio p None None)
    | Raise e => Raise e
    end.
Proof.
  split; [reflexivity | split; [reflexivity |]].
  intros stats.
  destruct (fisher_exact_without_shape_check stats fisher_df "group" "outcome"
              [VStr "A"; VStr "A"; VStr "B"; VStr "B"]
              [VStr "Yes"; VStr "No"; VStr "Yes"; VStr "No"] eq_refl eq_refl)
    as (t & Ht & Hshape & _ & Hrun).
  exists t. split; [exact Ht | split; [| exact Hrun]].
  apply Hshape. split; reflexivity.
Defined.

(* ------------------------------------------------------------------------- *)
(** ** The t-test *)

Lemma filter_filter_comm {A : Type} (p q : A -> bool) (l : list A) :
  filter p (filter q l) = filter q (filter p l).
Proof.
  induction l as [| x t IH]; [reflexivity |]. simpl.
  destruct (p x) eqn:Ep, (q x) eqn:Eq; simpl; rewrite ?Ep, ?Eq, IH; reflexivity.
Qed.

Lemma filter_all {A : Type} (p : A -> bool) (l : list A) :
  (forall x, In x l -> p x = true) -> filter p l = l.
Proof.
  induction l as [| x t IH]; intros H; [reflexivity |]. simpl.
  rewrite (H x (or_introl eq_refl)). f_equal. apply IH. intros y Hy. apply H. now right.
Qed.

Lemma filter_none {A : Type} (p : A -> bool) (l : list A) :
  (forall x, In x l -> p x = false) -> filter p l = [].
Proof.
  induction l as [| x t IH]; intros H; [reflexivity |]. simpl.
  rewrite (H x (or_introl eq_refl)). apply IH. intros y Hy. apply H. now right.
Qed.

(** [unique] and the removal of missing values commute. *)
Lemma unique_notna (l : list value) :
  filter notna (unique l) = unique (filter notna l).
Proof.
  induction l as [| x t IH]; [reflexivity |]. simpl.
  destruct (notna x) eqn:Ex; simpl; rewrite filter_filter_comm, IH.
  - reflexivity.
  - apply filter_all. intros y Hy. apply unique_in, filter_In in Hy.
    destruct Hy as [_ Hy].
    destruct (value_eqb x y) eqn:E; [| reflexivity].
    apply value_eqb_eq in E. subst y. congruence.
Qed.

Lemma isna_eq (v : value) : isna v = true <-> v = VNaN.
Proof. destruct v; simpl; split; intros H; try discriminate H; reflexivity. Qed.

(** What [len(unique())] counts: the groups, and the missing marker once
    when the column has a missing value. *)
Lemma length_unique_missing (l : list value) :
  List.length (unique l)
  = List.length (non_empty_groups l) + (if existsb isna l then 1 else 0).
Proof.
  unfold non_empty_groups. rewrite <- unique_notna.
  assert (Hex : existsb isna l = existsb isna (unique l)).
  { apply eq_true_iff_eq. rewrite !existsb_exists. split; intros (x & Hx & Hna);
      exists x; split; trivial; now apply unique_in. }
  rewrite Hex. clear Hex. generalize (unique_NoDup l). generalize (unique l).
  clear l. intros u Hnd.
  induction Hnd as [| x u Hx _ IH]; [reflexivity |].
  destruct x.
  - simpl in *. lia.
  - simpl in *. lia.
  - simpl. rewrite (filter_all notna u); [lia |].
    intros y Hy. destruct y; try reflexivity. contradiction.
Qed.

Lemma mean_nil : mean [] = NaN.
Proof.
  unfold mean, fdiv, of_int. cbn [dropna filter fsum fold_left List.length Z.of_nat].
  destruct (Req_EM_T 0 0) as [_ | N]; [| contradiction N; reflexivity].
  unfold inf_of_sign. destruct (total_order_T 0 0) as [[L | E] | G]; try reflexivity; lra.
Qed.

Lemma fsub_nan_r (a : f64) : fsub a NaN = NaN.
Proof. now destruct a. Qed.

Lemma fsub_nan_l (a : f64) : fsub NaN a = NaN.
Proof. reflexivity. Qed.

Lemma fdiv_nan_l (a : f64) : fdiv NaN a = NaN.
Proof. reflexivity. Qed.

(** No row compares equal to the missing marker: its group is empty. *)
Lemma group_values_nan (c1 c2 : list value) : group_values c1 c2 VNaN = [].
Proof.
  unfold group_values. rewrite filter_none; [reflexivity |].
  intros [a b] _. now destruct a.
Qed.

Lemma hd_unique (d : value) (l : list value) : hd d (unique l) = hd d l.
Proof. now destruct l. Qed.

(** C6: the group count of the t-test takes the missing marker for a group.
    [len(unique())] is the number of groups, plus one when the row variable
    has a missing value, and the operation raises [ValueError] whenever this
    number is not two: with a missing value, two groups are refused.  One
    group and a missing value are accepted: the second sample handed to
    scipy is then empty, and when scipy returns, the effect size is [nan]. *)
Theorem t_test_counts_missing_as_group :
  forall (stats : Scipy) (data : DataFrame) (var1 var2 : string) (c1 : list value),
    get_column data var1 = Ok c1 ->
    let run := perform_statistical_test stats data var1 var2 T_TEST in
    let counted :=
      List.length (non_empty_groups c1) + (if existsb isna c1 then 1 else 0) in
    List.length (unique c1) = counted /\
    (counted <> 2 -> run = Raise (ValueError "T-test requires exactly 2 groups")) /\
    (forall g c2 xs,
       non_empty_groups c1 = [g] ->
       existsb isna c1 = true ->
       get_column data var2 = Ok c2 ->
       to_floats (group_values c1 c2 g) = Ok xs ->
       run =
       (r <- (if isna (hd VNaN c1) then ttest_ind stats [] xs else ttest_ind stats xs []) ;;
        let '(t_stat, p) := r in
        Ok (mkStatisticalResult T_TEST t_stat p None (Some NaN)))).
Proof.
  intros stats data var1 var2 c1 H1 run counted.
  pose proof (length_unique_missing c1) as Hcount. fold counted in Hcount.
  split; [exact Hcount | split].
  - intros Hn. unfold run, perform_statistical_test. rewrite H1. cbn [bind].
    rewrite Hcount. destruct (Nat.eqb_spec counted 2) as [E | _];
      [contradiction | reflexivity].
  - intros g c2 xs Hg Hna H2 Hxs.
    assert (Hlen : List.length (unique c1) = 2).
    { rewrite Hcount. unfold counted. now rewrite Hg, Hna. }
    assert (Hf : filter notna (unique c1) = [g]).
    { rewrite unique_notna. exact Hg. }
    unfold run, perform_statistical_test. rewrite H1. cbn [bind].
    rewrite Hlen. cbn [Nat.eqb negb]. rewrite H2. cbn [bind].
    rewrite <- (hd_unique VNaN c1).
    destruct (unique c1) as [| a [| b [| ? ?]]]; try discriminate Hlen.
    cbn [nth hd].
    destruct a as [za | sa |], b as [zb | sb |]; cbn in Hf; try discriminate Hf;
      injection Hf as <-; cbn [isna notna negb];
      rewrite ?group_values_nan, ?Hxs; cbn [to_floats bind];
      match goal with
      | |- context [ttest_ind stats ?u ?v] =>
          destruct (ttest_ind stats u v) as [[t_stat p] | e]
      end; cbn [bind]; try reflexivity;
      rewrite mean_nil, ?fsub_nan_r, ?fsub_nan_l, fdiv_nan_l; reflexivity.
Qed.

Lemma t_test_counts_missing_as_group_witness :
  get_column missing_group_df "g" = Ok [VStr "A"; VNaN; VStr "A"; VNaN] /\
  non_empty_groups [VStr "A"; VNaN; VStr "A"; VNaN] = [VStr "A"] /\
  (forall stats : Scipy,
      perform_statistical_test stats missing_group_df "g" "v" T_TEST =
      (r <- ttest_ind stats [of_int 1; of_int 3] [] ;;
       let '(t_stat, p) := r in
       Ok (mkStatisticalResult T_TEST t_stat p None (Some NaN)))) /\
  non_empty_groups [VStr "A"; VStr "B"; VNaN] = [VStr "A"; VStr "B"] /\
  (forall stats : Scipy,
      perform_statistical_test stats two_groups_df "g" "v" T_TEST =
      Raise (ValueError "T-test requires exactly 2 groups")).
Proof.
  split; [reflexivity | split; [reflexivity | split; [| split; [reflexivity |]]]].
  - intros stats.
    apply (t_test_counts_missing_as_group stats missing_group_df "g" "v"
             [VStr "A"; VNaN; VStr "A"; VNaN] eq_refl)
      with (g := VStr "A") (c2 := [VInt 1; VInt 2; VInt 3; VInt 4]);
      reflexivity.
  - intros stats.
    apply (t_test_counts_missing_as_group stats two_groups_df "g" "v"
             [VStr "A"; VStr "B"; VNaN] eq_refl).
    cbn. discriminate.
Defined.

(* ------------------------------------------------------------------------- *)
(** ** The effect size of the t-test *)

Lemma numbers_floats (l : list value) (xs : list Z) :
  numbers l = Some xs ->
  exists fl, to_floats l = Ok fl /\ dropna fl = map Fin (map IZR xs).
Proof.
  revert xs. induction l as [| v t IH]; intros xs H.
  - injection H as <-. now exists [].
  - destruct v as [z | s |]; cbn [numbers] in H.
    + destruct (numbers t) as [xs' |]; [| discriminate H]. injection H as <-.
      destruct (IH xs' eq_refl) as (fl & Hfl & Hdrop).
      exists (of_int z :: fl). cbn [to_floats to_float bind]. rewrite Hfl. cbn [bind].
      split; [reflexivity |]. cbn. now rewrite <- Hdrop.
    + discriminate H.
    + destruct (IH xs H) as (fl & Hfl & Hdrop).
      exists (NaN :: fl). cbn [to_floats to_float bind]. rewrite Hfl. cbn [bind].
      split; [reflexivity | exact Hdrop].
Qed.

Lemma of_int_of_nat (n : nat) : of_int (Z.of_nat n) = Fin (INR n).
Proof. unfold of_int. now rewrite <- INR_IZR_INZ. Qed.

Lemma mean_reals (fl : list f64) (rs : list R) :
  dropna fl = map Fin rs -> rs <> [] -> mean fl = Fin (rmean rs).
Proof.
  intros Hdrop Hne. unfold mean, rmean. rewrite Hdrop, fsum_fin, length_map, of_int_of_nat.
  apply fdiv_fin. apply not_0_INR. destruct rs; [contradiction | discriminate].
Qed.

Lemma var_reals (fl : list f64) (rs : list R) :
  dropna fl = map Fin rs -> 2 <= List.length rs -> var fl = Fin (rvar rs).
Proof.
  intros Hdrop Hlen. unfold var.
  rewrite (mean_reals fl rs Hdrop) by (destruct rs; [simpl in Hlen; lia | discriminate]).
  rewrite Hdrop, length_map.
  destruct (Nat.leb_spec (List.length rs) 1) as [Hle | _]; [lia |].
  assert (Hsq : map (fun x => fmul (fsub x (Fin (rmean rs))) (fsub x (Fin (rmean rs))))
                    (map Fin rs)
                = map Fin (map (fun x => (x - rmean rs) * (x - rmean rs))%R rs)).
  { rewrite !map_map. apply map_ext. intros x. now rewrite fsub_fin. }
  rewrite Hsq, fsum_fin. unfold of_int, rvar.
  rewrite minus_IZR, <- INR_IZR_INZ.
  apply fdiv_fin.
  assert (H2 : (2 <= INR (List.length rs))%R).
  { change 2%R with (INR 2). now apply le_INR. }
  lra.
Qed.

(** The float expression of the effect size, on finite means and variances. *)
Lemma effect_size_reals (m1 m2 v1 v2 : R) :
  (0 < v1 + v2)%R ->
  fdiv (fsub (Fin m1) (Fin m2)) (fsqrt (fdiv (fadd (Fin v1) (Fin v2)) (Fin 2)))
  = Fin ((m1 - m2) / sqrt ((v1 + v2) / 2)).
Proof.
  intros Hpos. rewrite fsub_fin. cbn [fadd].
  rewrite fdiv_fin by lra.
  assert (Hhalf : (0 < (v1 + v2) / 2)%R) by lra.
  rewrite (fsqrt_pos _ Hhalf).
  apply fdiv_fin. apply Rgt_not_eq, sqrt_lt_R0, Hhalf.
Qed.

(** The effect size of the t-test is the standardized mean difference of the
    specification.  When the row variable has two distinct values, each
    group holds at least two numbers of the column variable (missing values
    apart) and the two sample variances are not both zero, the operation
    hands the two groups to scipy and, when scipy returns, the effect size is
    [(mean1 - mean2) / sqrt((var1 + var2) / 2)] of the numbers of the two
    groups, with the sample variance (n - 1 in the divisor). *)
Theorem t_test_effect_size_pooled :
  forall (stats : Scipy) (data : DataFrame) (var1 var2 : string)
         (c1 c2 : list value) (g1 g2 : value) (xs ys : list Z),
    get_column data var1 = Ok c1 ->
    get_column data var2 = Ok c2 ->
    unique c1 = [g1; g2] ->
    numbers (group_values c1 c2 g1) = Some xs ->
    numbers (group_values c1 c2 g2) = Some ys ->
    2 <= List.length xs -> 2 <= List.length ys ->
    (0 < rvar (map IZR xs) + rvar (map IZR ys))%R ->
    exists group1 group2,
      to_floats (group_values c1 c2 g1) = Ok group1 /\
      to_floats (group_values c1 c2 g2) = Ok group2 /\
      perform_statistical_test stats data var1 var2 T_TEST =
      (r <- ttest_ind stats group1 group2 ;;
       let '(t_stat, p) := r in
       Ok (mkStatisticalResult T_TEST t_stat p None
             (Some (Fin (pooled_effect_size (map IZR xs) (map IZR ys)))))).
Proof.
  intros stats data var1 var2 c1 c2 g1 g2 xs ys H1 H2 Hu Hxs Hys Hnx Hny Hpos.
  destruct (numbers_floats _ _ Hxs) as (group1 & E1 & D1).
  destruct (numbers_floats _ _ Hys) as (group2 & E2 & D2).
  exists group1, group2. split; [exact E1 | split; [exact E2 |]].
  unfold perform_statistical_test. rewrite H1. cbn [bind]. rewrite Hu.
  cbn [List.length Nat.eqb negb nth]. rewrite H2. cbn [bind].
  rewrite E1. cbn [bind]. rewrite E2. cbn [bind].
  destruct (ttest_ind stats group1 group2) as [[t_stat p] | e]; cbn [bind];
    [| reflexivity].
  assert (Hx : map IZR xs <> []) by (destruct xs; [simpl in Hnx; lia | discriminate]).
  assert (Hy : map IZR ys <> []) by (destruct ys; [simpl in Hny; lia | discriminate]).
  rewrite (mean_reals _ _ D1 Hx), (mean_reals _ _ D2 Hy).
  rewrite (var_reals _ _ D1) by now rewrite length_map.
  rewrite (var_reals _ _ D2) by now rewrite length_map.
  now rewrite (effect_size_reals _ _ _ _ Hpos).
Qed.

Lemma t_test_effect_size_pooled_witness :
  get_column age_df "gender" = Ok [VStr "M"; VStr "M"; VStr "F"; VStr "F"] /\
  numbers (group_values [VStr "M"; VStr "M"; VStr "F"; VStr "F"]
                        [VInt 1; VInt 3; VInt 5; VInt 9] (VStr "M")) = Some [1; 3]%Z /\
  numbers (group_values [VStr "M"; VStr "M"; VStr "F"; VStr "F"]
                        [VInt 1; VInt 3; VInt 5; VInt 9] (VStr "F")) = Some [5; 9]%Z /\
  forall stats : Scipy,
  exists group1 group2,
    perform_statistical_test stats age_df "gender" "income" T_TEST =
    (r <- ttest_ind stats group1 group2 ;;
     let '(t_stat, p) := r in
     Ok (mkStatisticalResult T_TEST t_stat p None
           (Some (Fin (pooled_effect_size [1%R; 3%R] [5%R; 9%R]))))).
Proof.
  split; [reflexivity | split; [reflexivity | split; [reflexivity |]]].
  intros stats.
  assert (Hpos : (0 < rvar (map IZR [1; 3]%Z) + rvar (map IZR [5; 9]%Z))%R).
  { unfold rvar, rmean. cbn [map rsum List.length INR]. lra. }
  destruct (t_test_effect_size_pooled stats age_df "gender" "income"
              [VStr "M"; VStr "M"; VStr "F"; VStr "F"]
              [VInt 1; VInt 3; VInt 5; VInt 9] (VStr "M") (VStr "F") [1; 3]%Z [5; 9]%Z
              eq_refl eq_refl eq_refl eq_refl eq_refl (le_n 2) (le_n 2) Hpos)
    as (group1 & group2 & _ & _ & Hrun).
  exists group1, group2. exact Hrun.
Defined.

(* ========================================================================= *)
(** * Further properties of the engine *)

(* ------------------------------------------------------------------------- *)
(** ** The table of [create_crosstab] *)

Lemma countb_pos {A : Type} (p : A -> bool) (l : list A) (x : A) :
  In x l -> p x = true -> (0 < countb p l)%Z.
Proof.
  induction l as [| y t IH]; simpl; intros Hin Hp; [contradiction |].
  pose proof (countb_nonneg p t) as Hnn.
  destruct Hin as [-> | Hin].
  - rewrite Hp. lia.
  - specialize (IH Hin Hp). destruct (p y); lia.
Qed.

Lemma sort_in (x : value) (l : list value) : In x (sort l) <-> In x l.
Proof.
  split; intros H.
  - eapply Permutation_in; [apply Permutation_sym, sort_perm | exact H].
  - eapply Permutation_in; [apply sort_perm | exact H].
Qed.

(** Every category of the table was observed at least once. *)
Lemma row_size_pos (pairs : list (value * value)) (rc : value) :
  In rc (sort (unique (map fst pairs))) -> (0 < row_size pairs rc)%Z.
Proof.
  intros H. apply sort_in, unique_in, in_map_iff in H.
  destruct H as (p & <- & Hp). unfold row_size.
  apply (countb_pos _ _ p Hp). apply value_eqb_refl.
Qed.

Lemma col_size_pos (pairs : list (value * value)) (cc : value) :
  In cc (sort (unique (map snd pairs))) -> (0 < col_size pairs cc)%Z.
Proof.
  intros H. apply sort_in, unique_in, in_map_iff in H.
  destruct H as (p & <- & Hp). unfold col_size.
  apply (countb_pos _ _ p Hp). apply value_eqb_refl.
Qed.

Lemma Forall2_map_both {A B C : Type} (P : B -> C -> Prop) (f : A -> B) (g : A -> C)
    (l : list A) :
  (forall x, In x l -> P (f x) (g x)) -> Forall2 P (map f l) (map g l).
Proof.
  induction l as [| x t IH]; intros H; simpl; constructor.
  - apply H. now left.
  - apply IH. intros y Hy. apply H. now right.
Qed.

Lemma map2_app {A B C : Type} (f : A -> B -> C) (l1 l2 : list A) (l1' l2' : list B) :
  List.length l1 = List.length l1' ->
  map2 f (l1 ++ l2) (l1' ++ l2') = map2 f l1 l1' ++ map2 f l2 l2'.
Proof.
  revert l1'. induction l1 as [| x t IH]; intros [| y t'] Hlen; simpl in *; try lia.
  - reflexivity.
  - f_equal. apply IH. lia.
Qed.

(** A line that ends with its 'All' cell and has a positive total: its
    percentages end with 100.0. *)
Lemma percent_line_last (cats : list value) (cells : list Z) (m : Z) :
  existsb is_all cats = false ->
  List.length cells = List.length cats ->
  (0 < zsum cells)%Z ->
  fsum (non_margin (cats ++ [All]) (percent_line (cats ++ [All]) (cells ++ [m]))) = Fin 100 /\
  last (percent_line (cats ++ [All]) (cells ++ [m])) NaN = Fin 100.
Proof.
  intros Hno Hlen Hpos.
  assert (Hnm : non_margin (cats ++ [All]) (cells ++ [m]) = cells).
  { rewrite non_margin_removelast; [apply removelast_last | exact Hno |].
    rewrite !length_app. simpl. lia. }
  split.
  - apply percent_line_positive. now rewrite Hnm.
  - unfold percent_line. fold (non_margin (cats ++ [All]) (cells ++ [m])).
    rewrite Hnm. destruct (Z.ltb_spec 0 (zsum cells)) as [_ | Hle]; [| lia].
    rewrite map2_app by lia. simpl map2 at 2.
    change (is_all All) with true. cbv iota. apply last_last.
Qed.

(** In the row-percentage view of [create_crosstab] the zero fallback is
    never taken for a category: every row that is not the 'All' row has
    cells outside 'All' adding up to 100 and 100.0 in its 'All' cell. *)
Theorem category_rows_sum_to_100 :
  forall (stats : Scipy) (data : DataFrame) (row_var col_var : string)
         (include_statistics : bool) (res : CrosstabResult),
    create_crosstab stats data row_var col_var true include_statistics = Ok res ->
    exists rp,
      row_percentages res = Some rp /\
      Forall2 (fun idx prow =>
                 is_all idx = false ->
                 fsum (non_margin (columns rp) prow) = Fin 100 /\
                 last prow NaN = Fin 100)
              (index rp) (values rp).
Proof.
  intros stats data row_var col_var st res H.
  apply create_crosstab_inv in H.
  destruct H as (r & c & t & _ & _ & _ & _ & Hct & Hip & _ & Hrp & _).
  cbn [andb] in Hip.
  exists (row_percentages_of t). split; [exact Hrp |].
  pose proof (crosstab_margins_inv _ _ _ Hct Hip) as Ht. cbv zeta in Ht. clear Hct.
  set (pairs := valid_pairs r c) in *.
  set (rcats := sort (unique (map fst pairs))) in *.
  set (ccats := sort (unique (map snd pairs))) in *.
  destruct Ht as (_ & Hno & ->). unfold row_percentages_of. cbn [index columns values].
  rewrite map_app, map_map. apply Forall2_app.
  - rewrite <- (map_id rcats) at 1. apply Forall2_map_both.
    intros rc Hrc _. apply percent_line_last.
    + exact Hno.
    + now rewrite length_map.
    + unfold ccats. rewrite row_cells_sum. now apply row_size_pos.
  - constructor; [| constructor]. intros Hall. discriminate Hall.
Qed.

Lemma category_rows_sum_to_100_witness :
  empty survey = false /\
  forall stats : Scipy,
  exists res rp,
    create_crosstab stats survey "gender" "satisfaction" true false = Ok res /\
    index (table res) = [VStr "Female"; VStr "Male"; All] /\
    row_percentages res = Some rp /\
    Forall2 (fun idx prow =>
               is_all idx = false ->
               fsum (non_margin (columns rp) prow) = Fin 100 /\
               last prow NaN = Fin 100)
            (index rp) (values rp).
Proof.
  split; [reflexivity |].
  intros stats.
  destruct (create_crosstab stats survey "gender" "satisfaction" true false)
    as [res |] eqn:Hrun; [| discriminate Hrun].
  destruct (category_rows_sum_to_100 stats survey "gender" "satisfaction" false res Hrun)
    as (rp & Hrp & Hrows).
  exists res, rp. repeat split; trivial.
  now injection Hrun as <-.
Defined.

(* ------------------------------------------------------------------------- *)
(** ** The generator's row percentages, for every table *)

Lemma generator_row_last (cells : list Z) :
  (0 < zsum cells)%Z ->
  let row := cells ++ [zsum cells] in
  last (map (fun c => fmul (fdiv (of_int c) (of_int (zsum row))) (Fin 100)) row) NaN
  = Fin 50.
Proof.
  intros Hpos row. unfold row.
  rewrite map_app. cbn [map]. rewrite last_last.
  assert (Htot : zsum (cells ++ [zsum cells]) = (2 * zsum cells)%Z).
  { rewrite zsum_app. change (zsum [zsum cells]) with (zsum cells + 0)%Z. lia. }
  rewrite Htot. unfold of_int. rewrite fdiv_fin by (apply not_0_IZR; lia).
  cbn [fmul]. rewrite mult_IZR. f_equal. field. apply not_0_IZR. lia.
Qed.

(** On the table [pd.crosstab] builds with margins, whatever the two
    columns, [CrosstabGenerator._calculate_row_percentages] gives every
    category row cells that add up to 50 outside 'All', and 50 in the 'All'
    cell: the divisor is the sum of the row with its margin. *)
Theorem generator_category_rows_sum_to_50 :
  forall (r c : list value) (t : frame Z),
    crosstab r c true = Ok t ->
    let rp := CrosstabGenerator._calculate_row_percentages t in
    index rp = index t /\ columns rp = columns t /\
    Forall2 (fun idx prow =>
               is_all idx = false ->
               fsum (non_margin (columns rp) prow) = Fin 50 /\
               last prow NaN = Fin 50)
            (index rp) (values rp).
Proof.
  intros r c t Hct rp. unfold rp. clear rp.
  destruct (no_complete_row r c) eqn:Hsome.
  { rewrite (crosstab_empty _ _ Hsome) in Hct. injection Hct as <-.
    split; [reflexivity | split; [reflexivity | constructor]]. }
  pose proof (crosstab_margins_inv _ _ _ Hct Hsome) as Ht. cbv zeta in Ht. clear Hct.
  set (pairs := valid_pairs r c) in *.
  set (rcats := sort (unique (map fst pairs))) in *.
  set (ccats := sort (unique (map snd pairs))) in *.
  destruct Ht as (_ & Hno & ->).
  unfold CrosstabGenerator._calculate_row_percentages. cbn [index columns values].
  split; [reflexivity | split; [reflexivity |]].
  rewrite map_app, map_map. apply Forall2_app.
  - rewrite <- (map_id rcats) at 1. apply Forall2_map_both.
    intros rc Hrc _.
    assert (Hsum : zsum (map (cell_count pairs rc) ccats) = row_size pairs rc)
      by apply row_cells_sum.
    assert (Hpos : (0 < zsum (map (cell_count pairs rc) ccats))%Z)
      by (rewrite Hsum; now apply row_size_pos).
    rewrite <- Hsum. split.
    + rewrite non_margin_removelast; [now apply generator_row_half | exact Hno |].
      now rewrite length_map, !length_app, length_map.
    + now apply generator_row_last.
  - constructor; [| constructor]. intros Hall. discriminate Hall.
Qed.

Lemma generator_category_rows_sum_to_50_witness :
  crosstab [VStr "Male"; VStr "Female"; VStr "Male"; VStr "Female"]
           [VStr "High"; VStr "Medium"; VStr "Low"; VStr "High"] true
  = Ok survey_table /\
  let rp := CrosstabGenerator._calculate_row_percentages survey_table in
  Forall2 (fun idx prow =>
             is_all idx = false ->
             fsum (non_margin (columns rp) prow) = Fin 50 /\
             last prow NaN = Fin 50)
          (index rp) (values rp).
Proof.
  split; [reflexivity |].
  apply (generator_category_rows_sum_to_50
           [VStr "Male"; VStr "Female"; VStr "Male"; VStr "Female"]
           [VStr "High"; VStr "Medium"; VStr "Low"; VStr "High"] survey_table).
  reflexivity.
Defined.

(* ------------------------------------------------------------------------- *)
(** ** Column and total percentages of [create_crosstab] *)

Lemma nth_seq_self {A : Type} (l : list A) (d : A) :
  map (fun i => nth i l d) (seq 0 (List.length l)) = l.
Proof.
  induction l as [| x t IH]; [reflexivity |].
  simpl List.length. rewrite <- cons_seq, <- seq_shift. simpl map.
  rewrite map_map. simpl. now rewrite IH.
Qed.

Lemma removelast_by_index {A : Type} (l : list A) (k : nat) (d : A) :
  List.length l = S k -> removelast l = map (fun i => nth i l d) (seq 0 k).
Proof.
  intros Hlen. destruct (exists_last (l := l)) as (l' & x & ->).
  { intros ->. discriminate. }
  rewrite removelast_last. rewrite length_app in Hlen. simpl in Hlen.
  assert (Hk : k = List.length l') by lia. subst k.
  rewrite <- (nth_seq_self l' d) at 1. apply map_ext_in.
  intros i Hi. apply in_seq in Hi. now rewrite app_nth1 by lia.
Qed.

Lemma removelast_map {A B : Type} (f : A -> B) (l : list A) :
  removelast (map f l) = map f (removelast l).
Proof.
  induction l as [| x [| y t] IH]; try reflexivity.
  change (f x :: removelast (map f (y :: t)) = f x :: map f (removelast (y :: t))).
  now rewrite IH.
Qed.

Lemma length_percent_line (labels : list value) (line : list Z) :
  List.length line = List.length labels ->
  List.length (percent_line labels line) = List.length labels.
Proof.
  intros Hlen. unfold percent_line.
  destruct (0 <? _)%Z; [now apply length_map2 | apply length_map].
Qed.

(** Column [j] of the column-percentage view is the percentage line of
    column [j] of the table. *)
Lemma column_percentages_col (t : frame Z) (j : nat) :
  List.length (values t) = List.length (index t) ->
  j < List.length (columns t) ->
  fcol j (values (column_percentages_of t)) = percent_line (index t) (col j (values t)).
Proof.
  intros Hrows Hj. unfold column_percentages_of, fcol. cbn [values].
  rewrite map_map.
  set (pcols := map (fun j0 => percent_line (index t) (col j0 (values t)))
                    (seq 0 (List.length (columns t)))).
  assert (Hpc : nth j pcols [] = percent_line (index t) (col j (values t))).
  { unfold pcols. rewrite (nth_map_in _ _ _ 0 []) by now rewrite length_seq.
    now rewrite seq_nth. }
  assert (Hlen : List.length (percent_line (index t) (col j (values t)))
                 = List.length (index t)).
  { apply length_percent_line. unfold col. now rewrite length_map. }
  rewrite <- Hlen. rewrite <- (nth_seq_self (percent_line _ _) NaN) at 2.
  apply map_ext. intros i.
  rewrite (nth_map_in _ _ _ [] NaN) by (unfold pcols; now rewrite length_map, length_seq).
  now rewrite Hpc.
Qed.

(** In the column-percentage view of [create_crosstab], every column whose
    margin total (its cell in the 'All' row) is positive has its cells
    outside the 'All' row adding up to 100, and every column whose margin
    total is zero is 0.0 in all its cells. *)
Theorem create_crosstab_column_percentages :
  forall (stats : Scipy) (data : DataFrame) (row_var col_var : string)
         (include_statistics : bool) (res : CrosstabResult),
    create_crosstab stats data row_var col_var true include_statistics = Ok res ->
    exists cp,
      column_percentages res = Some cp /\
      index cp = index (table res) /\ columns cp = columns (table res) /\
      forall j, j < List.length (columns cp) ->
        if (0 <? nth j (last (values (table res)) []) 0)%Z
        then close_to (1 / 1000000)
               (fsum (non_margin (index cp) (fcol j (values cp)))) 100
        else Forall (eq (Fin 0)) (fcol j (values cp)).
Proof.
  intros stats data row_var col_var st res H.
  apply create_crosstab_inv in H.
  destruct H as (r & c & t & _ & _ & _ & _ & Hct & Hip & Ht & _ & Hcp & _).
  cbn [andb] in Hip.
  destruct (crosstab_margins _ _ _ Hct Hip) as [Hlast Hm].
  rewrite Ht in *. clear Ht Hct Hip.
  exists (column_percentages_of t). split; [exact Hcp |].
  split; [reflexivity | split; [reflexivity |]].
  intros j Hj.
  change (columns (column_percentages_of t)) with (columns t) in Hj.
  change (index (column_percentages_of t)) with (index t).
  destruct Hlast as (rcats & ccats & Hidx & _ & Hno & _ & Hrows & _).
  destruct Hm as (_ & Hcols & _).
  rewrite (column_percentages_col t j Hrows Hj), (Hcols j Hj).
  assert (Hnm : non_margin (index t) (col j (values t))
                = col j (removelast (values t))).
  { rewrite Hidx. rewrite non_margin_removelast.
    - unfold col. apply removelast_map.
    - exact Hno.
    - unfold col. rewrite length_map, Hrows, Hidx. reflexivity. }
  rewrite <- Hnm.
  destruct (Z.ltb_spec 0 (zsum (non_margin (index t) (col j (values t)))))
    as [Hpos | Hle].
  - rewrite (percent_line_positive _ _ Hpos). simpl.
    replace (100 - 100)%R with 0%R by ring. rewrite Rabs_R0. lra.
  - rewrite (percent_line_zero _ _ Hle). apply Forall_forall.
    intros x Hx. apply in_map_iff in Hx. now destruct Hx as (_ & <- & _).
Qed.

Lemma create_crosstab_column_percentages_witness :
  empty survey = false /\
  forall stats : Scipy,
  exists res cp,
    create_crosstab stats survey "gender" "satisfaction" true false = Ok res /\
    last (values (table res)) [] = [2; 1; 1; 4]%Z /\
    column_percentages res = Some cp /\
    forall j, j < List.length (columns cp) ->
      if (0 <? nth j (last (values (table res)) []) 0)%Z
      then close_to (1 / 1000000)
             (fsum (non_margin (index cp) (fcol j (values cp)))) 100
      else Forall (eq (Fin 0)) (fcol j (values cp)).
Proof.
  split; [reflexivity |].
  intros stats.
  destruct (create_crosstab stats survey "gender" "satisfaction" true false)
    as [res |] eqn:Hrun; [| discriminate Hrun].
  destruct (create_crosstab_column_percentages stats survey "gender" "satisfaction"
              false res Hrun) as (cp & Hcp & _ & _ & Hcols).
  exists res, cp. repeat split; trivial.
  now injection Hrun as <-.
Defined.

Lemma fgrand_total_percent (total : Z) (m : list (list Z)) :
  total <> 0%Z -> grand_total m = total ->
  fgrand_total
    (map (map (fun c => fmul (fdiv (of_int c) (of_int total)) (Fin 100))) m)
  = Fin 100.
Proof.
  intros Hne Hsum. unfold fgrand_total. rewrite map_map.
  assert (Hrows :
            map (fun row =>
                   fsum (map (fun c => fmul (fdiv (of_int c) (of_int total)) (Fin 100)) row))
                m
            = map Fin (map (fun z => IZR z / IZR total * 100)%R (map zsum m))).
  { rewrite !map_map. apply map_ext. intros row.
    rewrite percent_cells_finite by exact Hne.
    now rewrite fsum_fin, rsum_percent, rsum_map_IZR. }
  rewrite Hrows, fsum_fin, rsum_percent, rsum_map_IZR.
  fold (zsum (map zsum m)). fold (grand_total m). rewrite Hsum.
  f_equal. field. now apply not_0_IZR.
Qed.

(** The cells of the total-percentage view that are in neither margin. *)
Lemma total_percentages_body (t : frame Z) (k kc : nat) :
  List.length (index t) = S k -> List.length (columns t) = S kc ->
  List.length (values t) = S k -> rectangular (S kc) (values t) ->
  (0 < grand_total (values (iloc_drop_last t)))%Z ->
  values (iloc_drop_last (total_percentages_of t))
  = map (map (fun c =>
                fmul (fdiv (of_int c) (of_int (grand_total (values (iloc_drop_last t)))))
                     (Fin 100)))
        (values (iloc_drop_last t)).
Proof.
  intros Hidx Hcol Hrows Hrect Hpos.
  set (total := grand_total (values (iloc_drop_last t))) in *.
  unfold iloc_drop_last at 1. unfold total_percentages_of. cbn [values index columns].
  fold total. rewrite Hidx, Hcol.
  destruct (Z.ltb_spec 0 total) as [_ | Hle]; [| lia].
  rewrite (seq_S k 0), map_app. cbn [map]. rewrite removelast_last, map_map.
  unfold iloc_drop_last. cbn [values].
  rewrite (removelast_by_index (values t) k [] Hrows), !map_map.
  apply map_ext_in. intros i Hi. apply in_seq in Hi.
  assert (Hrow : List.length (nth i (values t) []) = S kc).
  { unfold rectangular in Hrect. rewrite Forall_forall in Hrect.
    apply Hrect, nth_In. lia. }
  rewrite (seq_S kc 0), map_app. cbn [map]. rewrite removelast_last.
  rewrite (removelast_by_index (nth i (values t) []) kc 0%Z Hrow), map_map.
  apply map_ext_in. intros j Hj. apply in_seq in Hj.
  replace (Nat.eqb i (S k - 1)) with false; [reflexivity |].
  symmetry. apply Nat.eqb_neq. lia.
Qed.

(** In the total-percentage view of [create_crosstab] the bottom-right cell
    is 100.0, and when the grand total is positive the cells in neither
    margin add up to 100. *)
Theorem create_crosstab_total_percentages :
  forall (stats : Scipy) (data : DataFrame) (row_var col_var : string)
         (include_statistics : bool) (res : CrosstabResult),
    create_crosstab stats data row_var col_var true include_statistics = Ok res ->
    exists tp,
      total_percentages res = Some tp /\
      index tp = index (table res) /\ columns tp = columns (table res) /\
      last (last (values tp) []) NaN = Fin 100 /\
      ((0 < last (last (values (table res)) []) 0)%Z ->
       fgrand_total (values (iloc_drop_last tp)) = Fin 100).
Proof.
  intros stats data row_var col_var st res H.
  apply create_crosstab_inv in H.
  destruct H as (r & c & t & _ & _ & _ & _ & Hct & Hip & Ht & _ & _ & Htp & _).
  cbn [andb] in Hip.
  destruct (crosstab_margins _ _ _ Hct Hip) as [Hlast Hm].
  rewrite Ht in *. clear Ht Hct Hip.
  exists (total_percentages_of t). split; [exact Htp |].
  split; [reflexivity | split; [reflexivity |]].
  destruct Hlast as (rcats & ccats & Hidx & Hcol & _ & _ & Hrows & Hrect).
  destruct Hm as (_ & _ & Hgrand).
  assert (Hk : List.length (index t) = S (List.length rcats)).
  { rewrite Hidx, length_app. simpl. lia. }
  assert (Hkc : List.length (columns t) = S (List.length ccats)).
  { rewrite Hcol, length_app. simpl. lia. }
  split.
  - unfold total_percentages_of. cbn [values]. rewrite Hk, Hkc.
    rewrite (seq_S (List.length rcats) 0), map_app. cbn [map]. rewrite last_last.
    rewrite (seq_S (List.length ccats) 0), map_app. cbn [map]. rewrite last_last.
    cbn [Nat.add]. replace (S (List.length rcats) - 1) with (List.length rcats) by lia.
    replace (S (List.length ccats) - 1) with (List.length ccats) by lia.
    now rewrite !Nat.eqb_refl.
  - intros Hpos. rewrite Hgrand in Hpos.
    assert (Hpos' : (0 < grand_total (values (iloc_drop_last t)))%Z) by exact Hpos.
    rewrite Hk in Hrows. rewrite Hkc in Hrect.
    rewrite (total_percentages_body t _ _ Hk Hkc Hrows Hrect Hpos').
    apply fgrand_total_percent; [| reflexivity].
    intros E. rewrite E in Hpos'. lia.
Qed.

Lemma create_crosstab_total_percentages_witness :
  empty survey = false /\
  forall stats : Scipy,
  exists res tp,
    create_crosstab stats survey "gender" "satisfaction" true false = Ok res /\
    last (last (values (table res)) []) 0%Z = 4%Z /\
    total_percentages res = Some tp /\
    last (last (values tp) []) NaN = Fin 100 /\
    fgrand_total (values (iloc_drop_last tp)) = Fin 100.
Proof.
  split; [reflexivity |].
  intros stats.
  destruct (create_crosstab stats survey "gender" "satisfaction" true false)
    as [res |] eqn:Hrun; [| discriminate Hrun].
  destruct (create_crosstab_total_percentages stats survey "gender" "satisfaction"
              false res Hrun) as (tp & Htp & _ & _ & Hcorner & Hsum).
  assert (Hgrand : last (last (values (table res)) []) 0%Z = 4%Z).
  { now injection Hrun as <-. }
  exists res, tp. repeat split; trivial.
  apply Hsum. rewrite Hgrand. reflexivity.
Defined.

(* ------------------------------------------------------------------------- *)
(** ** The categories of the table *)

Lemma value_leb_total (a b : value) : value_leb a b = false -> value_leb b a = true.
Proof.
  destruct a, b; simpl; intros H; try reflexivity; try discriminate.
  - apply Z.leb_gt in H. apply Z.leb_le. lia.
  - destruct (String.leb_total s s0) as [E | E]; congruence.
Qed.

Lemma insert_HdRel (a x : value) (l : list value) :
  HdRel (fun u v => value_leb u v = true) a l -> value_leb a x = true ->
  HdRel (fun u v => value_leb u v = true) a (insert x l).
Proof.
  intros Hl Hax. destruct l as [| y t]; simpl; [now constructor |].
  destruct (value_leb x y); constructor; [exact Hax | now inversion Hl].
Qed.

Lemma insert_ascending (x : value) (l : list value) :
  ascending l -> ascending (insert x l).
Proof.
  unfold ascending. induction 1 as [| a l Hs IH Hhd]; simpl.
  - repeat constructor.
  - destruct (value_leb x a) eqn:E.
    + constructor; [now constructor | now constructor].
    + constructor; [exact IH |]. apply insert_HdRel; [exact Hhd |].
      now apply value_leb_total.
Qed.

Lemma sort_ascending (l : list value) : ascending (sort l).
Proof.
  induction l as [| x t IH]; simpl; [constructor | now apply insert_ascending].
Qed.

(** The labels of the table of [create_crosstab].  The categories of each
    variable are the values it takes on the rows where neither variable is
    missing, in ascending order and without repetition.  When some row holds
    both values, the table is labelled on each axis by the categories
    followed by 'All'.  When no row does, a result exists only without
    percentages: there are no categories, and the table has no label at
    all, not even 'All'. *)
Theorem create_crosstab_categories :
  forall (stats : Scipy) (data : DataFrame) (row_var col_var : string)
         (include_percentages include_statistics : bool) (res : CrosstabResult),
    create_crosstab stats data row_var col_var include_percentages include_statistics
    = Ok res ->
    exists r c rcats ccats,
      get_column data row_var = Ok r /\ get_column data col_var = Ok c /\
      NoDup rcats /\ NoDup ccats /\ ascending rcats /\ ascending ccats /\
      (forall v, In v rcats <-> exists w, In (v, w) (valid_pairs r c)) /\
      (forall w, In w ccats <-> exists v, In (v, w) (valid_pairs r c)) /\
      if no_complete_row r c
      then index (table res) = [] /\ columns (table res) = [] /\
           include_percentages = false
      else index (table res) = rcats ++ [All] /\ columns (table res) = ccats ++ [All].
Proof.
  intros stats data row_var col_var ip st res H.
  apply create_crosstab_inv in H.
  destruct H as (r & c & t & _ & Hr & Hc & _ & Ht & Hip & -> & _).
  exists r, c, (sort (unique (map fst (valid_pairs r c)))),
         (sort (unique (map snd (valid_pairs r c)))).
  split; [exact Hr | split; [exact Hc |]].
  split; [apply categories_NoDup | split; [apply categories_NoDup |]].
  split; [apply sort_ascending | split; [apply sort_ascending |]].
  split; [| split].
  - intros v. split.
    + intros Hv. apply sort_in, unique_in, in_map_iff in Hv.
      destruct Hv as ([v' w] & <- & Hp). now exists w.
    + intros [w Hp]. apply sort_in, unique_in, in_map_iff. now exists (v, w).
  - intros w. split.
    + intros Hw. apply sort_in, unique_in, in_map_iff in Hw.
      destruct Hw as ([v w'] & <- & Hp). now exists v.
    + intros [v Hp]. apply sort_in, unique_in, in_map_iff. now exists (v, w).
  - destruct (no_complete_row r c) eqn:Hsome.
    + rewrite (crosstab_empty _ _ Hsome) in Ht. injection Ht as <-.
      rewrite andb_true_r in Hip. now repeat split.
    + pose proof (crosstab_margins_inv _ _ _ Ht Hsome) as Hinv. cbv zeta in Hinv.
      destruct Hinv as (_ & _ & ->). split; reflexivity.
Qed.

Lemma create_crosstab_categories_witness :
  empty survey = false /\
  no_complete_row [VStr "Male"; VStr "Female"; VStr "Male"; VStr "Female"]
                  [VStr "High"; VStr "Medium"; VStr "Low"; VStr "High"] = false /\
  forall stats : Scipy,
  exists res rcats ccats,
    create_crosstab stats survey "gender" "satisfaction" false false = Ok res /\
    index (table res) = rcats ++ [All] /\ columns (table res) = ccats ++ [All] /\
    NoDup rcats /\ NoDup ccats /\ ascending rcats /\ ascending ccats.
Proof.
  split; [reflexivity | split; [reflexivity |]].
  intros stats.
  destruct (create_crosstab stats survey "gender" "satisfaction" false false)
    as [res |] eqn:Hrun; [| discriminate Hrun].
  destruct (create_crosstab_categories stats survey "gender" "satisfaction"
              false false res Hrun)
    as (r & c & rcats & ccats & Hr & Hc & Hn1 & Hn2 & Ha1 & Ha2 & _ & _ & Hlab).
  injection Hr as <-. injection Hc as <-.
  change (index (table res) = rcats ++ [All] /\ columns (table res) = ccats ++ [All])
    in Hlab.
  destruct Hlab as [Hi Hco].
  exists res, rcats, ccats. now repeat split.
Defined.

(* ------------------------------------------------------------------------- *)
(** ** The two switches of [create_crosstab] *)



(* ------------------------------------------------------------------------- *)
(** ** Cramer's V: guarded in [create_crosstab], unguarded in the test *)

(** In the statistics of [create_crosstab] Cramer's V never comes from a
    division by zero: for a finite, non-negative chi-square statistic it is
    a finite, non-negative number. *)
Theorem create_crosstab_cramers_v_finite :
  forall (stats : Scipy) (data : DataFrame) (row_var col_var : string)
         (include_percentages : bool) (res : CrosstabResult),
    create_crosstab stats data row_var col_var include_percentages true = Ok res ->
    exists s,
      statistics res = Some s /\
      forall x, chi_square s = Fin x -> (0 <= x)%R ->
        exists v, cramers_v s = Fin v /\ (0 <= v)%R.
Proof.
  intros stats data row_var col_var ip res H.
  apply create_crosstab_inv in H.
  destruct H as (r & c & t & _ & _ & _ & _ & _ & _ & _ & _ & _ & _ & s & Hs & Hst).
  exists s. split; [exact Hst |]. intros x Hx Hpos.
  unfold chi_square_statistics in Hs.
  destruct (_ || _)%bool.
  - injection Hs as <-. exists 0%R. split; [reflexivity | lra].
  - destruct (chi2_contingency stats _) as [[[[chi2 p] dof] expected] |];
      cbn [bind] in Hs; [| discriminate].
    cbv zeta in Hs. injection Hs as <-. cbn [chi_square] in Hx. subst chi2.
    cbn [cramers_v].
    match goal with
    | |- context [((0 <? ?a)%Z && (0 <? ?b)%Z)%bool] => set (n := a); set (md := b)
    end.
    destruct (Z.ltb_spec 0 n) as [Hn | _];
      [| exists 0%R; split; [reflexivity | lra]].
    destruct (Z.ltb_spec 0 md) as [Hmd | _];
      [| exists 0%R; split; [reflexivity | lra]].
    cbn [andb].
    assert (Hnm : (0 < IZR (n * md))%R) by (apply IZR_lt; nia).
    unfold of_int. rewrite fdiv_fin by lra.
    assert (Hq : (0 <= x / IZR (n * md))%R).
    { unfold Rdiv. apply Rmult_le_pos; [exact Hpos |].
      left. now apply Rinv_0_lt_compat. }
    exists (sqrt (x / IZR (n * md))). split; [| apply sqrt_pos].
    unfold fsqrt. destruct (Rlt_dec _ 0) as [L | _]; [lra | reflexivity].
Qed.

Lemma create_crosstab_cramers_v_finite_witness :
  empty single_value_df = false /\
  forall stats : Scipy,
  exists res s,
    create_crosstab stats single_value_df "gender" "satisfaction" false true = Ok res /\
    statistics res = Some s /\
    chi_square s = Fin 0 /\
    exists v, cramers_v s = Fin v /\ (0 <= v)%R.
Proof.
  split; [reflexivity |].
  intros stats.
  destruct (create_crosstab stats single_value_df "gender" "satisfaction" false true)
    as [res |] eqn:Hrun; [| discriminate Hrun].
  destruct (create_crosstab_cramers_v_finite stats single_value_df
              "gender" "satisfaction" false res Hrun) as (s & Hs & Hv).
  assert (Hchi : chi_square s = Fin 0).
  { injection Hrun as <-. simpl in Hs. now injection Hs as <-. }
  exists res, s. repeat split; trivial.
  apply (Hv 0%R Hchi). lra.
Defined.

(** The chi-square operation of [perform_statistical_test] has no such
    guard.  On a table with a single row or a single column the divisor
    [n * (min(shape) - 1)] is zero, and the effect size returned is [nan]
    for a statistic of 0 and [inf] for a positive statistic. *)
Theorem chi_square_test_effect_size_unguarded :
  forall (stats : Scipy) (data : DataFrame) (var1 var2 : string)
         (c1 c2 : list value) (t : frame Z) (x : R) (p : f64) (dof : Z)
         (expected : list (list f64)),
    get_column data var1 = Ok c1 ->
    get_column data var2 = Ok c2 ->
    crosstab c1 c2 false = Ok t ->
    Nat.min (fst (shape t)) (snd (shape t)) = 1 ->
    chi2_contingency stats (values t) = Ok (Fin x, p, dof, expected) ->
    exists res,
      perform_statistical_test stats data var1 var2 CHI_SQUARE = Ok res /\
      statistic res = Fin x /\
      sr_degrees_of_freedom res = Some (DofInt dof) /\
      (x = 0%R -> effect_size res = Some NaN) /\
      ((0 < x)%R -> effect_size res = Some PInf).
Proof.
  intros stats data var1 var2 c1 c2 t x p dof expected H1 H2 Ht Hmin Hchi.
  unfold perform_statistical_test. rewrite H1, H2. cbn [bind]. rewrite Ht. cbn [bind].
  rewrite Hchi. cbn [bind]. eexists. split; [reflexivity |].
  cbn [statistic sr_degrees_of_freedom effect_size].
  split; [reflexivity | split; [reflexivity |]].
  unfold _calculate_cramers_v. rewrite Hmin.
  change (Z.of_nat 1 - 1)%Z with 0%Z. rewrite Z.mul_0_r.
  unfold of_int, fdiv. destruct (Req_EM_T 0 0) as [_ | N]; [| contradiction N; reflexivity].
  unfold inf_of_sign. split; intros Hx;
    destruct (total_order_T x 0) as [[L | E] | G]; try lra; reflexivity.
Qed.

Lemma chi_square_test_effect_size_unguarded_witness :
  crosstab [VStr "Male"; VStr "Male"; VStr "Male"; VStr "Male"]
           [VStr "High"; VStr "Medium"; VStr "Low"; VStr "High"] false
  = Ok (mkFrame [VStr "Male"] [VStr "High"; VStr "Low"; VStr "Medium"] [[2; 1; 1]]%Z) /\
  forall stats : Scipy,
  exists res,
    perform_statistical_test (with_chi2 zero_dof_chi2 stats) single_value_df
      "gender" "satisfaction" CHI_SQUARE = Ok res /\
    statistic res = Fin 0 /\
    effect_size res = Some NaN.
Proof.
  split; [reflexivity |].
  intros stats.
  destruct (chi_square_test_effect_size_unguarded
              (with_chi2 zero_dof_chi2 stats) single_value_df "gender" "satisfaction"
              [VStr "Male"; VStr "Male"; VStr "Male"; VStr "Male"]
              [VStr "High"; VStr "Medium"; VStr "Low"; VStr "High"]
              (mkFrame [VStr "Male"] [VStr "High"; VStr "Low"; VStr "Medium"] [[2; 1; 1]]%Z)
              0%R (Fin 1) 0%Z [[of_int 2; of_int 1; of_int 1]]
              eq_refl eq_refl eq_refl eq_refl eq_refl)
    as (res & Hrun & Hstat & _ & Hnan & _).
  exists res. repeat split; trivial. now apply Hnan.
Defined.

(* ------------------------------------------------------------------------- *)
(** ** [perform_statistical_test]: missing columns and ANOVA *)

Lemma get_column_missing (data : DataFrame) (name : string) :
  has_column data name = false -> get_column data name = Raise (KeyError name).
Proof.
  unfold has_column, columns_of.
  induction data as [| [n c] t IH]; simpl; [reflexivity |].
  rewrite (String.eqb_sym name n).
  destruct (String.eqb n name); simpl; [discriminate | exact IH].
Qed.

(** [perform_statistical_test] does not validate its variables.  For each of
    the four tests a first variable that is not a column of the dataset is a
    [KeyError] on that name, not a [ValueError].  With the first variable
    present and the second one missing, chi-square and Fisher raise
    [KeyError] on the second name; the t-test and ANOVA count the groups of
    the first variable before they look at the second, so the group-count
    [ValueError] comes first and the [KeyError] only when the count is
    accepted. *)
Theorem perform_statistical_test_missing_column :
  forall (stats : Scipy) (data : DataFrame) (var1 var2 : string) (test : StatisticType),
    (match test with Unsupported _ => False | _ => True end) ->
    (has_column data var1 = false ->
     perform_statistical_test stats data var1 var2 test = Raise (KeyError var1)) /\
    (forall c1,
        get_column data var1 = Ok c1 -> has_column data var2 = false ->
        perform_statistical_test stats data var1 var2 test =
        match test with
        | T_TEST =>
            if Nat.eqb (List.length (unique c1)) 2 then Raise (KeyError var2)
            else Raise (ValueError "T-test requires exactly 2 groups")
        | ANOVA =>
            if Nat.ltb (List.length (unique c1)) 2
            then Raise (ValueError "ANOVA requires at least 2 groups")
            else Raise (KeyError var2)
        | _ => Raise (KeyError var2)
        end).
Proof.
  intros stats data var1 var2 test Hsupported. split.
  - intros Hmiss. apply get_column_missing in Hmiss.
    destruct test; try contradiction;
      unfold perform_statistical_test; rewrite Hmiss; reflexivity.
  - intros c1 H1 Hmiss. apply get_column_missing in Hmiss.
    destruct test; try contradiction;
      unfold perform_statistical_test; rewrite H1, Hmiss; cbn [bind]; try reflexivity.
    now destruct (Nat.eqb (List.length (unique c1)) 2).
Qed.

Lemma perform_statistical_test_missing_column_witness :
  has_column age_df "region" = false /\
  (forall stats : Scipy,
      perform_statistical_test stats age_df "region" "income" ANOVA
      = Raise (KeyError "region")) /\
  (forall stats : Scipy,
      perform_statistical_test stats age_df "gender" "region" T_TEST
      = Raise (KeyError "region")) /\
  (forall stats : Scipy,
      perform_statistical_test stats age_df "age_group" "region" T_TEST
      = Raise (ValueError "T-test requires exactly 2 groups")).
Proof.
  split; [reflexivity | split; [| split]]; intros stats.
  - apply (perform_statistical_test_missing_column stats age_df "region" "income" ANOVA I).
    reflexivity.
  - apply (proj2 (perform_statistical_test_missing_column
                    stats age_df "gender" "region" T_TEST I)
                 [VStr "M"; VStr "M"; VStr "F"; VStr "F"]); reflexivity.
  - apply (proj2 (perform_statistical_test_missing_column
                    stats age_df "age_group" "region" T_TEST I)
                 [VStr "18-24"; VStr "25-34"; VStr "18-24"; VStr "35-44"]); reflexivity.
Defined.

(** The ANOVA operation raises [ValueError] when the first variable has
    fewer than two distinct values.  When it returns, the groups are the
    second variable's values under each distinct value of the first, in
    order of first appearance; the degrees of freedom are the pair
    (groups - 1, rows of the dataset - groups), the rows counted with their
    missing values; and the effect size is the between-groups sum of squares
    over the total sum of squares. *)
Theorem anova_groups_and_degrees_of_freedom :
  forall (stats : Scipy) (data : DataFrame) (var1 var2 : string) (c1 : list value),
    get_column data var1 = Ok c1 ->
    let run := perform_statistical_test stats data var1 var2 ANOVA in
    let k := List.length (unique c1) in
    (k < 2 -> run = Raise (ValueError "ANOVA requires at least 2 groups")) /\
    (forall res, run = Ok res ->
       2 <= k /\
       test_type res = ANOVA /\
       sr_degrees_of_freedom res
       = Some (DofPair (Z.of_nat k - 1) (Z.of_nat (n_rows data) - Z.of_nat k)) /\
       exists c2 group_data all,
         get_column data var2 = Ok c2 /\
         Forall2 (fun g x => to_floats (group_values c1 c2 g) = Ok x)
                 (unique c1) group_data /\
         to_floats c2 = Ok all /\
         effect_size res =
         Some (fdiv
                 (fsum (map (fun g =>
                               fmul (of_int (Z.of_nat (List.length g)))
                                    (fmul (fsub (mean g) (mean all))
                                          (fsub (mean g) (mean all))))
                            group_data))
                 (fsum (map (fun x => fmul (fsub x (mean all)) (fsub x (mean all)))
                            all)))).
Proof.
  intros stats data var1 var2 c1 H1 run k.
  unfold run, perform_statistical_test. rewrite H1. cbn [bind]. fold k.
  split.
  - intros Hk. destruct (Nat.ltb_spec k 2) as [_ | Hge]; [reflexivity | lia].
  - intros res. destruct (Nat.ltb_spec k 2) as [Hlt | Hge]; [discriminate |].
    destruct (get_column data var2) as [c2 |] eqn:E2; cbn [bind]; [| discriminate].
    set (each := fix each (gs : list value) : result (list (list f64)) :=
                   match gs with
                   | [] => Ok []
                   | g :: rest =>
                       x <- to_floats (group_values c1 c2 g) ;;
                       xs <- each rest ;; Ok (x :: xs)
                   end).
    assert (Heach : forall gs gd, each gs = Ok gd ->
               Forall2 (fun g x => to_floats (group_values c1 c2 g) = Ok x) gs gd).
    { induction gs as [| g rest IH]; intros gd Hgd; simpl in Hgd.
      - injection Hgd as <-. constructor.
      - destruct (to_floats (group_values c1 c2 g)) as [x |] eqn:Ex;
          cbn [bind] in Hgd; [| discriminate].
        destruct (each rest) as [xs |]; cbn [bind] in Hgd; [| discriminate].
        injection Hgd as <-. constructor; [exact Ex | now apply IH]. }
    destruct (each (unique c1)) as [group_data |] eqn:Egd; cbn [bind]; [| discriminate].
    destruct (f_oneway stats group_data) as [[f_stat p] |]; cbn [bind]; [| discriminate].
    destruct (to_floats c2) as [all |] eqn:Eall; cbn [bind]; [| discriminate].
    intros H. injection H as <-.
    cbn [test_type sr_degrees_of_freedom effect_size].
    repeat split; trivial.
    exists c2, group_data, all. repeat split; trivial. now apply Heach.
Qed.

Lemma anova_groups_and_degrees_of_freedom_witness :
  get_column single_value_df "gender"
  = Ok [VStr "Male"; VStr "Male"; VStr "Male"; VStr "Male"] /\
  unique [VStr "Male"; VStr "Male"; VStr "Male"; VStr "Male"] = [VStr "Male"] /\
  forall stats : Scipy,
    perform_statistical_test stats single_value_df "gender" "satisfaction" ANOVA
    = Raise (ValueError "ANOVA requires at least 2 groups").
Proof.
  split; [reflexivity | split; [reflexivity |]].
  intros stats.
  apply (anova_groups_and_degrees_of_freedom stats single_value_df
           "gender" "satisfaction"
           [VStr "Male"; VStr "Male"; VStr "Male"; VStr "Male"] eq_refl).
  simpl. lia.
Defined.

(* ------------------------------------------------------------------------- *)
(** ** Banner tables: empty requests and lookups *)

Lemma list_prod_nil_r {A B : Type} (l : list A) : list_prod l (@nil B) = [].
Proof. induction l as [| x t IH]; simpl; [reflexivity | exact IH]. Qed.

(** A banner request without pairs, because one of the two lists is empty,
    returns the empty dict from both entry points.  Nothing is validated on
    the way: this holds for every dataset, the empty one included, on which
    a single [create_crosstab] raises. *)
Theorem banner_without_pairs :
  forall (stats : Scipy) (data : DataFrame)
         (A : Type) (generate : string -> string -> bool -> bool -> result A)
         (row_vars col_vars : list string) (ip st : bool),
    row_vars = [] \/ col_vars = [] ->
    create_banner_table stats data row_vars col_vars ip st = Ok [] /\
    BannerTableGenerator.generate_banner generate row_vars col_vars ip st = Ok [].
Proof.
  intros stats data A generate row_vars col_vars ip st Hempty.
  unfold create_banner_table, BannerTableGenerator.generate_banner, banner_loop.
  rewrite !for_row_vars_pairs.
  assert (Hnil : list_prod row_vars col_vars = []).
  { destruct Hempty as [-> | ->]; [reflexivity | apply list_prod_nil_r]. }
  rewrite Hnil. split; reflexivity.
Qed.

Lemma banner_without_pairs_witness :
  empty [] = true /\
  forall stats : Scipy,
    create_crosstab stats [] "gender" "satisfaction" true true
    = Raise (ValueError "DataFrame is empty") /\
    create_banner_table stats [] ["gender"; "age"] [] true true = Ok [].
Proof.
  split; [reflexivity |].
  intros stats. split; [reflexivity |].
  apply (banner_without_pairs stats [] CrosstabResult
           (fun r c ip st => create_crosstab stats [] r c ip st)
           ["gender"; "age"] [] true true).
  now right.
Defined.

Lemma dict_get_set_same {A : Type} (k : string) (v : A) (d : dict A) :
  dict_get k (dict_set k v d) = Some v.
Proof.
  induction d as [| [k' v'] t IH]; simpl.
  - now rewrite String.eqb_refl.
  - destruct (String.eqb k' k) eqn:E; simpl; rewrite E; [reflexivity | exact IH].
Qed.

Lemma dict_get_set_other {A : Type} (k k' : string) (v : A) (d : dict A) :
  k' <> k -> dict_get k' (dict_set k v d) = dict_get k' d.
Proof.
  intros Hne. induction d as [| [k0 v0] t IH]; simpl.
  - destruct (String.eqb k k') eqn:E; [| reflexivity].
    apply String.eqb_eq in E. congruence.
  - destruct (String.eqb k0 k) eqn:E; simpl.
    + apply String.eqb_eq in E. subst k0.
      destruct (String.eqb k k') eqn:E'; [| reflexivity].
      apply String.eqb_eq in E'. congruence.
    + now rewrite IH.
Qed.

Section BannerLookup.

Context {A : Type}.
Variable key_of : string -> string -> string.
Variable compute : string -> string -> result A.

Let from_pair (pairs : list (string * string)) (k : string) (v : A) : Prop :=
  exists r c, In (r, c) pairs /\ key_of r c = k /\ compute r c = Ok v.

Lemma for_pairs_lookup (pairs : list (string * string)) (d0 d : dict A) :
  for_pairs key_of compute pairs d0 = Ok d ->
  (forall k v, dict_get k d0 = Some v ->
     exists v', dict_get k d = Some v' /\ (v' = v \/ from_pair pairs k v')) /\
  (forall r c, In (r, c) pairs ->
     exists v, dict_get (key_of r c) d = Some v /\ from_pair pairs (key_of r c) v) /\
  (forall k v, dict_get k d = Some v -> dict_get k d0 = Some v \/ from_pair pairs k v).
Proof.
  revert d0. induction pairs as [| [r0 c0] t IH]; intros d0 H; simpl in H.
  - injection H as <-. repeat split.
    + intros k v Hk. exists v. auto.
    + intros r c [].
    + intros k v Hk. now left.
  - destruct (compute r0 c0) as [v0 |] eqn:E0; cbn [bind] in H; [| discriminate].
    destruct (IH _ H) as (P1 & P2 & P3). clear IH.
    assert (Hlift : forall k v, from_pair t k v -> from_pair ((r0, c0) :: t) k v).
    { intros k v (r & c & Hin & Hk & Hv). exists r, c. repeat split; trivial. now right. }
    assert (Hhead : from_pair ((r0, c0) :: t) (key_of r0 c0) v0).
    { exists r0, c0. repeat split; trivial. now left. }
    assert (Hkey0 : exists v, dict_get (key_of r0 c0) d = Some v /\
                              from_pair ((r0, c0) :: t) (key_of r0 c0) v).
    { destruct (P1 (key_of r0 c0) v0 (dict_get_set_same _ _ _)) as (v' & Hv' & [-> | Hf]).
      - now exists v0.
      - exists v'. split; [exact Hv' | now apply Hlift]. }
    repeat split.
    + intros k v Hk. destruct (string_dec k (key_of r0 c0)) as [-> | Hne].
      * destruct Hkey0 as (v' & Hv' & Hf). exists v'. auto.
      * rewrite <- (dict_get_set_other (key_of r0 c0) k v0 d0 Hne) in Hk.
        destruct (P1 k v Hk) as (v' & Hv' & [-> | Hf]).
        -- exists v. auto.
        -- exists v'. split; [exact Hv' | right; now apply Hlift].
    + intros r c [Heq | Hin].
      * injection Heq as <- <-. exact Hkey0.
      * destruct (P2 r c Hin) as (v & Hv & Hf). exists v. split; [exact Hv | now apply Hlift].
    + intros k v Hk. destruct (P3 k v Hk) as [Hd1 | Hf]; [| right; now apply Hlift].
      destruct (string_dec k (key_of r0 c0)) as [-> | Hne].
      * rewrite dict_get_set_same in Hd1. injection Hd1 as <-. now right.
      * rewrite (dict_get_set_other _ _ _ _ Hne) in Hd1. now left.
Qed.

End BannerLookup.

(** Looking a pair up in a banner.  When [create_banner_table] returns a
    dict, the key of every requested pair is bound in it, and every binding
    of the dict is the crosstab of a requested pair that has this key. *)
Theorem create_banner_table_lookup :
  forall (stats : Scipy) (data : DataFrame) (row_vars col_vars : list string)
         (ip st : bool) (d : dict CrosstabResult),
    create_banner_table stats data row_vars col_vars ip st = Ok d ->
    let key r c := (r ++ " x " ++ c)%string in
    let of_pair k v :=
      exists r c, In (r, c) (list_prod row_vars col_vars) /\ key r c = k /\
                  create_crosstab stats data r c ip st = Ok v in
    (forall r c, In r row_vars -> In c col_vars ->
       exists v, dict_get (key r c) d = Some v /\ of_pair (key r c) v) /\
    (forall k v, dict_get k d = Some v -> of_pair k v).
Proof.
  intros stats data row_vars col_vars ip st d H key of_pair.
  unfold create_banner_table, banner_loop in H. rewrite for_row_vars_pairs in H.
  apply for_pairs_lookup in H. destruct H as (_ & P2 & P3). split.
  - intros r c Hr Hc. apply P2. now apply in_prod.
  - intros k v Hk. destruct (P3 k v Hk) as [Hnil | Hf]; [discriminate Hnil | exact Hf].
Qed.

Lemma create_banner_table_lookup_witness :
  empty survey = false /\
  forall stats : Scipy,
  exists d v,
    create_banner_table stats survey ["gender"] ["satisfaction"; "gender"] true false
    = Ok d /\
    dict_get "gender x satisfaction" d = Some v /\
    exists r c,
      In (r, c) (list_prod ["gender"] ["satisfaction"; "gender"]) /\
      (r ++ " x " ++ c)%string = "gender x satisfaction" /\
      create_crosstab stats survey r c true false = Ok v.
Proof.
  split; [reflexivity |].
  intros stats.
  destruct (create_banner_table stats survey ["gender"] ["satisfaction"; "gender"]
              true false) as [d |] eqn:Hrun; [| discriminate Hrun].
  destruct (create_banner_table_lookup stats survey ["gender"]
              ["satisfaction"; "gender"] true false d Hrun) as [Hget _].
  destruct (Hget "gender" "satisfaction") as (v & Hv & Hof).
  { now left. }
  { now left. }
  exists d, v. split; [reflexivity | split; [exact Hv | exact Hof]].
Defined.

(* ------------------------------------------------------------------------- *)
(** ** Expected values: margins, and the table of zeros *)

Lemma expected_col_sum (c total : Z) (row_totals : list Z) :
  total <> 0%Z -> zsum row_totals = total ->
  fsum (map (fun r => fdiv (of_int (r * c)) (of_int total)) row_totals) = of_int c.
Proof.
  intros Ht Hsum.
  rewrite (map_ext _ (fun r => fdiv (of_int (c * r)) (of_int total)));
    [now apply expected_row_sum |].
  intros r. now rewrite Z.mul_comm.
Qed.

(** For a table of counts with a non-zero grand total, whose totals and
    their products stay within int64, the matrix of
    [_calculate_expected_values] has the margins of the table: each of its
    rows adds up to the total of that row of the table, each of its columns
    to the total of that column. *)
Theorem expected_values_keep_margins :
  forall table : frame Z,
    rectangular (List.length (columns table)) (values table) ->
    no_overflow table ->
    grand_total (values table) <> 0%Z ->
    let expected := values (_calculate_expected_values table) in
    (forall i, i < List.length (values table) ->
       fsum (nth i expected []) = of_int (zsum (nth i (values table) []))) /\
    (forall j, j < List.length (columns table) ->
       fsum (fcol j expected) = of_int (zsum (col j (values table)))).
Proof.
  intros table Hrect Hrange Htot expected.
  unfold expected. rewrite (expected_values_in_range table Hrect Hrange).
  set (total := grand_total (values table)) in *.
  set (cts := map (fun j => zsum (col j (values table)))
                  (seq 0 (List.length (columns table)))).
  assert (Hcts : zsum cts = total) by now apply col_totals_sum.
  split.
  - intros i Hi.
    rewrite (nth_map_in _ _ _ 0%Z []) by now rewrite length_map.
    rewrite (nth_map_in zsum _ _ [] 0%Z) by exact Hi.
    now apply expected_row_sum.
  - intros j Hj. unfold fcol. rewrite map_map.
    assert (Hcell : forall r,
               nth j (map (fun c => fdiv (of_int (r * c)) (of_int total)) cts) NaN
               = fdiv (of_int (r * zsum (col j (values table)))) (of_int total)).
    { intros r.
      rewrite (nth_map_in _ _ _ 0%Z NaN) by (unfold cts; now rewrite length_map, length_seq).
      unfold cts. rewrite (nth_map_in _ _ _ 0 0%Z) by now rewrite length_seq.
      now rewrite seq_nth. }
    rewrite (map_ext _ _ Hcell). now apply expected_col_sum.
Qed.

Lemma expected_values_keep_margins_witness :
  let observed := iloc_drop_last survey_table in
  values observed = [[1; 0; 1]; [1; 1; 0]]%Z /\
  fsum (nth 1 (values (_calculate_expected_values observed)) []) = of_int 2 /\
  fsum (fcol 0 (values (_calculate_expected_values observed))) = of_int 2.
Proof.
  intros observed.
  assert (Hrect : rectangular (List.length (columns observed)) (values observed)).
  { repeat constructor. }
  assert (Hrange : no_overflow observed).
  { unfold no_overflow, int64. cbn. repeat split; repeat constructor; discriminate. }
  assert (Htot : grand_total (values observed) <> 0%Z).
  { discriminate. }
  destruct (expected_values_keep_margins observed Hrect Hrange Htot) as [Hrow Hcol].
  split; [reflexivity | split].
  - apply (Hrow 1). simpl. lia.
  - apply (Hcol 0). simpl. lia.
Defined.

Lemma zsum_nonneg (l : list Z) : Forall (fun z => (0 <= z)%Z) l -> (0 <= zsum l)%Z.
Proof. induction 1 as [| z t Hz _ IH]; simpl; lia. Qed.

Lemma zsum_zero_all (l : list Z) :
  Forall (fun z => (0 <= z)%Z) l -> zsum l = 0%Z -> Forall (fun z => z = 0%Z) l.
Proof.
  induction 1 as [| z t Hz Ht IH]; intros Hsum; constructor.
  - pose proof (zsum_nonneg t Ht). change (zsum (z :: t)) with (z + zsum t)%Z in Hsum. lia.
  - apply IH. pose proof (zsum_nonneg t Ht).
    change (zsum (z :: t)) with (z + zsum t)%Z in Hsum. lia.
Qed.

Lemma fdiv_zero_zero : fdiv (of_int 0) (of_int 0) = NaN.
Proof.
  unfold of_int, fdiv, inf_of_sign.
  destruct (Req_EM_T 0 0) as [_ | N]; [| contradiction N; reflexivity].
  destruct (total_order_T 0 0) as [[L | E] | G]; try reflexivity; lra.
Qed.

(** A table of counts whose grand total is zero: no guard, no exception;
    every cell of the matrix of [_calculate_expected_values] is [nan]. *)
Theorem expected_values_of_zero_total :
  forall table : frame Z,
    Forall (Forall (fun z => (0 <= z)%Z)) (values table) ->
    grand_total (values table) = 0%Z ->
    Forall (Forall (eq NaN)) (values (_calculate_expected_values table)) /\
    List.length (values (_calculate_expected_values table)) = List.length (values table).
Proof.
  intros table Hpos Htot.
  unfold _calculate_expected_values. cbn [values].
  split; [| now rewrite !length_map].
  assert (Hrows : Forall (fun r => r = 0%Z) (map zsum (values table))).
  { apply zsum_zero_all; [| exact Htot].
    apply Forall_forall. intros z Hz.
    apply in_map_iff in Hz. destruct Hz as (row & <- & Hrow).
    apply zsum_nonneg. rewrite Forall_forall in Hpos. now apply Hpos. }
  rewrite Forall_forall in Hrows.
  assert (Hcells : forall row, In row (values table) -> forall j, nth j row 0%Z = 0%Z).
  { intros row Hrow j.
    assert (Hz : Forall (fun z => z = 0%Z) row).
    { apply zsum_zero_all.
      - rewrite Forall_forall in Hpos. now apply Hpos.
      - apply Hrows. now apply in_map. }
    destruct (nth_in_or_default j row 0%Z) as [Hin | ->]; [| reflexivity].
    rewrite Forall_forall in Hz. now apply Hz. }
  assert (Hcols : forall j, zsum (col j (values table)) = 0%Z).
  { intros j. unfold col.
    rewrite (map_ext_in _ (fun _ => 0%Z)); [apply zsum_zero |].
    intros row Hrow. now apply Hcells. }
  assert (Hcts : map (fun j => wrap64 (zsum (col j (values table))))
                     (seq 0 (List.length (columns table)))
                 = map (fun _ => 0%Z) (seq 0 (List.length (columns table)))).
  { apply map_ext. intros j. now rewrite Hcols. }
  rewrite Hcts, zsum_zero. change (wrap64 0) with 0%Z.
  apply Forall_forall. intros erow Herow.
  apply in_map_iff in Herow. destruct Herow as (r & <- & Hr).
  apply in_map_iff in Hr. destruct Hr as (row & <- & Hrow).
  rewrite (Hrows (zsum row)) by now apply in_map.
  apply Forall_forall. intros e He.
  apply in_map_iff in He. destruct He as (c & <- & Hc).
  apply in_map_iff in Hc. destruct Hc as (j & <- & _).
  change (wrap64 (wrap64 0 * 0)) with 0%Z.
  symmetry. exact fdiv_zero_zero.
Qed.

Lemma expected_values_of_zero_total_witness :
  let zeros := mkFrame [VStr "a"; VStr "b"] [VStr "x"; VStr "y"] [[0; 0]; [0; 0]]%Z in
  grand_total (values zeros) = 0%Z /\
  Forall (Forall (eq NaN)) (values (_calculate_expected_values zeros)) /\
  List.length (values (_calculate_expected_values zeros)) = 2.
Proof.
  intros zeros. split; [reflexivity |].
  apply (expected_values_of_zero_total zeros).
  - repeat constructor; lia.
  - reflexivity.
Defined.

(* ------------------------------------------------------------------------- *)
(** ** Residuals of a table against its own expected values *)

Lemma Forall_map2 {A B C : Type} (P : A -> Prop) (Q : B -> Prop) (R : C -> Prop)
    (f : A -> B -> C) (l : list A) (l' : list B) :
  (forall x y, P x -> Q y -> R (f x y)) ->
  Forall P l -> Forall Q l' -> Forall R (map2 f l l').
Proof.
  intros Hf Hl. revert l'.
  induction Hl as [| x t Hx _ IH]; intros l' Hl'; simpl; [constructor |].
  destruct Hl' as [| y t' Hy Ht']; constructor; [now apply Hf | now apply IH].
Qed.

(** When no row and no column of a table of counts is empty, and the totals
    and their products stay within int64, the residuals of the table against
    its own [_calculate_expected_values] are all finite: the division by
    zero of [_calculate_residuals] needs an empty row or column, or an
    overflow. *)
Theorem residuals_finite_without_empty_lines :
  forall table : frame Z,
    rectangular (List.length (columns table)) (values table) ->
    no_overflow table ->
    Forall (fun row => (0 < zsum row)%Z) (values table) ->
    (forall j, j < List.length (columns table) -> (0 < zsum (col j (values table)))%Z) ->
    Forall (Forall finite)
           (_calculate_residuals (map (map of_int) (values table))
                                 (values (_calculate_expected_values table))).
Proof.
  intros table Hrect Hrange Hrows Hcols.
  unfold _calculate_residuals. rewrite (expected_values_in_range table Hrect Hrange).
  set (total := grand_total (values table)).
  set (cts := map (fun j => zsum (col j (values table)))
                  (seq 0 (List.length (columns table)))).
  assert (Hcts : Forall (fun c => (0 < c)%Z) cts).
  { apply Forall_forall. intros c Hc. apply in_map_iff in Hc.
    destruct Hc as (j & <- & Hj). apply in_seq in Hj. apply Hcols. lia. }
  assert (Hrts : Forall (fun r => (0 < r)%Z) (map zsum (values table))).
  { apply Forall_forall. intros r Hr. apply in_map_iff in Hr.
    destruct Hr as (row & <- & Hrow). rewrite Forall_forall in Hrows. now apply Hrows. }
  assert (Hobs : Forall (Forall finite) (map (map of_int) (values table))).
  { apply Forall_forall. intros row Hrow. apply in_map_iff in Hrow.
    destruct Hrow as (zs & <- & _). apply Forall_forall. intros x Hx.
    apply in_map_iff in Hx. destruct Hx as (z & <- & _). exact I. }
  destruct (values table) as [| row0 rest] eqn:Hvals; [constructor |].
  assert (Htot : (0 < total)%Z).
  { unfold total, grand_total. simpl.
    pose proof (Forall_inv Hrts) as H0. simpl in H0.
    assert (0 <= zsum (map zsum rest))%Z.
    { apply zsum_nonneg. apply Forall_forall. intros z Hz.
      pose proof (Forall_inv_tail Hrts) as Ht. simpl in Ht.
      rewrite Forall_forall in Ht. specialize (Ht z Hz). lia. }
    unfold zsum in *. simpl in *. lia. }
  assert (Hexp : Forall (Forall (fun e => exists y, e = Fin y /\ (0 < y)%R))
                   (map (fun r => map (fun c => fdiv (of_int (r * c)) (of_int total)) cts)
                        (map zsum (row0 :: rest)))).
  { apply Forall_forall. intros erow Herow. apply in_map_iff in Herow.
    destruct Herow as (r & <- & Hr). rewrite Forall_forall in Hrts.
    specialize (Hrts r Hr).
    apply Forall_forall. intros e He. apply in_map_iff in He.
    destruct He as (c & <- & Hc). rewrite Forall_forall in Hcts. specialize (Hcts c Hc).
    exists (IZR (r * c) / IZR total)%R. split.
    - unfold of_int. apply fdiv_fin. apply not_0_IZR. lia.
    - apply Rdiv_lt_0_compat; apply IZR_lt; nia. }
  revert Hobs Hexp. apply Forall_map2. intros orow erow Ho He.
  revert Ho He. apply Forall_map2.
  intros o e Hfin (y & -> & Hy). destruct o as [x | | |]; try contradiction.
  rewrite residual_finite by exact Hy. exact I.
Qed.

Lemma residuals_finite_without_empty_lines_witness :
  let observed := iloc_drop_last survey_table in
  values observed = [[1; 0; 1]; [1; 1; 0]]%Z /\
  Forall (Forall finite)
         (_calculate_residuals (map (map of_int) (values observed))
                               (values (_calculate_expected_values observed))).
Proof.
  intros observed. split; [reflexivity |].
  apply (residuals_finite_without_empty_lines observed).
  - repeat constructor.
  - unfold no_overflow, int64. cbn. repeat split; repeat constructor; discriminate.
  - repeat constructor.
  - intros j Hj. simpl in Hj.
    destruct j as [| [| [| j]]]; try reflexivity. lia.
Defined.

(** The tables of [create_crosstab] have no empty row or column: without
    the margins, every row and every column of the table has a positive
    total, because a category is listed only when it was observed. *)
Theorem create_crosstab_no_empty_category :
  forall (stats : Scipy) (data : DataFrame) (row_var col_var : string)
         (include_percentages include_statistics : bool) (res : CrosstabResult),
    create_crosstab stats data row_var col_var include_percentages include_statistics
    = Ok res ->
    let observed := iloc_drop_last (table res) in
    rectangular (List.length (columns observed)) (values observed) /\
    Forall (fun row => (0 < zsum row)%Z) (values observed) /\
    (forall j, j < List.length (columns observed) ->
       (0 < zsum (col j (values observed)))%Z).
Proof.
  intros stats data row_var col_var ip st res H observed. unfold observed. clear observed.
  apply create_crosstab_inv in H.
  destruct H as (r & c & t & _ & _ & _ & _ & Hct & _ & -> & _).
  destruct (no_complete_row r c) eqn:Hsome.
  { rewrite (crosstab_empty _ _ Hsome) in Hct. injection Hct as <-.
    cbn. split; [constructor | split; [constructor | intros j Hj; lia]]. }
  pose proof (crosstab_margins_inv _ _ _ Hct Hsome) as Ht. cbv zeta in Ht. clear Hct.
  set (pairs := valid_pairs r c) in *.
  set (rcats := sort (unique (map fst pairs))) in *.
  set (ccats := sort (unique (map snd pairs))) in *.
  destruct Ht as (_ & _ & ->).
  unfold iloc_drop_last. cbn [index columns values].
  rewrite !removelast_last, map_map.
  assert (Hbody : map (fun rc => removelast (map (cell_count pairs rc) ccats
                                                ++ [row_size pairs rc])) rcats
                  = map (fun rc => map (cell_count pairs rc) ccats) rcats).
  { apply map_ext. intros rc. apply removelast_last. }
  rewrite Hbody. split; [| split].
  - apply Forall_forall. intros row Hrow. apply in_map_iff in Hrow.
    destruct Hrow as (rc & <- & _). now rewrite length_map.
  - apply Forall_forall. intros row Hrow. apply in_map_iff in Hrow.
    destruct Hrow as (rc & <- & Hrc).
    unfold ccats. rewrite row_cells_sum. now apply row_size_pos.
  - intros j Hj. unfold col. rewrite map_map.
    rewrite (map_ext _ (fun rc => cell_count pairs rc (nth j ccats VNaN))).
    + unfold rcats. rewrite col_cells_sum. apply col_size_pos. now apply nth_In.
    + intros rc. now apply nth_map_in.
Qed.

Lemma create_crosstab_no_empty_category_witness :
  empty survey = false /\
  forall stats : Scipy,
  exists res,
    create_crosstab stats survey "gender" "satisfaction" true false = Ok res /\
    values (iloc_drop_last (table res)) = [[1; 0; 1]; [1; 1; 0]]%Z /\
    Forall (fun row => (0 < zsum row)%Z) (values (iloc_drop_last (table res))) /\
    (forall j, j < List.length (columns (iloc_drop_last (table res))) ->
       (0 < zsum (col j (values (iloc_drop_last (table res)))))%Z).
Proof.
  split; [reflexivity |].
  intros stats.
  destruct (create_crosstab stats survey "gender" "satisfaction" true false)
    as [res |] eqn:Hrun; [| discriminate Hrun].
  destruct (create_crosstab_no_empty_category stats survey "gender" "satisfaction"
              true false res Hrun) as (_ & Hrows & Hcols).
  exists res. repeat split; trivial.
  now injection Hrun as <-.
Defined.

(* ------------------------------------------------------------------------- *)
(** ** The generator's column and total percentages *)

Lemma generator_column (t : frame Z) (nc j : nat) :
  rectangular nc (values t) -> j < nc ->
  fcol j (values (CrosstabGenerator._calculate_column_percentages t))
  = map (fun c => fmul (fdiv (of_int c) (of_int (zsum (col j (values t))))) (Fin 100))
        (col j (values t)).
Proof.
  intros Hrect Hj. unfold CrosstabGenerator._calculate_column_percentages, fcol, col.
  cbn [values]. rewrite !map_map. apply map_ext_in. intros row Hrow.
  unfold rectangular in Hrect. rewrite Forall_forall in Hrect.
  specialize (Hrect row Hrow).
  rewrite (nth_map2 _ _ _ _ 0 0%Z NaN) by (rewrite length_seq; lia).
  rewrite seq_nth by lia. reflexivity.
Qed.

(** On the table [pd.crosstab] builds with margins, whatever the two
    columns, [CrosstabGenerator._calculate_column_percentages] gives every
    category column cells that add up to 50 outside the 'All' row, and 50 in
    the 'All' row: the divisor is the sum of the column with its margin. *)
Theorem generator_category_columns_sum_to_50 :
  forall (r c : list value) (t : frame Z),
    crosstab r c true = Ok t ->
    let cp := CrosstabGenerator._calculate_column_percentages t in
    index cp = index t /\ columns cp = columns t /\
    forall j, j < List.length (columns cp) ->
      is_all (nth j (columns cp) All) = false ->
      fsum (non_margin (index cp) (fcol j (values cp))) = Fin 50 /\
      last (fcol j (values cp)) NaN = Fin 50.
Proof.
  intros r c t Hct cp. unfold cp. clear cp.
  destruct (no_complete_row r c) eqn:Hsome.
  { rewrite (crosstab_empty _ _ Hsome) in Hct. injection Hct as <-.
    split; [reflexivity | split; [reflexivity |]]. intros j Hj. cbn in Hj. lia. }
  destruct (crosstab_margins _ _ _ Hct Hsome) as [Hlast Hm].
  pose proof (crosstab_margins_inv _ _ _ Hct Hsome) as Ht. cbv zeta in Ht. clear Hct.
  set (pairs := valid_pairs r c) in *.
  set (rcats := sort (unique (map fst pairs))) in *.
  set (ccats := sort (unique (map snd pairs))) in *.
  destruct Ht as (Hnor & Hnoc & Ht).
  split; [reflexivity | split; [reflexivity |]].
  change (columns (CrosstabGenerator._calculate_column_percentages t)) with (columns t).
  change (index (CrosstabGenerator._calculate_column_percentages t)) with (index t).
  intros j Hj Hcat.
  destruct Hlast as (_ & _ & _ & _ & _ & _ & Hrows & Hrect).
  rewrite (generator_column t _ j Hrect Hj).
  assert (Hjc : j < List.length ccats).
  { rewrite Ht in Hj, Hcat. cbn [columns] in Hj, Hcat.
    rewrite length_app in Hj. simpl in Hj.
    destruct (Nat.eq_dec j (List.length ccats)) as [-> | Hne]; [| lia].
    rewrite app_nth2, Nat.sub_diag in Hcat by lia. discriminate Hcat. }
  assert (Hcol : col j (values t)
                 = map (fun rc => cell_count pairs rc (nth j ccats VNaN)) rcats
                   ++ [col_size pairs (nth j ccats VNaN)]).
  { rewrite Ht. cbn [values]. unfold col. rewrite map_app, map_map. cbn [map]. f_equal.
    - apply map_ext. intros rc. rewrite app_nth1 by now rewrite length_map.
      now apply nth_map_in.
    - f_equal. rewrite app_nth1 by now rewrite length_map. now apply nth_map_in. }
  assert (Hsum : zsum (map (fun rc => cell_count pairs rc (nth j ccats VNaN)) rcats)
                 = col_size pairs (nth j ccats VNaN)) by apply col_cells_sum.
  assert (Hpos : (0 < col_size pairs (nth j ccats VNaN))%Z).
  { apply col_size_pos. now apply nth_In. }
  rewrite Hcol, <- Hsum. rewrite <- Hsum in Hpos. split.
  - rewrite Ht. cbn [index]. rewrite non_margin_removelast.
    + now apply generator_row_half.
    + exact Hnor.
    + now rewrite length_map, !length_app, length_map.
  - now apply generator_row_last.
Qed.

Lemma generator_category_columns_sum_to_50_witness :
  crosstab [VStr "Male"; VStr "Female"; VStr "Male"; VStr "Female"]
           [VStr "High"; VStr "Medium"; VStr "Low"; VStr "High"] true
  = Ok survey_table /\
  let cp := CrosstabGenerator._calculate_column_percentages survey_table in
  fsum (non_margin (index cp) (fcol 0 (values cp))) = Fin 50 /\
  last (fcol 0 (values cp)) NaN = Fin 50.
Proof.
  split; [reflexivity |].
  destruct (generator_category_columns_sum_to_50
              [VStr "Male"; VStr "Female"; VStr "Male"; VStr "Female"]
              [VStr "High"; VStr "Medium"; VStr "Low"; VStr "High"] survey_table
              eq_refl) as (_ & _ & Hcols).
  apply (Hcols 0).
  - simpl. lia.
  - reflexivity.
Defined.

Lemma fgrand_total_share (total : Z) (m : list (list Z)) :
  total <> 0%Z ->
  fgrand_total
    (map (map (fun c => fmul (fdiv (of_int c) (of_int total)) (Fin 100))) m)
  = Fin (IZR (grand_total m) / IZR total * 100).
Proof.
  intros Hne. unfold fgrand_total. rewrite map_map.
  assert (Hrows :
            map (fun row =>
                   fsum (map (fun c => fmul (fdiv (of_int c) (of_int total)) (Fin 100)) row))
                m
            = map Fin (map (fun z => IZR z / IZR total * 100)%R (map zsum m))).
  { rewrite !map_map. apply map_ext. intros row.
    rewrite percent_cells_finite by exact Hne.
    now rewrite fsum_fin, rsum_percent, rsum_map_IZR. }
  now rewrite Hrows, fsum_fin, rsum_percent, rsum_map_IZR.
Qed.

(** On the table [pd.crosstab] builds with margins from at least one
    complete row, [CrosstabGenerator._calculate_total_percentages] gives
    cells in neither margin that add up to 25, and 25 in the bottom-right
    cell: the divisor is the sum of the whole table with its margins, four
    times the grand total. *)
Theorem generator_total_percentages_sum_to_25 :
  forall (r c : list value) (t : frame Z),
    crosstab r c true = Ok t ->
    (0 < last (last (values t) []) 0)%Z ->
    let tp := CrosstabGenerator._calculate_total_percentages t in
    grand_total (values t) = (4 * last (last (values t) []) 0)%Z /\
    fgrand_total (values (iloc_drop_last tp)) = Fin 25 /\
    last (last (values tp) []) NaN = Fin 25.
Proof.
  intros r c t Hct Hpos tp. unfold tp. clear tp.
  assert (Hsome : no_complete_row r c = false).
  { destruct (no_complete_row r c) eqn:E; [| reflexivity].
    rewrite (crosstab_empty _ _ E) in Hct. injection Hct as <-.
    cbn in Hpos. lia. }
  destruct (crosstab_margins _ _ _ Hct Hsome) as [_ (Hrows & _ & Hgrand)].
  pose proof (crosstab_margins_inv _ _ _ Hct Hsome) as Ht. cbv zeta in Ht. clear Hct.
  remember (last (last (values t) []) 0%Z) as n eqn:Hexp.
  set (body := map (@removelast Z) (removelast (values t))) in *.
  assert (Hfull : grand_total (values t) = (4 * n)%Z).
  { destruct Ht as (_ & _ & Ht).
    assert (Hn : n = Z.of_nat (List.length (valid_pairs r c))).
    { rewrite Hexp, Ht. cbn [values]. now rewrite !last_last. }
    rewrite Ht. cbn [values]. unfold grand_total.
    rewrite map_app, zsum_app, map_map. cbn [map].
    rewrite (map_ext _ (fun rc => (2 * row_size (valid_pairs r c) rc)%Z)).
    - change (zsum [?x]) with (x + 0)%Z.
      rewrite zsum_app, col_sizes_sum.
      change (zsum [?x]) with (x + 0)%Z.
      assert (Hdouble : forall l : list value,
                 zsum (map (fun rc => (2 * row_size (valid_pairs r c) rc)%Z) l)
                 = (2 * zsum (map (row_size (valid_pairs r c)) l))%Z).
      { induction l as [| x l IH]; [reflexivity |].
        cbn [map]. change (zsum (?a :: ?k)) with (a + zsum k)%Z. rewrite IH. lia. }
      rewrite Hdouble, row_sizes_sum. lia.
    - intros rc. rewrite zsum_app, row_cells_sum.
      change (zsum [?x]) with (x + 0)%Z. lia. }
  split; [exact Hfull | split].
  - unfold CrosstabGenerator._calculate_total_percentages, iloc_drop_last.
    cbn [values index columns]. rewrite Hfull.
    rewrite removelast_map, map_map.
    rewrite (map_ext (fun row => removelast (map _ row)) _
               (fun row => removelast_map _ row)).
    rewrite <- (map_map (@removelast Z)
                  (map (fun c0 => fmul (fdiv (of_int c0) (of_int (4 * n))) (Fin 100)))).
    fold body. rewrite fgrand_total_share by lia.
    rewrite <- Hgrand. rewrite mult_IZR. f_equal. field.
    apply not_0_IZR. lia.
  - unfold CrosstabGenerator._calculate_total_percentages. cbn [values]. rewrite Hfull.
    assert (Hn : (n <> 0)%Z) by lia. clear - Ht Hn Hexp.
    destruct Ht as (_ & _ & Ht). rewrite Ht in *. cbn [values] in *.
    rewrite !last_last in Hexp. rewrite <- Hexp.
    rewrite map_app. cbn [map]. rewrite last_last, map_app. cbn [map].
    rewrite last_last. unfold of_int. rewrite fdiv_fin by (apply not_0_IZR; lia).
    cbn [fmul]. rewrite mult_IZR. f_equal. field. apply not_0_IZR. lia.
Qed.

Lemma generator_total_percentages_sum_to_25_witness :
  crosstab [VStr "Male"; VStr "Female"; VStr "Male"; VStr "Female"]
           [VStr "High"; VStr "Medium"; VStr "Low"; VStr "High"] true
  = Ok survey_table /\
  grand_total (values survey_table) = 16%Z /\
  let tp := CrosstabGenerator._calculate_total_percentages survey_table in
  fgrand_total (values (iloc_drop_last tp)) = Fin 25 /\
  last (last (values tp) []) NaN = Fin 25.
Proof.
  split; [reflexivity | split; [reflexivity |]].
  apply (generator_total_percentages_sum_to_25
           [VStr "Male"; VStr "Female"; VStr "Male"; VStr "Female"]
           [VStr "High"; VStr "Medium"; VStr "Low"; VStr "High"] survey_table eq_refl).
  reflexivity.
Defined.
